(** * GroundTruth Surveyor: the offline survey lifecycle

    A shallow embedding of the three services of the surveyor client
    (VerificationService, StorageService, SyncService) and the properties
    of their contracts.  Every asynchronous method is a function from the
    service state and the outcomes the host reports during the call (clock
    readings, location samples, the result of opening the database, ...)
    to the new state and the value or the error the caller's promise
    settles with. *)

From Stdlib Require Import ZArith QArith Qround Qpower Qabs Lqa.
From Stdlib Require Import String Ascii List Lia.
From stdpp Require Import gmap strings list sorting pretty.

Local Open Scope string_scope.
Local Open Scope list_scope.

(** ** Results of fallible calls *)

(** A call either returns a value or throws [new Error(message)]. *)
Inductive Result (A : Type) : Type :=
| Ok (a : A)
| Threw (message : string).
Arguments Ok {A} a.
Arguments Threw {A} message.

Definition is_ok {A} (r : Result A) : bool :=
  match r with Ok _ => true | Threw _ => false end.

(** ** The JavaScript values the services inspect *)

Module Js.

(** Survey ids, question ids and answers are untyped in the source.
    Numbers that occur as ids, lengths and sizes are integers; a string
    is the sequence of its code units, each below 256.  A [Blob] is
    known by the two properties it exposes, its size in bytes and its
    MIME type; it has no enumerable property of its own.  An [Object]
    is a plain object, its own properties in insertion order. *)
#[local] Unset Elimination Schemes.
Inductive Value : Type :=
| Undefined
| Null
| Bool (b : bool)
| Number (n : Z)
| Str (s : string)
| Blob (size : Z) (type : string)
| Object (props : list (string * Value)).
#[local] Set Elimination Schemes.

(** ToBoolean, as used by [!x], [x || y] and [if (x)]. *)
Definition truthy (v : Value) : bool :=
  match v with
  | Undefined | Null => false
  | Bool b => b
  | Number n => negb (n =? 0)%Z
  | Str s => negb (String.eqb s "")
  | Blob _ _ => true
  | Object _ => true
  end.

Definition typeof (v : Value) : string :=
  match v with
  | Undefined => "undefined"
  | Null => "object"
  | Bool _ => "boolean"
  | Number _ => "number"
  | Str _ => "string"
  | Blob _ _ => "object"
  | Object _ => "object"
  end.

Fixpoint assoc (k : string) (props : list (string * Value)) : Value :=
  match props with
  | [] => Undefined
  | (k', v) :: rest => if String.eqb k k' then v else assoc k rest
  end.

(** Property read [v.k] on a value that is neither null nor undefined
    (the source reads properties only behind such a guard). *)
Definition get (v : Value) (k : string) : Value :=
  match v with
  | Object props => assoc k props
  | Str s => if String.eqb k "length"
             then Number (Z.of_nat (String.length s)) else Undefined
  | Blob size type => if String.eqb k "size" then Number size
                      else if String.eqb k "type" then Str type
                      else Undefined
  | _ => Undefined
  end.

(** [v === 'lit'] against a string literal. *)
Definition is_str (v : Value) (lit : string) : bool :=
  match v with
  | Str s => String.eqb s lit
  | _ => false
  end.

(** ToInt32: the value every bitwise operator reduces its operands and
    its result to. *)
Definition to_int32 (z : Z) : Z :=
  ((z + 2 ^ 31) mod 2 ^ 32 - 2 ^ 31)%Z.

(** [a << k] on numbers. *)
Definition shl (a k : Z) : Z := to_int32 (Z.shiftl (to_int32 a) k).

(** [a & b] on numbers. *)
Definition band (a b : Z) : Z := to_int32 (Z.land (to_int32 a) (to_int32 b)).

Definition hex_digit (d : Z) : ascii :=
  if (d <? 10)%Z then ascii_of_nat (Z.to_nat (48 + d))
  else ascii_of_nat (Z.to_nat (87 + d)).

Fixpoint hex_pos (fuel : nat) (z : Z) (acc : string) : string :=
  match fuel with
  | O => acc
  | S fuel' =>
      let acc' := String (hex_digit (z mod 16)) acc in
      if (z / 16 =? 0)%Z then acc' else hex_pos fuel' (z / 16) acc'
  end.

(** [n.toString(16)] for a non-negative integer below 2^64. *)
Definition to_hex (z : Z) : string := hex_pos 16 z "".

(** [array.slice(-k)]: the last [k] elements, the whole array when it
    is shorter. *)
Definition slice_last {A} (k : nat) (l : list A) : list A :=
  drop (length l - k) l.

(** A JSON text, by its syntax tree. *)
#[local] Unset Elimination Schemes.
Inductive Json : Type :=
| JNull
| JBool (b : bool)
| JNumber (n : Z)
| JString (s : string)
| JObject (members : list (string * Json)).
#[local] Set Elimination Schemes.

(** [JSON.stringify(v)]; [None] is the [undefined] it returns when there
    is nothing to write.  A property whose value is [undefined] is left
    out, and a [Blob], having no enumerable property of its own, is
    written as the empty object. *)
Fixpoint stringify (v : Value) : option Json :=
  match v with
  | Undefined => None
  | Null => Some JNull
  | Bool b => Some (JBool b)
  | Number n => Some (JNumber n)
  | Str s => Some (JString s)
  | Blob _ _ => Some (JObject [])
  | Object props =>
      Some (JObject
        ((fix members (ps : list (string * Value)) : list (string * Json) :=
            match ps with
            | [] => []
            | (k, x) :: rest =>
                match stringify x with
                | Some j => (k, j) :: members rest
                | None => members rest
                end
            end) props))
  end.

(** [JSON.parse(text)] *)
Fixpoint parse (j : Json) : Value :=
  match j with
  | JNull => Null
  | JBool b => Bool b
  | JNumber n => Number n
  | JString s => Str s
  | JObject members =>
      Object
        ((fix props (ms : list (string * Json)) : list (string * Value) :=
            match ms with
            | [] => []
            | (k, x) :: rest => (k, parse x) :: props rest
            end) members)
  end.

(** The value of a property of a parsed object; a property the text
    does not have reads as [undefined]. *)
Definition parsed (j : option Json) : Value :=
  match j with
  | Some j => parse j
  | None => Undefined
  end.

End Js.

(** ** Double precision arithmetic *)

(** Every JavaScript number is an IEEE 754 binary64 value, and a finite
    one is a rational.  [round] takes a rational to the nearest such
    value, a tie going to the even significand; this is what an
    arithmetic operator does to its exact result (as long as that stays
    below the overflow threshold, which the percentages computed here
    do). *)
Module Double.

Definition pow2 (e : Z) : Q := ((2 # 1) ^ e)%Q.

(** [floor (log2 x)] of a positive [x]. *)
Definition ilog2 (x : Q) : Z :=
  let d := (Z.log2 (Qnum x) - Z.log2 (Z.pos (Qden x)))%Z in
  if Qle_bool (pow2 d) x then d else (d - 1)%Z.

(** The exponent of the unit in the last place of the binade of [x]:
    53 significant bits, and no exponent below that of the subnormal
    numbers. *)
Definition ulp_exp (x : Q) : Z := Z.max (ilog2 x - 52) (- 1074).

(** The nearest integer, a tie going to the even one. *)
Definition nearest_even (x : Q) : Z :=
  let f := Qfloor x in
  match (x - inject_Z f ?= 1 # 2)%Q with
  | Lt => f
  | Gt => (f + 1)%Z
  | Eq => if Z.even f then f else (f + 1)%Z
  end.

Definition round_pos (x : Q) : Q :=
  (inject_Z (nearest_even (x / pow2 (ulp_exp x))) * pow2 (ulp_exp x))%Q.

Definition round (x : Q) : Q :=
  match (x ?= 0)%Q with
  | Eq => 0%Q
  | Gt => Qred (round_pos x)
  | Lt => Qred (- round_pos (- x))
  end.

(** [a / b] and [a * b] on numbers. *)
Definition div (a b : Q) : Q := round (a / b).
Definition mul (a b : Q) : Q := round (a * b).

(** The number an array index or length is: an integer below 2^53,
    which is a binary64 value as it stands. *)
Definition of_nat (n : nat) : Q := inject_Z (Z.of_nat n).

End Double.

(** ** What the host provides *)

(** The object literal that [generateVerificationHash] serialises, its
    seven properties in source order. *)
Record HashPayload (L : Type) : Type := {
  hp_surveyId : Js.Value;
  hp_startTime : option string;
  hp_endTime : option string;
  hp_startLocation : option L;
  hp_endLocation : option L;
  hp_answerCount : nat;
  hp_locationCount : nat
}.
Arguments hp_surveyId {L} _.
Arguments hp_startTime {L} _.
Arguments hp_endTime {L} _.
Arguments hp_startLocation {L} _.
Arguments hp_endLocation {L} _.
Arguments hp_answerCount {L} _.
Arguments hp_locationCount {L} _.

(** Builtins of the browser that the services call and never look inside:
    the geo-sample a location fix resolves with, the device snapshot, the
    milliseconds [new Date(s)] stands for ([None] is an invalid date),
    its local year, month index and day of month, and [JSON.stringify]
    on the hash payload. *)
Class Host : Type := {
  Location : Type;
  DeviceInfo : Type;
  Date_parse : string -> option Z;
  Date_local : option string -> option (Z * Z * Z);
  JSON_stringify : HashPayload Location -> string
}.

(** ** VerificationService *)

Module VerificationService.
Section Recorder.
Context `{Host}.

Record AnswerLog : Type := {
  questionId : Js.Value;
  timestamp : string;
  location : option Location;
  answerType : string;
  answerLength : Js.Value
}.

(** [this.verificationData]; [None] is [null], and [duration] and
    [verificationHash] are the two properties [completeSurvey] adds. *)
Record VerificationData : Type := {
  surveyId : Js.Value;
  startTime : option string;
  endTime : option string;
  startLocation : option Location;
  endLocation : option Location;
  environmentPhoto : Js.Value;
  answerTimestamps : list AnswerLog;
  locationHistory : list Location;
  deviceInfo : option DeviceInfo;
  duration : option Z;
  verificationHash : option string
}.

(** The singleton's fields; [locationWatcher] is the interval handle. *)
Record Service : Type := {
  currentSurvey : Js.Value;
  verificationData : VerificationData;
  locationWatcher : option nat;
  isTracking : bool
}.

(** The packet [completeSurvey] returns: a copy of the record's
    properties with [completedAt] and [version] added. *)
Record VerificationPacket : Type := {
  data : VerificationData;
  completedAt : string;
  version : string
}.

(** The snapshot [getVerificationStatus] returns. *)
Record Status : Type := {
  s_isActive : bool;
  s_surveyId : Js.Value;
  s_startTime : option string;
  s_answerCount : nat;
  s_locationCount : nat;
  s_isTracking : bool
}.

Definition constructor : Service := {|
  currentSurvey := Js.Null;
  verificationData := {|
    surveyId := Js.Null; startTime := None; endTime := None;
    startLocation := None; endLocation := None;
    environmentPhoto := Js.Null;
    answerTimestamps := []; locationHistory := [];
    deviceInfo := None; duration := None; verificationHash := None |};
  locationWatcher := None;
  isTracking := false
|}.

Definition with_data (f : VerificationData -> VerificationData)
    (s : Service) : Service := {|
  currentSurvey := currentSurvey s;
  verificationData := f (verificationData s);
  locationWatcher := locationWatcher s;
  isTracking := isTracking s
|}.

Definition with_currentSurvey (v : Js.Value) (s : Service) : Service := {|
  currentSurvey := v;
  verificationData := verificationData s;
  locationWatcher := locationWatcher s;
  isTracking := isTracking s
|}.

Definition push_answer (e : AnswerLog) (d : VerificationData)
    : VerificationData := {|
  surveyId := surveyId d; startTime := startTime d; endTime := endTime d;
  startLocation := startLocation d; endLocation := endLocation d;
  environmentPhoto := environmentPhoto d;
  answerTimestamps := answerTimestamps d ++ [e];
  locationHistory := locationHistory d;
  deviceInfo := deviceInfo d; duration := duration d;
  verificationHash := verificationHash d
|}.

Definition set_locationHistory (h : list Location) (d : VerificationData)
    : VerificationData := {|
  surveyId := surveyId d; startTime := startTime d; endTime := endTime d;
  startLocation := startLocation d; endLocation := endLocation d;
  environmentPhoto := environmentPhoto d;
  answerTimestamps := answerTimestamps d;
  locationHistory := h;
  deviceInfo := deviceInfo d; duration := duration d;
  verificationHash := verificationHash d
|}.

Definition set_startLocation (l : Location) (d : VerificationData)
    : VerificationData := {|
  surveyId := surveyId d; startTime := startTime d; endTime := endTime d;
  startLocation := Some l; endLocation := endLocation d;
  environmentPhoto := environmentPhoto d;
  answerTimestamps := answerTimestamps d;
  locationHistory := locationHistory d;
  deviceInfo := deviceInfo d; duration := duration d;
  verificationHash := verificationHash d
|}.

(** [startLocationTracking]: arms the 10 second interval unless one is
    already armed; [timer] is the handle [setInterval] returns. *)
Definition startLocationTracking (timer : nat) (s : Service) : Service :=
  if isTracking s then s
  else {| currentSurvey := currentSurvey s;
          verificationData := verificationData s;
          locationWatcher := Some timer;
          isTracking := true |}.

(** [stopLocationTracking] *)
Definition stopLocationTracking (s : Service) : Service :=
  match locationWatcher s with
  | Some _ => {| currentSurvey := currentSurvey s;
                 verificationData := verificationData s;
                 locationWatcher := None;
                 isTracking := false |}
  | None => s
  end.

(** One firing of the interval callback: the sample is pushed and, once
    the history is longer than 10, cut to [slice(-10)].  A rejected fix
    leaves the callback before the push. *)
Definition sampler_tick (fix_ : Result Location) (s : Service) : Service :=
  match fix_ with
  | Threw _ => s
  | Ok loc =>
      let pushed := locationHistory (verificationData s) ++ [loc] in
      let kept := if decide (10 < length pushed)
                  then Js.slice_last 10 pushed else pushed in
      with_data (set_locationHistory kept) s
  end.

(** [startSurvey(surveyId)] *)
Definition startSurvey (id : Js.Value) (now : string) (dev : DeviceInfo)
    (fix_ : Result Location) (timer : nat) (s : Service)
    : Service * Result VerificationData :=
  let fresh := {|
    surveyId := id; startTime := Some now; endTime := None;
    startLocation := None; endLocation := None;
    environmentPhoto := Js.Null;
    answerTimestamps := []; locationHistory := [];
    deviceInfo := Some dev; duration := None; verificationHash := None |} in
  let s1 := {| currentSurvey := id; verificationData := fresh;
               locationWatcher := locationWatcher s;
               isTracking := isTracking s |} in
  match fix_ with
  | Threw _ => (s1, Threw "Verification initialization failed")
  | Ok loc =>
      let s2 := with_data (set_startLocation loc) s1 in
      let s3 := startLocationTracking timer s2 in
      (s3, Ok (verificationData s3))
  end.

(** [getAnswerType] *)
Definition getAnswerType (answer : Js.Value) : string :=
  if String.eqb (Js.typeof answer) "string" then "text"
  else if String.eqb (Js.typeof answer) "object"
          && negb (match answer with Js.Null => true | _ => false end)
  then
    if Js.is_str (Js.get answer "type") "audio" then "audio"
    else if Js.is_str (Js.get answer "type") "photo" then "photo"
    else "object"
  else "unknown".

(** [getAnswerLength] *)
Definition getAnswerLength (answer : Js.Value) : Js.Value :=
  if String.eqb (Js.typeof answer) "string" then Js.get answer "length"
  else if String.eqb (Js.typeof answer) "object"
          && negb (match answer with Js.Null => true | _ => false end)
          && Js.truthy (Js.get answer "blob")
  then Js.get (Js.get answer "blob") "size"
  else Js.Number 0.

(** [logAnswer(questionId, answer)]: [fix_] is what the location fix
    settles with and [now] the clock reading that stamps the entry (one
    reading is taken on either path). *)
Definition logAnswer (q answer : Js.Value) (fix_ : Result Location)
    (now : string) (s : Service) : Service * Result unit :=
  if negb (Js.truthy (currentSurvey s)) then (s, Ok tt)
  else
    match fix_ with
    | Ok loc =>
        (with_data (push_answer {|
           questionId := q; timestamp := now; location := Some loc;
           answerType := getAnswerType answer;
           answerLength := getAnswerLength answer |}) s, Ok tt)
    | Threw _ =>
        (with_data (push_answer {|
           questionId := q; timestamp := now; location := None;
           answerType := getAnswerType answer;
           answerLength := getAnswerLength answer |}) s, Ok tt)
    end.

(** The loop of [generateVerificationHash]:
    [hash = ((hash << 5) - hash) + char; hash = hash & hash]. *)
Definition hash_step (hash : Z) (c : ascii) : Z :=
  let char := Z.of_nat (nat_of_ascii c) in
  let hash := (Js.shl hash 5 - hash + char)%Z in
  Js.band hash hash.

Definition hash_string (dataString : string) : Z :=
  fold_left hash_step (list_ascii_of_string dataString) 0%Z.

Definition hash_payload (d : VerificationData) : HashPayload Location := {|
  hp_surveyId := surveyId d;
  hp_startTime := startTime d;
  hp_endTime := endTime d;
  hp_startLocation := startLocation d;
  hp_endLocation := endLocation d;
  hp_answerCount := length (answerTimestamps d);
  hp_locationCount := length (locationHistory d)
|}.

(** [generateVerificationHash] *)
Definition generateVerificationHash (s : Service) : string :=
  let dataString := JSON_stringify (hash_payload (verificationData s)) in
  Js.to_hex (Z.abs (hash_string dataString)).

(** Milliseconds of [new Date(t)]; [new Date(null)] is the epoch. *)
Definition date_ms (t : option string) : option Z :=
  match t with
  | None => Some 0%Z
  | Some iso => Date_parse iso
  end.

(** [Math.round(x / 1000)] for an integer [x]: half-way cases go up. *)
Definition round_div_1000 (x : Z) : Z := ((x + 500) / 1000)%Z.

Definition finalize (loc : Location) (endT : string) (s : Service)
    : VerificationData :=
  let d := verificationData s in
  let d1 := {|
    surveyId := surveyId d; startTime := startTime d; endTime := Some endT;
    startLocation := startLocation d; endLocation := Some loc;
    environmentPhoto := environmentPhoto d;
    answerTimestamps := answerTimestamps d;
    locationHistory := locationHistory d;
    deviceInfo := deviceInfo d;
    duration :=
      match date_ms (Some endT), date_ms (startTime d) with
      | Some e, Some b => Some (round_div_1000 (e - b))
      | _, _ => None
      end;
    verificationHash := verificationHash d |} in
  {| surveyId := surveyId d1; startTime := startTime d1;
     endTime := endTime d1;
     startLocation := startLocation d1; endLocation := endLocation d1;
     environmentPhoto := environmentPhoto d1;
     answerTimestamps := answerTimestamps d1;
     locationHistory := locationHistory d1;
     deviceInfo := deviceInfo d1; duration := duration d1;
     verificationHash :=
       Some (generateVerificationHash (with_data (fun _ => d1) s)) |}.

(** [completeSurvey()]: [fix_] is the final location fix, [endT] the
    clock reading stored as [endTime], [doneT] the one stored as
    [completedAt]. *)
Definition completeSurvey (fix_ : Result Location) (endT doneT : string)
    (s : Service) : Service * Result VerificationPacket :=
  if negb (Js.truthy (currentSurvey s))
  then (s, Threw "No active survey to complete")
  else
    let s1 := stopLocationTracking s in
    match fix_ with
    | Threw _ => (s1, Threw "Verification completion failed")
    | Ok loc =>
        let d := finalize loc endT s1 in
        let s2 := with_data (fun _ => d) s1 in
        (with_currentSurvey Js.Null s2,
         Ok {| data := d; completedAt := doneT; version := "1.0" |})
    end.

(** [getVerificationStatus()] *)
Definition getVerificationStatus (s : Service) : Status := {|
  s_isActive := Js.truthy (currentSurvey s);
  s_surveyId := currentSurvey s;
  s_startTime := startTime (verificationData s);
  s_answerCount := length (answerTimestamps (verificationData s));
  s_locationCount := length (locationHistory (verificationData s));
  s_isTracking := isTracking s
|}.

End Recorder.
End VerificationService.

(** ** The answer classification of the specification *)

(** [classify] and [size] by the words of the specification, to compare
    [getAnswerType] and [getAnswerLength] with. *)
Module Spec.


(** The string length for text, the byte size of the attached binary
    payload (what the value under [blob] reports as its [size]) for an
    answer that carries one, else 0. *)
Definition size (answerValue : Js.Value) : Js.Value :=
  match answerValue with
  | Js.Str s => Js.Number (Z.of_nat (String.length s))
  | Js.Object props =>
      if Js.truthy (Js.assoc "blob" props)
      then Js.get (Js.assoc "blob" props) "size"
      else Js.Number 0
  | _ => Js.Number 0
  end.

End Spec.

(** ** StorageService *)

Module StorageService.

(** A survey packet as the store holds it.  [surveyId] is the id in the
    form the medium keys it by; [body] stands for the properties the
    store copies and never reads (answers, notes, verification). *)
Record Packet : Type := {
  surveyId : string;
  status : Js.Value;
  syncStatus : Js.Value;
  createdAt : option string;
  syncedAt : option string;
  completedAt : option string;
  body : Js.Value
}.

(** The text [JSON.stringify(packet)] of a packet, by the JSON value of
    each of its properties; a property the text does not have is
    [None]. *)
Record Text : Type := {
  t_surveyId : string;
  t_status : option Js.Json;
  t_syncStatus : option Js.Json;
  t_createdAt : option string;
  t_syncedAt : option string;
  t_completedAt : option string;
  t_body : option Js.Json
}.

(** [JSON.stringify(packet)] *)
Definition to_json (p : Packet) : Text := {|
  t_surveyId := surveyId p;
  t_status := Js.stringify (status p);
  t_syncStatus := Js.stringify (syncStatus p);
  t_createdAt := createdAt p;
  t_syncedAt := syncedAt p;
  t_completedAt := completedAt p;
  t_body := Js.stringify (body p)
|}.

(** [JSON.parse(text)] *)
Definition of_json (t : Text) : Packet := {|
  surveyId := t_surveyId t;
  status := Js.parsed (t_status t);
  syncStatus := Js.parsed (t_syncStatus t);
  createdAt := t_createdAt t;
  syncedAt := t_syncedAt t;
  completedAt := t_completedAt t;
  body := Js.parsed (t_body t)
|}.

(** The singleton's fields ([db] is the database handle or null). *)
Record Service : Type := {
  isInitialized : bool;
  useLocalStorageFallback : bool;
  db : option unit
}.

(** The two media: the [surveyPackets] object store of the database,
    which keeps a structured clone of each record under its key path
    [surveyId], and [localStorage], which keeps strings, here the JSON
    texts written to it. *)
Record Media : Type := {
  surveyPackets : gmap string Packet;
  localStorage : gmap string Text
}.

Record World : Type := {
  svc : Service;
  media : Media
}.

(** What opening the database does. *)
Inductive OpenOutcome : Type :=
| NoIndexedDB   (* [window.indexedDB] is falsy *)
| OpenThrows    (* [indexedDB.open] throws inside the promise executor *)
| OpenError     (* the request fires [onerror] *)
| OpenSuccess.  (* the request fires [onsuccess] *)

(** What the host reports during one call: the outcome of opening the
    database if the call has to initialise, and whether the medium
    accepts the read and the write the call issues. *)
Record HostIO : Type := {
  opening : OpenOutcome;
  read_ok : bool;
  write_ok : bool
}.

Record Stats : Type := {
  totalSurveys : nat;
  completedSurveys : nat;
  pendingSync : nat;
  syncedSurveys : nat;
  lastUpdate : string
}.

Definition constructor : Service := {|
  isInitialized := false;
  useLocalStorageFallback := false;
  db := None
|}.

Definition key_of (id : string) : string := String.append "survey_" id.

Definition is_survey_key (key : string) : bool := String.prefix "survey_" key.

(** [initializeDB()]: the promise resolves on every path that reaches
    [resolve]; a throw inside the executor rejects it. *)
Definition initializeDB (o : OpenOutcome) (s : Service)
    : Service * Result unit :=
  match o with
  | NoIndexedDB =>
      ({| isInitialized := isInitialized s;
          useLocalStorageFallback := true; db := db s |}, Ok tt)
  | OpenThrows => (s, Threw "SecurityError")
  | OpenError =>
      ({| isInitialized := isInitialized s;
          useLocalStorageFallback := true; db := db s |}, Ok tt)
  | OpenSuccess =>
      ({| isInitialized := isInitialized s;
          useLocalStorageFallback := useLocalStorageFallback s;
          db := Some tt |}, Ok tt)
  end.

(** [initialize()] *)
Definition initialize (o : OpenOutcome) (s : Service)
    : Service * Result unit :=
  if isInitialized s then (s, Ok tt)
  else
    match initializeDB o s with
    | (s', Ok _) =>
        ({| isInitialized := true;
            useLocalStorageFallback := useLocalStorageFallback s';
            db := db s' |}, Ok tt)
    | (s', Threw _) => (s', Threw "Storage initialization failed")
    end.

(** [ensureInitialized()] *)
Definition ensureInitialized (o : OpenOutcome) (s : Service)
    : Service * Result unit :=
  if negb (isInitialized s) then initialize o s else (s, Ok tt).

(** The entries of a medium in ascending key order, the order in which
    the object store and its indexes return their records; keys are
    strings here and are compared code unit by code unit.  The order of
    [localStorage.key(i)] is left to the user agent; the loops over it
    are modelled as walking the keys in the same order. *)
Definition key_le {A} (a b : string * A) : Prop :=
  String.leb a.1 b.1 = true.

#[global] Instance key_le_dec {A} (a b : string * A)
    : Decision (key_le a b) :=
  decide (String.leb a.1 b.1 = true).

Definition in_key_order {A} (m : gmap string A) : list (string * A) :=
  merge_sort key_le (map_to_list m).

Definition set_localStorage (ls : gmap string Text) (m : Media) : Media :=
  {| surveyPackets := surveyPackets m; localStorage := ls |}.

Definition set_surveyPackets (sp : gmap string Packet) (m : Media) : Media :=
  {| surveyPackets := sp; localStorage := localStorage m |}.

(** [putData('surveyPackets', data)]: an upsert under the key path. *)
Definition putData (io : HostIO) (s : Service) (p : Packet) (m : Media)
    : Media * Result unit :=
  match db s with
  | None => (m, Threw "TypeError")
  | Some _ =>
      if write_ok io
      then (set_surveyPackets (<[surveyId p := p]> (surveyPackets m)) m, Ok tt)
      else (m, Threw "request error")
  end.

(** [localStorage.setItem(key, JSON.stringify(p))] *)
Definition setItem (io : HostIO) (key : string) (p : Packet) (m : Media)
    : Media * Result unit :=
  if write_ok io
  then (set_localStorage (<[key := to_json p]> (localStorage m)) m, Ok tt)
  else (m, Threw "QuotaExceededError").

(** [JSON.parse(localStorage.getItem(key))]; [None] is the [null] that
    [getItem] returns for a key that is not there. *)
Definition getItem (key : string) (m : Media) : option Packet :=
  of_json <$> localStorage m !! key.

(** [getData('surveyPackets', key)] *)
Definition getData (io : HostIO) (s : Service) (key : string) (m : Media)
    : Result (option Packet) :=
  match db s with
  | None => Threw "TypeError"
  | Some _ => if read_ok io then Ok (surveyPackets m !! key)
              else Threw "request error"
  end.

(** The packet object [saveSurveyPacket] builds from its argument. *)
Definition packetData (now : string) (packet : Packet) : Packet := {|
  surveyId := surveyId packet;
  status := if Js.truthy (status packet) then status packet
            else Js.Str "completed";
  syncStatus := Js.Str "pending";
  createdAt := Some now;
  syncedAt := syncedAt packet;
  completedAt := completedAt packet;
  body := body packet
|}.

(** [saveSurveyPacket(packet)] *)
Definition saveSurveyPacket (io : HostIO) (now : string) (packet : Packet)
    (w : World) : World * Result Packet :=
  match ensureInitialized (opening io) (svc w) with
  | (s, Threw e) => ({| svc := s; media := media w |}, Threw e)
  | (s, Ok _) =>
      let pd := packetData now packet in
      let written :=
        if useLocalStorageFallback s
        then setItem io (key_of (surveyId packet)) pd (media w)
        else putData io s pd (media w) in
      match written with
      | (m, Ok _) => ({| svc := s; media := m |}, Ok pd)
      | (m, Threw _) =>
          ({| svc := s; media := m |}, Threw "Survey packet save failed")
      end
  end.

Definition is_pending (p : Packet) : bool := Js.is_str (syncStatus p) "pending".
Definition is_synced (p : Packet) : bool := Js.is_str (syncStatus p) "synced".

(** The packets that the texts under the [survey_] keys of
    [localStorage] parse to. *)
Definition local_packets (m : Media) : list Packet :=
  of_json <$>
    (List.filter (fun kv => is_survey_key kv.1)
       (in_key_order (localStorage m))).*2.

(** [getAllData('surveyPackets')] *)
Definition getAllData (io : HostIO) (s : Service) (m : Media)
    : Result (list Packet) :=
  match db s with
  | None => Threw "TypeError"
  | Some _ => if read_ok io then Ok (in_key_order (surveyPackets m)).*2
              else Threw "request error"
  end.

(** [getSurveyPacketsForSync()] *)
Definition getSurveyPacketsForSync (io : HostIO) (w : World)
    : World * Result (list Packet) :=
  match ensureInitialized (opening io) (svc w) with
  | (s, Threw e) => ({| svc := s; media := media w |}, Threw e)
  | (s, Ok _) =>
      let w' := {| svc := s; media := media w |} in
      if useLocalStorageFallback s
      then (w', Ok (List.filter is_pending (local_packets (media w))))
      else
        match getAllData io s (media w) with
        | Ok all => (w', Ok (List.filter is_pending all))
        | Threw _ => (w', Ok [])
        end
  end.

(** The update [markPacketAsSynced] applies to the packet it found. *)
Definition mark (now : string) (p : Packet) : Packet := {|
  surveyId := surveyId p;
  status := status p;
  syncStatus := Js.Str "synced";
  createdAt := createdAt p;
  syncedAt := Some now;
  completedAt := completedAt p;
  body := body p
|}.

(** [markPacketAsSynced(surveyId)]: errors of the medium are logged and
    not rethrown. *)
Definition markPacketAsSynced (io : HostIO) (now : string) (id : string)
    (w : World) : World * Result unit :=
  match ensureInitialized (opening io) (svc w) with
  | (s, Threw e) => ({| svc := s; media := media w |}, Threw e)
  | (s, Ok _) =>
      let m := media w in
      let m' :=
        if useLocalStorageFallback s
        then
          match getItem (key_of id) m with
          | Some p => (setItem io (key_of id) (mark now p) m).1
          | None => m
          end
        else
          match getData io s id m with
          | Ok (Some p) => (putData io s (mark now p) m).1
          | Ok None => m
          | Threw _ => m
          end in
      ({| svc := s; media := m' |}, Ok tt)
  end.

(** [getStorageStats()] *)
Definition getStorageStats (io : HostIO) (now : string) (w : World)
    : World * Result Stats :=
  match ensureInitialized (opening io) (svc w) with
  | (s, Threw e) => ({| svc := s; media := media w |}, Threw e)
  | (s, Ok _) =>
      let w' := {| svc := s; media := media w |} in
      let read :=
        if useLocalStorageFallback s then Ok (local_packets (media w))
        else getAllData io s (media w) in
      match read with
      | Ok packets =>
          (w', Ok {| totalSurveys := length packets;
                     completedSurveys := length packets;
                     pendingSync := length (List.filter is_pending packets);
                     syncedSurveys := length (List.filter is_synced packets);
                     lastUpdate := now |})
      | Threw _ =>
          (w', Ok {| totalSurveys := 0; completedSurveys := 0;
                     pendingSync := 0; syncedSurveys := 0;
                     lastUpdate := now |})
      end
  end.

(** [clearAllData()] *)
Definition clearAllData (io : HostIO) (w : World) : World * Result unit :=
  match ensureInitialized (opening io) (svc w) with
  | (s, Threw e) => ({| svc := s; media := media w |}, Threw e)
  | (s, Ok _) =>
      let m := media w in
      if useLocalStorageFallback s
      then ({| svc := s;
               media := set_localStorage
                 (filter (fun kv => ¬ Is_true (is_survey_key kv.1))
                    (localStorage m)) m |}, Ok tt)
      else
        match db s with
        | Some _ =>
            if write_ok io
            then ({| svc := s; media := set_surveyPackets ∅ m |}, Ok tt)
            else ({| svc := s; media := m |}, Threw "Data clear failed")
        | None => ({| svc := s; media := m |}, Threw "Data clear failed")
        end
  end.

(** The packet the service finds under a survey id, on the medium it
    is using. *)
Definition stored (w : World) (id : string) : option Packet :=
  if useLocalStorageFallback (svc w)
  then getItem (key_of id) (media w)
  else surveyPackets (media w) !! id.

(** Every packet the service can see, on either medium. *)
Definition held (w : World) (p : Packet) : Prop :=
  (∃ k, surveyPackets (media w) !! k = Some p) ∨
  (∃ k, getItem k (media w) = Some p).

End StorageService.

(** ** SyncService *)

Module SyncService.
Import StorageService.
Section Coordinator.
Context `{Host}.

(** The singleton's fields that the sync path reads or writes. *)
Record Service : Type := {
  isOnline : bool;
  isSyncing : bool;
  syncProgress : Q
}.

(** The coordinator together with the store it drains. *)
Record System : Type := {
  sync : Service;
  store : World
}.

(** One entry of the per-packet result list; an absent property is
    [None]. *)
Record PacketResult : Type := {
  r_success : bool;
  r_surveyId : string;
  r_s3Key : option string;
  r_uploadedAt : option string;
  r_error : option string
}.

(** The object a sync run resolves with; [total] and [results] are
    [None] when the object literal has no such property. *)
Record SyncResult : Type := {
  success : bool;
  synced : nat;
  failed : nat;
  total : option nat;
  results : option (list PacketResult)
}.

(** What the host reports while one packet is processed: what the
    awaited upload (simulated by [delay(500)]) settles with, the
    outcomes of the store call, and the clock readings. *)
Record PacketEnv : Type := {
  upload : Result unit;
  mark_io : HostIO;
  mark_now : string;
  uploaded_now : string;
  key_now : Z
}.

Record RunEnv : Type := {
  list_io : HostIO;
  per_packet : nat -> PacketEnv
}.

(** The [online] and [offline] listeners. *)
Definition on_online (s : Service) : Service :=
  {| isOnline := true; isSyncing := isSyncing s;
     syncProgress := syncProgress s |}.

Definition on_offline (s : Service) : Service :=
  {| isOnline := false; isSyncing := isSyncing s;
     syncProgress := syncProgress s |}.

(** [String(n).padStart(2, '0')] *)
Definition pad2 (s : string) : string :=
  match String.length s with
  | 0 => "00"
  | 1 => String.append "0" s
  | _ => s
  end.

(** [generateS3Key(packet)] *)
Definition generateS3Key (nowMs : Z) (packet : Packet) : string :=
  let '(year, month, day) :=
    match Date_local (completedAt packet) with
    | Some (y, m, d) => (pretty y, pad2 (pretty (m + 1)%Z), pad2 (pretty d))
    | None => ("NaN", "NaN", "NaN")
    end in
  String.concat ""
    ["surveys/"; year; "/"; month; "/"; day; "/";
     surveyId packet; "_"; pretty nowMs; ".json"].

(** The locals of the loop in [syncAllPendingData]. *)
Record Loop : Type := {
  l_sys : System;
  syncedCount : nat;
  failedCount : nat;
  l_results : list PacketResult
}.

Definition set_progress (q : Q) (st : System) : System :=
  {| sync := {| isOnline := isOnline (sync st);
                isSyncing := isSyncing (sync st);
                syncProgress := q |};
     store := store st |}.

Definition set_store (w : World) (st : System) : System :=
  {| sync := sync st; store := w |}.

Definition failure (packet : Packet) (e : string) : PacketResult :=
  {| r_success := false; r_surveyId := surveyId packet;
     r_s3Key := None; r_uploadedAt := None; r_error := Some e |}.

(** One iteration of the loop, for the packet at index [i] of [n]
    (the loop runs only on a list that is not empty, so [n] is not
    0). *)
Definition sync_one (env : RunEnv) (n i : nat) (packet : Packet)
    (l : Loop) : Loop :=
  let e := per_packet env i in
  let st := set_progress
    (Double.mul (Double.div (Double.of_nat (i + 1)) (Double.of_nat n))
       (100 # 1)) (l_sys l) in
  match upload e with
  | Threw msg =>
      {| l_sys := st; syncedCount := syncedCount l;
         failedCount := failedCount l + 1;
         l_results := l_results l ++ [failure packet msg] |}
  | Ok _ =>
      match markPacketAsSynced (mark_io e) (mark_now e) (surveyId packet)
              (store st) with
      | (w, Threw msg) =>
          {| l_sys := set_store w st; syncedCount := syncedCount l;
             failedCount := failedCount l + 1;
             l_results := l_results l ++ [failure packet msg] |}
      | (w, Ok _) =>
          {| l_sys := set_store w st; syncedCount := syncedCount l + 1;
             failedCount := failedCount l;
             l_results := l_results l ++
               [{| r_success := true; r_surveyId := surveyId packet;
                   r_s3Key := Some (generateS3Key (key_now e) packet);
                   r_uploadedAt := Some (uploaded_now e);
                   r_error := None |}] |}
      end
  end.

Fixpoint sync_loop (env : RunEnv) (n i : nat) (packets : list Packet)
    (l : Loop) : Loop :=
  match packets with
  | [] => l
  | packet :: rest => sync_loop env n (S i) rest (sync_one env n i packet l)
  end.

(** The two guards and the two assignments before the [try]. *)
Definition enter (s : Service) : Result Service :=
  if negb (isOnline s) then Threw "No internet connection available"
  else if isSyncing s then Threw "Sync already in progress"
  else Ok {| isOnline := isOnline s; isSyncing := true; syncProgress := 0 |}.

(** The [try] block. *)
Definition attempt (env : RunEnv) (st : System)
    : System * Result SyncResult :=
  match getSurveyPacketsForSync (list_io env) (store st) with
  | (w, Threw e) => (set_store w st, Threw e)
  | (w, Ok []) =>
      (set_store w st,
       Ok {| success := true; synced := 0; failed := 0;
             total := None; results := None |})
  | (w, Ok pendingPackets) =>
      let l := sync_loop env (length pendingPackets) 0 pendingPackets
                 {| l_sys := set_store w st; syncedCount := 0;
                    failedCount := 0; l_results := [] |} in
      (l_sys l,
       Ok {| success := Nat.eqb (failedCount l) 0;
             synced := syncedCount l;
             failed := failedCount l;
             total := Some (length pendingPackets);
             results := Some (l_results l) |})
  end.

(** The [finally] block. *)
Definition leave (st : System) : System :=
  {| sync := {| isOnline := isOnline (sync st);
                isSyncing := false; syncProgress := 0 |};
     store := store st |}.

(** [syncAllPendingData()] *)
Definition syncAllPendingData (env : RunEnv) (st : System)
    : System * Result SyncResult :=
  match enter (sync st) with
  | Threw e => (st, Threw e)
  | Ok s =>
      let '(st', r) := attempt env {| sync := s; store := store st |} in
      (leave st', r)
  end.

(** The states a second caller can observe while a run that passed the
    guards is suspended: after the guards, and after each packet. *)
Definition in_flight (env : RunEnv) (st : System) (k : nat)
    : option System :=
  match enter (sync st) with
  | Threw _ => None
  | Ok s =>
      let st0 := {| sync := s; store := store st |} in
      match getSurveyPacketsForSync (list_io env) (store st0) with
      | (w, Ok pendingPackets) =>
          Some (l_sys (sync_loop env (length pendingPackets) 0
                         (take k pendingPackets)
                         {| l_sys := set_store w st0; syncedCount := 0;
                            failedCount := 0; l_results := [] |}))
      | (w, Threw _) => Some st0
      end
  end.

End Coordinator.
End SyncService.

(** ** The three singletons of one page *)

Module App.
Import StorageService.
Section Page.
Context `{Host}.

Record State : Type := {
  verification : VerificationService.Service;
  coordinator : SyncService.Service;
  storage : World
}.

(** [VerificationService.completeSurvey()] as a step of the page: the
    method reads and writes the recorder singleton only. *)
Definition completeSurvey (fix_ : Result Location) (endT doneT : string)
    (a : State) : State * Result VerificationService.VerificationPacket :=
  let '(v, r) :=
    VerificationService.completeSurvey fix_ endT doneT (verification a) in
  ({| verification := v; coordinator := coordinator a;
      storage := storage a |}, r).

End Page.
End App.

(** ** Runs of calls *)

Module Calls.
Import StorageService.

(** A call on the store, with what the host reports during it. *)
Inductive Call : Type :=
| Initialize (o : OpenOutcome)
| Save (io : HostIO) (now : string) (packet : Packet)
| MarkSynced (io : HostIO) (now : string) (id : string)
| ListPending (io : HostIO)
| GetStats (io : HostIO) (now : string)
| ClearAll (io : HostIO).

Definition step (c : Call) (w : World) : World :=
  match c with
  | Initialize o => {| svc := (initialize o (svc w)).1; media := media w |}
  | Save io now packet => (saveSurveyPacket io now packet w).1
  | MarkSynced io now id => (markPacketAsSynced io now id w).1
  | ListPending io => (getSurveyPacketsForSync io w).1
  | GetStats io now => (getStorageStats io now w).1
  | ClearAll io => (clearAllData io w).1
  end.

Definition run (calls : list Call) (w : World) : World :=
  fold_left (fun w c => step c w) calls w.

(** The store of a fresh page on a device that holds no data yet. *)
Definition fresh : World := {|
  svc := constructor;
  media := {| surveyPackets := ∅; localStorage := ∅ |}
|}.

(** [syncStatus] of the packet stored under [id]. *)
Definition status_at (w : World) (id : string) : option Js.Value :=
  syncStatus <$> stored w id.

(** Calls that can take the packet under [id] away from [synced]: a
    save of that id, and clearing the store. *)
Definition rewrites (id : string) (c : Call) : bool :=
  match c with
  | Save _ _ packet => String.eqb (surveyId packet) id
  | ClearAll _ => true
  | _ => false
  end.

(** The object store keeps every record under the value of its key
    path [surveyId]. *)
Definition well_keyed (w : World) : Prop :=
  map_Forall (fun k p => surveyId p = k) (surveyPackets (media w)).

(** The two values [syncStatus] is ever given. *)
Definition valid_status (p : Packet) : Prop :=
  syncStatus p = Js.Str "pending" ∨ syncStatus p = Js.Str "synced".

(** Both media hold only packets whose [syncStatus] is pending or
    synced. *)
Definition all_valid (w : World) : Prop :=
  map_Forall (fun _ p => valid_status p) (surveyPackets (media w)) ∧
  map_Forall (fun _ t => valid_status (of_json t)) (localStorage (media w)).

Section Events.
Context `{Host}.

(** What happens to the recorder between [startSurvey] and
    [completeSurvey]: the interval fires, or an answer is logged. *)
Inductive Event : Type :=
| Tick (fix_ : Result Location)
| Answer (q answer : Js.Value) (fix_ : Result Location) (now : string).

Definition react (e : Event) (s : VerificationService.Service)
    : VerificationService.Service :=
  match e with
  | Tick fix_ => VerificationService.sampler_tick fix_ s
  | Answer q a fix_ now => (VerificationService.logAnswer q a fix_ now s).1
  end.

Definition play (events : list Event) (s : VerificationService.Service)
    : VerificationService.Service :=
  fold_left (fun s e => react e s) events s.

(** The samples that arrived, in arrival order. *)
Fixpoint samples (events : list Event) : list Location :=
  match events with
  | [] => []
  | Tick (Ok loc) :: rest => loc :: samples rest
  | _ :: rest => samples rest
  end.

End Events.
End Calls.

(** ** A host to evaluate the services on *)

Module Sim.

(** A location fix with integer coordinates (micro-degrees, metres). *)
Record Fix : Type := {
  latitude : Z;
  longitude : Z;
  accuracy : Z;
  fix_time : string
}.

Definition quote (s : string) : string :=
  let q := String (ascii_of_nat 34) EmptyString in
  String.concat "" [q; s; q].

Fixpoint render (v : Js.Value) : string :=
  match v with
  | Js.Undefined => "undefined"
  | Js.Null => "null"
  | Js.Bool true => "true"
  | Js.Bool false => "false"
  | Js.Number n => pretty n
  | Js.Str s => quote s
  | Js.Blob _ _ => "{}"
  | Js.Object props =>
      String.concat ""
        ["{";
         (fix members (ps : list (string * Js.Value)) : string :=
            match ps with
            | [] => ""
            | (k, x) :: rest =>
                String.concat ""
                  [quote k; ":"; render x;
                   match rest with [] => "" | _ => "," end;
                   members rest]
            end) props;
         "}"]
  end.

Definition render_time (t : option string) : string :=
  match t with Some s => quote s | None => "null" end.

Definition render_fix (l : option Fix) : string :=
  match l with
  | None => "null"
  | Some f =>
      render (Js.Object
        [("latitude", Js.Number (latitude f));
         ("longitude", Js.Number (longitude f));
         ("accuracy", Js.Number (accuracy f));
         ("timestamp", Js.Str (fix_time f))])
  end.

Definition stringify (p : HashPayload Fix) : string :=
  String.concat ""
    ["{"; quote "surveyId"; ":"; render (hp_surveyId p); ",";
     quote "startTime"; ":"; render_time (hp_startTime p); ",";
     quote "endTime"; ":"; render_time (hp_endTime p); ",";
     quote "startLocation"; ":"; render_fix (hp_startLocation p); ",";
     quote "endLocation"; ":"; render_fix (hp_endLocation p); ",";
     quote "answerCount"; ":"; pretty (hp_answerCount p); ",";
     quote "locationCount"; ":"; pretty (hp_locationCount p); "}"].

(** The instants the clock of this host shows. *)
Definition t0 : string := "2024-03-05T10:00:00.000Z".
Definition t1 : string := "2024-03-05T10:00:10.000Z".
Definition t2 : string := "2024-03-05T10:04:59.600Z".
Definition t3 : string := "2024-03-05T10:05:00.000Z".

Definition parse (s : string) : option Z :=
  if String.eqb s t0 then Some 1709632800000%Z
  else if String.eqb s t1 then Some 1709632810000%Z
  else if String.eqb s t2 then Some 1709633099600%Z
  else if String.eqb s t3 then Some 1709633100000%Z
  else None.

Definition local_date (t : option string) : option (Z * Z * Z) :=
  match t with
  | None => None
  | Some s => match parse s with
              | Some _ => Some (2024, 2, 5)%Z
              | None => None
              end
  end.

Definition host : Host := {|
  Location := Fix;
  DeviceInfo := string;
  Date_parse := parse;
  Date_local := local_date;
  JSON_stringify := stringify
|}.

Definition here : Fix :=
  {| latitude := 25612300; longitude := 85127400; accuracy := 10;
     fix_time := t0 |}.

End Sim.

(** *** Scenarios on this host *)

Module Scenario.
Import StorageService.
#[local] Existing Instance Sim.host.

Definition io_ok : HostIO :=
  {| opening := OpenSuccess; read_ok := true; write_ok := true |}.

Definition packet (id : string) : Packet := {|
  surveyId := id;
  status := Js.Str "completed";
  syncStatus := Js.Undefined;
  createdAt := None;
  syncedAt := None;
  completedAt := Some Sim.t3;
  body := Js.Object [("notes", Js.Str "")]
|}.

(** A store in which packet [S1] has been saved and then synced. *)
Definition synced_S1 : World :=
  Calls.run [Calls.Save io_ok Sim.t3 (packet "S1");
             Calls.MarkSynced io_ok Sim.t3 "S1"] Calls.fresh.

(** A store in which [S2] and [S3] wait for sync. *)
Definition pending_S2_S3 : World :=
  Calls.run [Calls.Save io_ok Sim.t3 (packet "S2");
             Calls.Save io_ok Sim.t3 (packet "S3")] Calls.fresh.

(** The recorder after survey 1 was started, one answer was logged and
    the interval fired once. *)
Definition recorded (answer : Js.Value) (device : string)
    : VerificationService.Service :=
  Calls.play
    [Calls.Answer (Js.Number 1) answer (Ok Sim.here) Sim.t1;
     Calls.Tick (Ok Sim.here)]
    (VerificationService.startSurvey (Js.Number 7) Sim.t0 device
       (Ok Sim.here) 1 VerificationService.constructor).1.

Definition online : SyncService.Service :=
  {| SyncService.isOnline := true; SyncService.isSyncing := false;
     SyncService.syncProgress := 0 |}.

(** The upload at index [failing] fails, every other one succeeds. *)
Definition uploads (failing : nat) : SyncService.RunEnv := {|
  SyncService.list_io := io_ok;
  SyncService.per_packet := fun i =>
    {| SyncService.upload :=
         if Nat.eqb i failing then Threw "upload failed" else Ok tt;
       SyncService.mark_io := io_ok;
       SyncService.mark_now := Sim.t3;
       SyncService.uploaded_now := Sim.t3;
       SyncService.key_now := 1709633100000 |}
|}.

End Scenario.

(** ** Views of the store *)

Module StoreView.
Import StorageService.

(** A service that went through [initialize]: it has switched to the
    fallback or it holds the database handle. *)
Definition ready (w : World) : Prop :=
  isInitialized (svc w) = true ∧
  (useLocalStorageFallback (svc w) = true ∨ db (svc w) = Some tt).

(** Every [survey_] entry of [localStorage] sits under the key built
    from its own [surveyId]. *)
Definition ls_keyed (w : World) : Prop :=
  map_Forall
    (fun k t => is_survey_key k = true → k = key_of (t_surveyId t))
    (localStorage (media w)).

(** The packets the service reads from the medium it is using. *)
Definition visible (w : World) : list Packet :=
  if useLocalStorageFallback (svc w) then local_packets (media w)
  else (in_key_order (surveyPackets (media w))).*2.

End StoreView.

(** ** Views of the recorder *)

Module RecorderView.
Import VerificationService Calls.
Section Entries.
Context `{Host}.

(** The entries that the answers among [events] put in the log, in call
    order. *)
Fixpoint logged (events : list Event) : list AnswerLog :=
  match events with
  | [] => []
  | Answer q answer fix_ now :: rest =>
      {| questionId := q; timestamp := now;
         location := match fix_ with Ok loc => Some loc | Threw _ => None end;
         answerType := getAnswerType answer;
         answerLength := getAnswerLength answer |} :: logged rest
  | Tick _ :: rest => logged rest
  end.

(** The interval handle and the tracking flag go together. *)
Definition tracking_consistent (s : Service) : Prop :=
  isTracking s = true → locationWatcher s ≠ None.

(** The digest of a record's own seven hashed fields. *)
Definition digest (d : VerificationData) : string :=
  Js.to_hex (Z.abs (hash_string (JSON_stringify (hash_payload d)))).

Definition is_hex_digit (c : ascii) : bool :=
  let n := nat_of_ascii c in
  ((48 <=? n) && (n <=? 57) || (97 <=? n) && (n <=? 102))%nat.

End Entries.
End RecorderView.

(** ** Views of a sync run *)

Module SyncView.
Import StorageService SyncService Calls.
Section Run.
Context `{Host}.

(** The packets a run that starts on store [w] is given. *)
Definition pending_of (env : RunEnv) (w : World) : list Packet :=
  match (getSurveyPacketsForSync (list_io env) w).2 with
  | Ok pendingPackets => pendingPackets
  | Threw _ => []
  end.

(** The store calls of the loop: one [markPacketAsSynced] for each
    packet whose upload resolves, the packet at the head having index
    [i]. *)
Fixpoint marks_from (env : RunEnv) (i : nat) (packets : list Packet)
    : list Call :=
  match packets with
  | [] => []
  | packet :: rest =>
      match upload (per_packet env i) with
      | Ok _ =>
          MarkSynced (mark_io (per_packet env i))
            (mark_now (per_packet env i)) (surveyId packet)
          :: marks_from env (S i) rest
      | Threw _ => marks_from env (S i) rest
      end
  end.

(** Whether the upload resolves, for each packet from index [i] on. *)
Fixpoint upload_outcomes (env : RunEnv) (i : nat) (packets : list Packet)
    : list bool :=
  match packets with
  | [] => []
  | _ :: rest =>
      is_ok (upload (per_packet env i)) :: upload_outcomes env (S i) rest
  end.

(** [(k / n) * 100] as the numbers compute it: the progress after [k]
    of [n] packets. *)
Definition percent (k n : nat) : Q :=
  Double.mul (Double.div (Double.of_nat k) (Double.of_nat n)) (100 # 1).

(** The snapshot [getSyncStatus] resolves with. *)
Record SyncStatus : Type := {
  st_isOnline : bool;
  st_isSyncing : bool;
  st_syncProgress : Q;
  st_pendingSync : nat;
  st_syncedSurveys : nat;
  st_totalSurveys : nat
}.

(** [getSyncStatus()] *)
Definition getSyncStatus (io : HostIO) (now : string) (st : System)
    : System * Result SyncStatus :=
  match getStorageStats io now (store st) with
  | (w, Threw e) => (set_store w st, Threw e)
  | (w, Ok storageStats) =>
      (set_store w st,
       Ok {| st_isOnline := isOnline (sync st);
             st_isSyncing := isSyncing (sync st);
             st_syncProgress := syncProgress (sync st);
             st_pendingSync := pendingSync storageStats;
             st_syncedSurveys := syncedSurveys storageStats;
             st_totalSurveys := completedSurveys storageStats |})
  end.

(** Every upload of the run resolves and the medium accepts every read
    and write of the run. *)
Definition all_accepted (env : RunEnv) : Prop :=
  read_ok (list_io env) = true ∧
  ∀ i : nat,
    upload (per_packet env i) = Ok tt ∧
    read_ok (mark_io (per_packet env i)) = true ∧
    write_ok (mark_io (per_packet env i)) = true.

End Run.
End SyncView.

(** ** SurveyScreen *)

Module SurveyScreen.

(** A question descriptor; the prompt and the options are only shown. *)
Record Question : Type := {
  id : Z;
  type : string;
  required : bool
}.

(** The question list of the component. *)
Definition questions : list Question := [
  {| id := 1; type := "multiple_choice"; required := true |};
  {| id := 2; type := "text"; required := true |};
  {| id := 3; type := "multiple_choice"; required := true |};
  {| id := 4; type := "audio"; required := false |};
  {| id := 5; type := "photo"; required := false |};
  {| id := 6; type := "text"; required := true |}
].

(** The state hooks the navigation reads and writes; [answers] maps a
    question id to the answer given, a missing key reads as undefined. *)
Record State : Type := {
  currentQuestionIndex : nat;
  answers : gmap Z Js.Value;
  notes : string
}.

Definition initial : State :=
  {| currentQuestionIndex := 0; answers := ∅; notes := "" |}.

(** What the user is told. *)
Inductive Feedback : Type :=
| Quiet
| Alert (message : string).

(** [answer !== undefined && answer !== '' && answer !== null] *)
Definition answered (answer : option Js.Value) : bool :=
  match answer with
  | None | Some Js.Undefined | Some Js.Null => false
  | Some (Js.Str s) => negb (String.eqb s "")
  | Some _ => true
  end.

Section Component.
Context `{Host}.
Variable qs : list Question.

(** [questions[currentQuestionIndex]] *)
Definition currentQuestion (st : State) : option Question :=
  qs !! currentQuestionIndex st.

(** [canProceed()]; reading [required] of a missing question throws. *)
Definition canProceed (st : State) : Result bool :=
  match currentQuestion st with
  | None => Threw "TypeError"
  | Some q =>
      if negb (required q) then Ok true
      else Ok (answered (answers st !! id q))
  end.

(** [handleNext()] *)
Definition handleNext (st : State) : State :=
  if decide (currentQuestionIndex st < length qs - 1)
  then {| currentQuestionIndex := currentQuestionIndex st + 1;
          answers := answers st; notes := "" |}
  else st.

(** [handlePrevious()] *)
Definition handlePrevious (st : State) : State :=
  if decide (0 < currentQuestionIndex st)
  then {| currentQuestionIndex := currentQuestionIndex st - 1;
          answers := answers st; notes := "" |}
  else st.

(** [handleAnswerChange(value)]: the answer is stored under the id of
    the current question and logged with the recorder. *)
Definition handleAnswerChange (value : Js.Value) (fix_ : Result Location)
    (now : string) (st : State) (rec : VerificationService.Service)
    : Result (State * VerificationService.Service) :=
  match currentQuestion st with
  | None => Threw "TypeError"
  | Some q =>
      Ok ({| currentQuestionIndex := currentQuestionIndex st;
             answers := <[id q := value]> (answers st);
             notes := notes st |},
          (VerificationService.logAnswer (Js.Number (id q)) value fix_ now
             rec).1)
  end.

(** The footer shows the complete button on the last question and the
    next button otherwise. *)
Definition shows_complete (st : State) : bool :=
  bool_decide (Z.of_nat (currentQuestionIndex st) = Z.of_nat (length qs) - 1)%Z.

(** [disabled] of the next button and of the complete button. *)
Definition proceed_enabled (st : State) : bool :=
  match canProceed st with Ok b => b | Threw _ => false end.

(** What the user does on the screen. *)
Inductive Click : Type :=
| ChangeAnswer (value : Js.Value) (fix_ : Result Location) (now : string)
| PressNext
| PressPrevious.

Definition click (c : Click) (p : State * VerificationService.Service)
    : State * VerificationService.Service :=
  match c with
  | ChangeAnswer value fix_ now =>
      match handleAnswerChange value fix_ now p.1 p.2 with
      | Ok p' => p'
      | Threw _ => p
      end
  | PressNext =>
      if negb (shows_complete p.1) && proceed_enabled p.1
      then (handleNext p.1, p.2) else p
  | PressPrevious =>
      if bool_decide (currentQuestionIndex p.1 = 0) then p
      else (handlePrevious p.1, p.2)
  end.

Definition clicks (cs : list Click)
    (p : State * VerificationService.Service)
    : State * VerificationService.Service :=
  fold_left (fun p c => click c p) cs p.

(** The index is on a question and every required question before it
    has an answer. *)
Definition on_track (st : State) : Prop :=
  currentQuestionIndex st < length qs ∧
  ∀ (i : nat) (q : Question),
    i < currentQuestionIndex st → qs !! i = Some q → required q = true →
    answered (answers st !! id q) = true.

(** The packet [handleComplete] assembles; [packet_body] is the value
    of its [answers], [notes] and [verification] properties.  The
    survey ids of the dashboard are numbers; the store's key is written
    as the decimal string the fallback interpolates into its key (so
    the object store lists such packets in the order of these strings,
    where the browser orders the numbers). *)
Variable packet_body :
  gmap Z Js.Value → string → VerificationService.VerificationPacket → Js.Value.

Definition surveyPacket (survey_id : Z) (now : string) (st : State)
    (final : VerificationService.VerificationPacket)
    : StorageService.Packet := {|
  StorageService.surveyId := pretty survey_id;
  StorageService.status := Js.Str "completed";
  StorageService.syncStatus := Js.Undefined;
  StorageService.createdAt := None;
  StorageService.syncedAt := None;
  StorageService.completedAt := Some now;
  StorageService.body := packet_body (answers st) (notes st) final
|}.

(** [handleComplete()]: [onComplete] is the callback of the parent,
    acting on the parent's state and telling the user what the parent
    has to say; the screen itself alerts when the recorder throws. *)
Definition handleComplete {T : Type}
    (onComplete : StorageService.Packet → T → T * Feedback) (survey_id : Z)
    (fix_ : Result Location) (endT doneT now : string) (st : State)
    (rec : VerificationService.Service) (parent : T)
    : (VerificationService.Service * T) * Feedback :=
  match VerificationService.completeSurvey fix_ endT doneT rec with
  | (rec', Threw _) =>
      ((rec', parent), Alert "Failed to save survey. Please try again.")
  | (rec', Ok final) =>
      let done := onComplete (surveyPacket survey_id now st final) parent in
      ((rec', done.1), done.2)
  end.

End Component.
End SurveyScreen.

(** ** LoginScreen *)

Module LoginScreen.

Record User : Type := {
  email : string;
  name : string
}.

Inductive Outcome : Type :=
| LoggedIn (userData : User)
| ShowError (message : string).

(** [s.includes(c)] for a one-character needle. *)
Fixpoint includes (c : ascii) (s : string) : bool :=
  match s with
  | EmptyString => false
  | String a rest => Ascii.eqb a c || includes c rest
  end.

(** [s.split(c)[0]]: the part before the first [c]. *)
Fixpoint before (c : ascii) (s : string) : string :=
  match s with
  | EmptyString => EmptyString
  | String a rest =>
      if Ascii.eqb a c then EmptyString else String a (before c rest)
  end.

Definition at_sign : ascii := ascii_of_nat 64.

(** [handleLogin]: what the form does with the two fields. *)
Definition handleLogin (email password : string) : Outcome :=
  if String.eqb email "" || String.eqb password ""
  then ShowError "Please enter both email and password"
  else if includes at_sign email && (6 <=? String.length password)%nat
  then LoggedIn {| email := email; name := before at_sign email |}
  else ShowError
         "Invalid email or password (password must be at least 6 characters)".

End LoginScreen.

(** ** DashboardScreen *)

Module DashboardScreen.

(** A survey of the list, with the two properties the handlers read. *)
Record Survey : Type := {
  id : Z;
  status : string
}.

Definition has_status (s : string) (survey : Survey) : bool :=
  String.eqb (status survey) s.

(** [completedSurveys] *)
Definition completedSurveys (surveys : list Survey) : list Survey :=
  List.filter (has_status "completed") surveys.

(** [handleSyncData]: the new value of [surveys]. *)
Definition handleSyncData (isOnline : bool) (surveys : list Survey)
    : list Survey :=
  if negb isOnline then surveys
  else map (fun survey =>
              if String.eqb (status survey) "completed"
              then {| id := id survey; status := "synced" |}
              else survey) surveys.

(** The number of surveys with a given status, as the statistics row
    shows it. *)
Definition count (s : string) (surveys : list Survey) : nat :=
  length (List.filter (has_status s) surveys).

(** [disabled] of the sync button. *)
Definition sync_disabled (isOnline isSyncing : bool) (surveys : list Survey)
    : bool :=
  negb isOnline || isSyncing
  || Nat.eqb (length (completedSurveys surveys)) 0.

End DashboardScreen.

(** ** The App component *)

Module Page.
Import StorageService.

Inductive Screen : Type :=
| login
| dashboard
| survey.

(** The state hooks of [App]; a survey is known by its id. *)
Record State : Type := {
  currentScreen : Screen;
  user : option LoginScreen.User;
  currentSurvey : option Z
}.

Section Handlers.
Context `{Host}.

(** [handleLogin] *)
Definition handleLogin (userData : LoginScreen.User) (a : State) : State :=
  {| currentScreen := dashboard; user := Some userData;
     currentSurvey := currentSurvey a |}.

(** [handleStartSurvey] *)
Definition handleStartSurvey (survey_id : Z) (a : State) : State :=
  {| currentScreen := survey; user := user a;
     currentSurvey := Some survey_id |}.

(** [handleLogout]: the pending [completeSurvey] is not awaited and its
    rejection is only logged. *)
Definition handleLogout (fix_ : Result Location) (endT doneT : string)
    (p : State * VerificationService.Service)
    : State * VerificationService.Service :=
  ({| currentScreen := login; user := None; currentSurvey := None |},
   if VerificationService.s_isActive
        (VerificationService.getVerificationStatus p.2)
   then (VerificationService.completeSurvey fix_ endT doneT p.2).1
   else p.2).

(** [handleBackToDashboard]; [confirmExit] is what the user answers. *)
Definition handleBackToDashboard (confirmExit : bool)
    (fix_ : Result Location) (endT doneT : string)
    (p : State * VerificationService.Service)
    : State * VerificationService.Service :=
  let home := {| currentScreen := dashboard; user := user p.1;
                 currentSurvey := None |} in
  match currentSurvey p.1 with
  | Some _ =>
      if VerificationService.s_isActive
           (VerificationService.getVerificationStatus p.2)
      then
        if negb confirmExit then p
        else (home, (VerificationService.completeSurvey fix_ endT doneT p.2).1)
      else (home, p.2)
  | None => (home, p.2)
  end.

(** [handleCompleteSurvey(surveyPacket)]: a save that rejects is
    answered with an alert. *)
Definition handleCompleteSurvey (io : HostIO) (now : string)
    (surveyPacket : Packet) (p : State * World)
    : (State * World) * SurveyScreen.Feedback :=
  match saveSurveyPacket io now surveyPacket p.2 with
  | (w, Ok _) =>
      (({| currentScreen := dashboard; user := user p.1;
           currentSurvey := None |}, w), SurveyScreen.Quiet)
  | (w, Threw _) =>
      ((p.1, w),
       SurveyScreen.Alert "Failed to save survey. Please try again.")
  end.

End Handlers.
End Page.

(** ** More scenarios on the simulated host *)

Module Cases.
Import StorageService.
#[local] Existing Instance Sim.host.

(** A browser without IndexedDB. *)
Definition io_fallback : HostIO :=
  {| opening := NoIndexedDB; read_ok := true; write_ok := true |}.

(** A medium that refuses writes. *)
Definition io_refuse : HostIO :=
  {| opening := OpenSuccess; read_ok := true; write_ok := false |}.

(** A browser in which opening the database throws. *)
Definition io_throws : HostIO :=
  {| opening := OpenThrows; read_ok := true; write_ok := true |}.

(** A fallback store with [S1] pending and a foreign entry. *)
Definition fallback_S1 : World :=
  Calls.run [Calls.Save io_fallback Sim.t3 (Scenario.packet "S1")]
    {| svc := constructor;
       media := {| surveyPackets := ∅;
                   localStorage :=
                     {[ "theme" := to_json (Scenario.packet "dark") ]} |} |}.

(** A run in which every upload resolves and every read and write is
    accepted. *)
Definition all_ok : SyncService.RunEnv := {|
  SyncService.list_io := Scenario.io_ok;
  SyncService.per_packet := fun _ =>
    {| SyncService.upload := Ok tt;
       SyncService.mark_io := Scenario.io_ok;
       SyncService.mark_now := Sim.t3;
       SyncService.uploaded_now := Sim.t3;
       SyncService.key_now := 1709633100000 |}
|}.


(** The answer the audio recorder of the survey screen hands over: the
    recording as a [Blob] and its object URL. *)
Definition audio_answer : Js.Value :=
  Js.Object [("type", Js.Str "audio");
             ("blob", Js.Blob 48000 "audio/wav");
             ("url", Js.Str "blob:recording")].

(** What that answer has become when it is read back from
    [localStorage]. *)
Definition audio_answer_read_back : Js.Value :=
  Js.Object [("type", Js.Str "audio");
             ("blob", Js.Object []);
             ("url", Js.Str "blob:recording")].

(** A packet with the recording among its answers and without
    verification data. *)
Definition audio_packet (id : string) : Packet := {|
  surveyId := id;
  status := Js.Str "completed";
  syncStatus := Js.Undefined;
  createdAt := None;
  syncedAt := None;
  completedAt := Some Sim.t3;
  body := Js.Object [("answers", Js.Object [("4", audio_answer)]);
                     ("notes", Js.Str "");
                     ("verification", Js.Undefined)]
|}.

Definition system (w : World) : SyncService.System :=
  {| SyncService.sync := Scenario.online; SyncService.store := w |}.

(** An active recorder of survey 7 with one answer and one sample. *)
Definition active : VerificationService.Service :=
  Scenario.recorded (Js.Str "yes") "ua".

Definition plain_body (answers : gmap Z Js.Value) (notes : string)
    (final : VerificationService.VerificationPacket) : Js.Value :=
  Js.Object [("notes", Js.Str notes)].

(** A packet body that keeps the answers and the notes. *)
Definition answers_body (answers : gmap Z Js.Value) (notes : string)
    (final : VerificationService.VerificationPacket) : Js.Value :=
  Js.Object
    [("answers",
      Js.Object ((fun kv : Z * Js.Value => (pretty kv.1, kv.2))
                   <$> map_to_list answers));
     ("notes", Js.Str notes)].

(** The survey screen on its last question, the recording given as the
    answer to question 4. *)
Definition with_recording : SurveyScreen.State :=
  {| SurveyScreen.currentQuestionIndex := 5;
     SurveyScreen.answers := {[ 4%Z := audio_answer ]};
     SurveyScreen.notes := "" |}.

(** The clicks that answer every required question and skip the two
    optional ones. *)
Definition through_the_survey : list SurveyScreen.Click :=
  [SurveyScreen.ChangeAnswer (Js.Str "Farming") (Ok Sim.here) Sim.t1;
   SurveyScreen.PressNext;
   SurveyScreen.ChangeAnswer (Js.Str "Two acres") (Ok Sim.here) Sim.t1;
   SurveyScreen.PressNext;
   SurveyScreen.ChangeAnswer (Js.Str "Drought") (Ok Sim.here) Sim.t1;
   SurveyScreen.PressNext;
   SurveyScreen.PressNext;
   SurveyScreen.PressNext;
   SurveyScreen.ChangeAnswer (Js.Str "No") (Ok Sim.here) Sim.t2].

Definition on_survey : Page.State :=
  {| Page.currentScreen := Page.survey;
     Page.user := Some {| LoginScreen.email := "asha@example.org";
                          LoginScreen.name := "asha" |};
     Page.currentSurvey := Some 7%Z |}.

End Cases.

(** * Properties *)

(** ** The Verification Recorder *)

Section RecorderFacts.
Context `{Host}.
Import VerificationService Calls.

Lemma length_slice_last {A} (k : nat) (l : list A) :
  length (Js.slice_last k l) = min k (length l).
Proof. unfold Js.slice_last. rewrite length_drop. lia. Qed.

(** Pushing onto the last ten and cutting again is the last ten of the
    longer sequence. *)
Lemma slice_last_push {A} (l : list A) (x : A) :
  (let pushed := Js.slice_last 10 l ++ [x] in
   if decide (10 < length pushed) then Js.slice_last 10 pushed else pushed)
  = Js.slice_last 10 (l ++ [x]).
Proof.
  cbv zeta. unfold Js.slice_last.
  rewrite !length_app, length_drop. simpl.
  destruct (decide (length l < 10)) as [Hshort | Hlong].
  - replace (length l - 10) with 0 by lia.
    replace (length l + 1 - 10) with 0 by lia.
    rewrite !drop_0. case_decide; [lia | done].
  - case_decide; [| lia].
    replace (length l - (length l - 10) + 1 - 10) with 1 by lia.
    replace (length l + 1 - 10) with (length l - 10 + 1) by lia.
    rewrite !drop_app_le by (rewrite ?length_drop; lia).
    by rewrite drop_drop.
Qed.

Lemma react_history (e : Event) (s : Service) :
  locationHistory (verificationData (react e s)) =
    match e with
    | Tick (Ok loc) =>
        let pushed := locationHistory (verificationData s) ++ [loc] in
        if decide (10 < length pushed) then Js.slice_last 10 pushed
        else pushed
    | _ => locationHistory (verificationData s)
    end.
Proof.
  destruct e as [[loc | msg] | q a [loc | msg] now]; simpl; try done;
    unfold logAnswer; destruct (Js.truthy (currentSurvey s)); done.
Qed.

Lemma play_history (events : list Event) :
  ∀ (arrived : list Location) (s : Service),
    locationHistory (verificationData s) = Js.slice_last 10 arrived →
    locationHistory (verificationData (play events s))
    = Js.slice_last 10 (arrived ++ samples events).
Proof.
  induction events as [| e events IH]; intros arrived s Hs.
  - simpl. by rewrite app_nil_r.
  - change (play (e :: events) s) with (play events (react e s)).
    destruct e as [[loc | msg] | q a fix_ now].
    + simpl samples.
      replace (arrived ++ loc :: samples events)
        with ((arrived ++ [loc]) ++ samples events)
        by (by rewrite <- app_assoc).
      apply IH. rewrite react_history, Hs. apply slice_last_push.
    + apply IH. by rewrite react_history.
    + apply IH. by rewrite react_history.
Qed.

(** C6. While a survey is being recorded, whatever the interval and the
    answer log do, [locationHistory] is the last ten samples that
    arrived, in arrival order: never more than ten entries, and exactly
    ten once more than ten samples have arrived. *)
Theorem locationHistory_keeps_last_ten :
  ∀ (id : Js.Value) (now : string) (dev : DeviceInfo) (loc0 : Location)
    (timer : nat) (s0 : Service) (events : list Event),
    let s := play events (startSurvey id now dev (Ok loc0) timer s0).1 in
    let history := locationHistory (verificationData s) in
    history = Js.slice_last 10 (samples events) ∧
    (length history ≤ 10)%nat ∧
    length history = min 10 (length (samples events)).
Proof.
  intros id now dev loc0 timer s0 events s history.
  assert (Hlast : history = Js.slice_last 10 (samples events)).
  { subst history s. rewrite (play_history events []); [done |].
    unfold startSurvey, startLocationTracking. simpl.
    by destruct (isTracking s0). }
  split; [exact Hlast |].
  rewrite Hlast, length_slice_last. lia.
Qed.





(** C8. [completeSurvey] with no active survey throws, and the failing
    call changes neither the recorder nor the store (nor the sync
    coordinator). *)
Theorem completeSurvey_idle_fails_unchanged :
  ∀ (fix_ : Result Location) (endT doneT : string) (a : App.State),
    Js.truthy (currentSurvey (App.verification a)) = false →
    App.completeSurvey fix_ endT doneT a
    = (a, Threw "No active survey to complete").
Proof.
  intros fix_ endT doneT a Hidle.
  unfold App.completeSurvey, completeSurvey. rewrite Hidle. simpl.
  destruct a; reflexivity.
Qed.

(** C9. The verification hash is a function of the seven projected
    values: two recorders that agree on them get the same hash,
    whatever else they hold. *)
Theorem verificationHash_depends_on_projection :
  ∀ (s1 s2 : Service),
    surveyId (verificationData s1) = surveyId (verificationData s2) →
    startTime (verificationData s1) = startTime (verificationData s2) →
    endTime (verificationData s1) = endTime (verificationData s2) →
    startLocation (verificationData s1)
      = startLocation (verificationData s2) →
    endLocation (verificationData s1) = endLocation (verificationData s2) →
    length (answerTimestamps (verificationData s1))
      = length (answerTimestamps (verificationData s2)) →
    length (locationHistory (verificationData s1))
      = length (locationHistory (verificationData s2)) →
    generateVerificationHash s1 = generateVerificationHash s2.
Proof.
  intros s1 s2 Hid Hstart Hend Hfrom Hto Hanswers Hfixes.
  unfold generateVerificationHash, hash_payload.
  rewrite Hid, Hstart, Hend, Hfrom, Hto, Hanswers, Hfixes.
  reflexivity.
Qed.

(** C3 (as amended). After a successful [completeSurvey] the recorder is
    idle: the status reports no active survey and no survey id.  The
    finished record stays in [verificationData], so the status still
    reports its start time and its answer and location counts. *)
Theorem completeSurvey_leaves_record_in_place :
  ∀ (fix_ : Result Location) (endT doneT : string) (s s' : Service)
    (packet : VerificationPacket),
    completeSurvey fix_ endT doneT s = (s', Ok packet) →
    let st := getVerificationStatus s' in
    s_isActive st = false ∧
    s_surveyId st = Js.Null ∧
    s_startTime st = startTime (verificationData s) ∧
    s_answerCount st = length (answerTimestamps (verificationData s)) ∧
    s_locationCount st = length (locationHistory (verificationData s)) ∧
    verificationData s' = data packet.
Proof.
  intros fix_ endT doneT s s' packet Hdone st. subst st.
  unfold completeSurvey in Hdone.
  destruct (Js.truthy (currentSurvey s)); simpl in Hdone; [| discriminate].
  destruct fix_ as [loc | msg]; [| discriminate].
  injection Hdone as <- <-.
  unfold getVerificationStatus, stopLocationTracking.
  destruct (locationWatcher s); simpl; repeat split; reflexivity.
Qed.

End RecorderFacts.

(** ** The Local Store *)

Section StoreFacts.
Import StorageService Calls.

(** C2 (as amended). [initialize] resolves when it has run before, when
    the database opens, when IndexedDB is missing and when the open
    request reports an error; in the last two cases the service switches
    to the [localStorage] fallback.  When opening the database throws,
    [initialize] rejects with its own error and the service stays
    uninitialised. *)
Theorem initialize_fails_only_when_open_throws :
  ∀ (o : OpenOutcome) (s : Service),
    let s' := (initialize o s).1 in
    match isInitialized s, o with
    | true, _ => initialize o s = (s, Ok tt)
    | false, OpenThrows =>
        initialize o s = (s, Threw "Storage initialization failed")
    | false, OpenSuccess =>
        (initialize o s).2 = Ok tt ∧ isInitialized s' = true ∧
        db s' = Some tt ∧
        useLocalStorageFallback s' = useLocalStorageFallback s
    | false, _ =>
        (initialize o s).2 = Ok tt ∧ isInitialized s' = true ∧
        useLocalStorageFallback s' = true
    end.
Proof.
  intros o s. cbv zeta. unfold initialize.
  destruct (isInitialized s) eqn:Hinit; [reflexivity |].
  destruct o; simpl; repeat split; reflexivity.
Qed.

Lemma ensureInitialized_ready (o : OpenOutcome) (s : Service) :
  isInitialized s = true → ensureInitialized o s = (s, Ok tt).
Proof. intros Hinit. unfold ensureInitialized. by rewrite Hinit. Qed.

Lemma key_of_inj (a b : string) : key_of a = key_of b → a = b.
Proof. intros Heq. cbv [key_of String.append] in Heq. by injection Heq. Qed.

Lemma step_svc (c : Call) (w : World) :
  isInitialized (svc w) = true → svc (step c w) = svc w.
Proof.
  intros Hinit. destruct c; simpl.
  - unfold initialize. by rewrite Hinit.
  - unfold saveSurveyPacket. rewrite ensureInitialized_ready by done.
    by repeat case_match.
  - unfold markPacketAsSynced. by rewrite ensureInitialized_ready.
  - unfold getSurveyPacketsForSync. rewrite ensureInitialized_ready by done.
    by repeat case_match.
  - unfold getStorageStats. rewrite ensureInitialized_ready by done.
    by repeat case_match.
  - unfold clearAllData. rewrite ensureInitialized_ready by done.
    by repeat case_match.
Qed.

Lemma step_well_keyed (c : Call) (w : World) :
  well_keyed w → well_keyed (step c w).
Proof.
  unfold well_keyed. intros Hk.
  destruct c as [o | io now packet | io now id' | io | io now | io]; simpl.
  - done.
  - unfold saveSurveyPacket, setItem, putData.
    repeat case_match; simplify_eq/=; try done;
      by apply map_Forall_insert_2.
  - unfold markPacketAsSynced, setItem, putData, getData.
    repeat case_match; simplify_eq/=; try done;
      by apply map_Forall_insert_2.
  - unfold getSurveyPacketsForSync. repeat case_match; simplify_eq/=; done.
  - unfold getStorageStats. repeat case_match; simplify_eq/=; done.
  - unfold clearAllData. repeat case_match; simplify_eq/=; try done;
      apply map_Forall_empty.
Qed.

(** One call that is neither a save of [id] nor a clear keeps the
    packet under [id] synced. *)
Lemma step_keeps_synced (c : Call) (w : World) (id : string) :
  isInitialized (svc w) = true →
  well_keyed w →
  rewrites id c = false →
  status_at w id = Some (Js.Str "synced") →
  status_at (step c w) id = Some (Js.Str "synced").
Proof.
  intros Hinit Hkeyed Hc Hsynced.
  destruct c as [o | io now packet | io now id' | io | io now | io];
    simpl in *; try discriminate.
  - unfold initialize. by rewrite Hinit.
  - apply String.eqb_neq in Hc.
    unfold saveSurveyPacket. rewrite ensureInitialized_ready by done.
    unfold status_at, stored, getItem, setItem, putData in *.
    destruct (useLocalStorageFallback (svc w)) eqn:Hfb.
    + destruct (write_ok io); simpl; rewrite Hfb; [| done].
      rewrite lookup_insert_ne; [done |].
      intros Heq. by apply key_of_inj in Heq.
    + destruct (db (svc w)); simpl; [| by rewrite Hfb].
      destruct (write_ok io); simpl; rewrite Hfb; [| done].
      by rewrite lookup_insert_ne.
  - unfold markPacketAsSynced. rewrite ensureInitialized_ready by done.
    unfold status_at, stored, getItem, setItem, putData, getData in *. simpl.
    destruct (useLocalStorageFallback (svc w)) eqn:Hfb.
    + destruct (localStorage (media w) !! key_of id') as [p |] eqn:Hp;
        [| done].
      destruct (write_ok io); simpl; [| done].
      destruct (decide (id' = id)) as [-> | Hne].
      * by rewrite lookup_insert_eq.
      * rewrite lookup_insert_ne; [done |].
        intros Heq. by apply key_of_inj in Heq.
    + destruct (db (svc w)); [| done].
      destruct (read_ok io); [| done].
      destruct (surveyPackets (media w) !! id') as [p |] eqn:Hp; [| done].
      destruct (write_ok io); simpl; [| done].
      rewrite (Hkeyed id' p Hp).
      destruct (decide (id' = id)) as [-> | Hne].
      * by rewrite lookup_insert_eq.
      * by rewrite lookup_insert_ne.
  - unfold getSurveyPacketsForSync. rewrite ensureInitialized_ready by done.
    unfold status_at, stored, getItem in *.
    destruct (useLocalStorageFallback (svc w)) eqn:Hfb; simpl;
      [by rewrite Hfb |].
    destruct (getAllData io (svc w) (media w)); simpl; by rewrite Hfb.
  - unfold getStorageStats. rewrite ensureInitialized_ready by done.
    unfold status_at, stored, getItem in *.
    destruct (useLocalStorageFallback (svc w)) eqn:Hfb; simpl;
      [by rewrite Hfb |].
    destruct (getAllData io (svc w) (media w)); simpl; by rewrite Hfb.
Qed.

Lemma run_keeps_synced (calls : list Call) :
  ∀ (w : World) (id : string),
    isInitialized (svc w) = true →
    well_keyed w →
    forallb (fun c => negb (rewrites id c)) calls = true →
    status_at w id = Some (Js.Str "synced") →
    status_at (run calls w) id = Some (Js.Str "synced").
Proof.
  induction calls as [| c calls IH];
    intros w id Hinit Hkeyed Hcalls Hsynced.
  - exact Hsynced.
  - simpl in Hcalls. apply andb_prop in Hcalls as [Hc Hrest].
    apply negb_true_iff in Hc.
    change (run (c :: calls) w) with (run calls (step c w)).
    apply IH; [| by apply step_well_keyed | exact Hrest
               | by apply step_keeps_synced].
    by rewrite step_svc.
Qed.

(** A save that resolves leaves the packet under its id pending. *)
Lemma save_stamps_pending (io : HostIO) (now : string) (packet : Packet)
    (w : World) :
  isInitialized (svc w) = true →
  is_ok (saveSurveyPacket io now packet w).2 = true →
  status_at (saveSurveyPacket io now packet w).1 (surveyId packet)
  = Some (Js.Str "pending").
Proof.
  intros Hinit. unfold saveSurveyPacket.
  rewrite ensureInitialized_ready by done.
  unfold status_at, stored, getItem, setItem, putData.
  destruct (useLocalStorageFallback (svc w)) eqn:Hfb.
  - destruct (write_ok io); simpl; [| discriminate].
    intros _. by rewrite Hfb, lookup_insert_eq.
  - destruct (db (svc w)); simpl; [| discriminate].
    destruct (write_ok io); simpl; [| discriminate].
    intros _. rewrite Hfb.
    change (surveyId (packetData now packet)) with (surveyId packet).
    by rewrite lookup_insert_eq.
Qed.

Lemma key_of_is_survey_key (id : string) : is_survey_key (key_of id) = true.
Proof. cbv [is_survey_key key_of String.append]. by destruct id. Qed.

(** A call after which the packet under [id] is synced, when it was not
    before, is [markPacketAsSynced] on that id. *)
Lemma step_sets_synced (c : Call) (w : World) (id : string) :
  isInitialized (svc w) = true →
  well_keyed w →
  status_at w id ≠ Some (Js.Str "synced") →
  status_at (step c w) id = Some (Js.Str "synced") →
  ∃ (io : HostIO) (now : string), c = MarkSynced io now id.
Proof.
  intros Hinit Hkeyed Hbefore Hafter.
  destruct c as [o | io now packet | io now id' | io | io now | io];
    simpl in Hafter.
  - unfold initialize in Hafter. rewrite Hinit in Hafter. done.
  - unfold saveSurveyPacket in Hafter.
    rewrite ensureInitialized_ready in Hafter by done.
    unfold status_at, stored, getItem, setItem, putData in *.
    destruct (useLocalStorageFallback (svc w)) eqn:Hfb.
    + destruct (write_ok io); simpl in Hafter; rewrite Hfb in Hafter;
        [| done].
      destruct (decide (surveyId packet = id)) as [<- | Hne].
      * by rewrite lookup_insert_eq in Hafter.
      * rewrite lookup_insert_ne in Hafter; [done |].
        intros Heq. by apply key_of_inj in Heq.
    + destruct (db (svc w)); simpl in Hafter;
        [| by rewrite Hfb in Hafter].
      destruct (write_ok io); simpl in Hafter; rewrite Hfb in Hafter;
        [| done].
      destruct (decide (surveyId packet = id)) as [<- | Hne].
      * by rewrite lookup_insert_eq in Hafter.
      * by rewrite lookup_insert_ne in Hafter.
  - destruct (decide (id' = id)) as [-> | Hne]; [by eauto |].
    exfalso. apply Hbefore. rewrite <- Hafter.
    unfold markPacketAsSynced.
    rewrite ensureInitialized_ready by done.
    unfold status_at, stored, getItem, setItem, putData, getData. simpl.
    destruct (useLocalStorageFallback (svc w)) eqn:Hfb.
    + destruct (localStorage (media w) !! key_of id') as [p |]; [| done].
      destruct (write_ok io); simpl; [| done].
      rewrite lookup_insert_ne; [done |].
      intros Heq. by apply key_of_inj in Heq.
    + destruct (db (svc w)); [| done].
      destruct (read_ok io); [| done].
      destruct (surveyPackets (media w) !! id') as [p |] eqn:Hp; [| done].
      destruct (write_ok io); simpl; [| done].
      rewrite (Hkeyed id' p Hp). by rewrite lookup_insert_ne.
  - exfalso. apply Hbefore. rewrite <- Hafter.
    unfold getSurveyPacketsForSync.
    rewrite ensureInitialized_ready by done.
    unfold status_at, stored, getItem.
    destruct (useLocalStorageFallback (svc w)) eqn:Hfb; simpl;
      [by rewrite Hfb |].
    destruct (getAllData io (svc w) (media w)); simpl; by rewrite Hfb.
  - exfalso. apply Hbefore. rewrite <- Hafter.
    unfold getStorageStats.
    rewrite ensureInitialized_ready by done.
    unfold status_at, stored, getItem.
    destruct (useLocalStorageFallback (svc w)) eqn:Hfb; simpl;
      [by rewrite Hfb |].
    destruct (getAllData io (svc w) (media w)); simpl; by rewrite Hfb.
  - unfold clearAllData in Hafter.
    rewrite ensureInitialized_ready in Hafter by done.
    unfold status_at, stored, getItem in *.
    destruct (useLocalStorageFallback (svc w)) eqn:Hfb; simpl in Hafter.
    + rewrite Hfb in Hafter. simpl in Hafter.
      destruct (filter _ (localStorage (media w)) !! key_of id)
        as [p |] eqn:Hp; [| done].
      apply map_lookup_filter_Some in Hp as [_ Hkey]. simpl in Hkey.
      by rewrite key_of_is_survey_key in Hkey.
    + destruct (db (svc w)); simpl in Hafter.
      * destruct (write_ok io); simpl in Hafter; rewrite Hfb in Hafter;
          [| done].
        simpl in Hafter. by rewrite lookup_empty in Hafter.
      * by rewrite Hfb in Hafter.
Qed.

(** C1 (as amended). On an initialised store, a packet stored as synced
    stays synced through every sequence of store calls that neither
    saves its survey id again nor clears the store, so
    [markPacketAsSynced] never moves [syncStatus] backward; a packet
    becomes synced only by [markPacketAsSynced] on its id; and
    [saveSurveyPacket] always stamps pending, so a save of a survey id
    that resolves leaves the packet pending, also when it was synced. *)
Theorem syncStatus_leaves_synced_only_by_save :
  ∀ (calls : list Call) (w : World) (id : string),
    isInitialized (svc w) = true →
    well_keyed w →
    (status_at w id = Some (Js.Str "synced") →
     forallb (fun c => negb (rewrites id c)) calls = true →
     status_at (run calls w) id = Some (Js.Str "synced")) ∧
    (∀ c : Call,
       status_at w id ≠ Some (Js.Str "synced") →
       status_at (step c w) id = Some (Js.Str "synced") →
       ∃ (io : HostIO) (now : string), c = MarkSynced io now id) ∧
    (∀ (io : HostIO) (now : string) (packet : Packet),
       surveyId packet = id →
       is_ok (saveSurveyPacket io now packet w).2 = true →
       status_at (saveSurveyPacket io now packet w).1 id
       = Some (Js.Str "pending")).
Proof.
  intros calls w id Hinit Hkeyed. split; [| split].
  - intros Hsynced Hcalls. by apply run_keeps_synced.
  - intros c. by apply step_sets_synced.
  - intros io now packet <- Hok. by apply save_stamps_pending.
Qed.

Lemma valid_packetData (now : string) (packet : Packet) :
  valid_status (packetData now packet).
Proof. by left. Qed.

Lemma valid_mark (now : string) (p : Packet) : valid_status (mark now p).
Proof. by right. Qed.

(** Writing a packet as JSON text and reading it back keeps a
    [syncStatus] that is a string. *)
Lemma valid_of_json_to_json (p : Packet) :
  valid_status p → valid_status (of_json (to_json p)).
Proof.
  unfold valid_status. simpl. intros [-> | ->]; [by left | by right].
Qed.

Lemma step_all_valid (c : Call) (w : World) :
  all_valid w → all_valid (step c w).
Proof.
  unfold all_valid. intros [Hdb Hls].
  destruct c as [o | io now packet | io now id | io | io now | io]; simpl.
  - done.
  - unfold saveSurveyPacket, setItem, putData.
    repeat case_match; simplify_eq/=; try done;
      (split; [try done | try done]);
      apply map_Forall_insert_2;
      auto using valid_packetData, valid_of_json_to_json.
  - unfold markPacketAsSynced, setItem, putData, getData.
    repeat case_match; simplify_eq/=; try done;
      (split; [try done | try done]);
      apply map_Forall_insert_2;
      auto using valid_mark, valid_of_json_to_json.
  - unfold getSurveyPacketsForSync. repeat case_match; simplify_eq/=; done.
  - unfold getStorageStats. repeat case_match; simplify_eq/=; done.
  - unfold clearAllData.
    repeat case_match; simplify_eq/=; try done; split; try done;
      first [ apply map_Forall_empty
            | intros k p Hk; apply map_lookup_filter_Some in Hk as [Hk _];
              by apply (Hls k) ].
Qed.

Lemma run_all_valid (calls : list Call) :
  ∀ w : World, all_valid w → all_valid (run calls w).
Proof.
  induction calls as [| c calls IH]; intros w Hw; [exact Hw |].
  change (run (c :: calls) w) with (run calls (step c w)).
  by apply IH, step_all_valid.
Qed.

Lemma fresh_all_valid : all_valid fresh.
Proof. split; apply map_Forall_empty. Qed.

(** A list of packets that are all pending or synced splits into the
    two counts. *)
Lemma count_by_status (packets : list Packet) :
  List.Forall valid_status packets →
  length packets
  = length (List.filter is_pending packets)
    + length (List.filter is_synced packets).
Proof.
  induction 1 as [| p packets Hp _ IH]; [reflexivity |].
  simpl. unfold is_pending, is_synced in *.
  destruct Hp as [-> | ->]; simpl; lia.
Qed.

(** Listing a medium in key order lists its entries, each once. *)
Lemma in_key_order_Permutation {A} (m : gmap string A) :
  in_key_order m ≡ₚ map_to_list m.
Proof. apply merge_sort_Permutation. Qed.

Lemma elem_of_in_key_order {A} (m : gmap string A) (k : string) (x : A) :
  (k, x) ∈ in_key_order m ↔ m !! k = Some x.
Proof. rewrite in_key_order_Permutation. apply elem_of_map_to_list. Qed.

Lemma NoDup_fst_in_key_order {A} (m : gmap string A) :
  NoDup (in_key_order m).*1.
Proof.
  rewrite in_key_order_Permutation. apply NoDup_fst_map_to_list.
Qed.

Lemma in_key_order_empty {A} : in_key_order (∅ : gmap string A) = [].
Proof.
  apply Permutation_nil_r. rewrite in_key_order_Permutation.
  by rewrite map_to_list_empty.
Qed.

Lemma values_valid (m : gmap string Packet) :
  map_Forall (fun _ p => valid_status p) m →
  List.Forall valid_status (in_key_order m).*2.
Proof.
  intros Hm. apply List.Forall_forall. intros p Hp.
  apply list_elem_of_In, list_elem_of_fmap in Hp as [[k q] [-> Hkq]].
  apply elem_of_in_key_order in Hkq. by apply (Hm k).
Qed.

Lemma local_packets_valid (m : Media) :
  map_Forall (fun _ t => valid_status (of_json t)) (localStorage m) →
  List.Forall valid_status (local_packets m).
Proof.
  intros Hm. apply List.Forall_forall. intros p Hp. unfold local_packets in Hp.
  apply list_elem_of_In, list_elem_of_fmap in Hp as [t [-> Ht]].
  apply list_elem_of_fmap in Ht as [[k t'] [-> Hkt]].
  apply list_elem_of_In, List.filter_In in Hkt as [Hkt _].
  apply list_elem_of_In, elem_of_in_key_order in Hkt. by apply (Hm k).
Qed.

(** C10. Every packet the store has ever held, on either medium, has
    [syncStatus] pending or synced, so every snapshot [getStorageStats]
    resolves with has [totalSurveys = pendingSync + syncedSurveys] and
    [completedSurveys = totalSurveys]. *)
Theorem syncStatus_is_pending_or_synced :
  ∀ (calls : list Call) (io : HostIO) (now : string),
    let w := run calls fresh in
    (∀ p : Packet, held w p → valid_status p) ∧
    match (getStorageStats io now w).2 with
    | Ok st =>
        totalSurveys st = pendingSync st + syncedSurveys st ∧
        completedSurveys st = totalSurveys st
    | Threw _ => True
    end.
Proof.
  intros calls io now w.
  assert (Hw : all_valid w) by apply run_all_valid, fresh_all_valid.
  destruct Hw as [Hdb Hls]. split.
  - intros p [[k Hk] | [k Hk]]; [by apply (Hdb k) |].
    unfold getItem in Hk.
    destruct (localStorage (media w) !! k) as [t |] eqn:Ht; [| done].
    injection Hk as <-. by apply (Hls k).
  - unfold getStorageStats, getAllData.
    destruct (ensureInitialized (opening io) (svc w)) as [s [[] | e]];
      simpl; [| done].
    destruct (useLocalStorageFallback s); simpl.
    + split; [| reflexivity].
      by apply count_by_status, local_packets_valid.
    + destruct (db s); simpl; [| done].
      destruct (read_ok io); simpl; [| done].
      split; [| reflexivity].
      by apply count_by_status, values_valid.
Qed.

End StoreFacts.

(** ** The Sync Coordinator *)

Section SyncFacts.
Context `{Host}.
Import StorageService SyncService.

Lemma sync_one_flags (env : RunEnv) (n i : nat) (packet : Packet)
    (l : Loop) :
  isOnline (sync (l_sys (sync_one env n i packet l)))
    = isOnline (sync (l_sys l)) ∧
  isSyncing (sync (l_sys (sync_one env n i packet l)))
    = isSyncing (sync (l_sys l)).
Proof.
  unfold sync_one.
  destruct (upload (per_packet env i)); [| done].
  by destruct (markPacketAsSynced _ _ _ _) as [w [[] | e]].
Qed.

Lemma sync_loop_flags (env : RunEnv) (n : nat) (packets : list Packet) :
  ∀ (i : nat) (l : Loop),
    isOnline (sync (l_sys (sync_loop env n i packets l)))
      = isOnline (sync (l_sys l)) ∧
    isSyncing (sync (l_sys (sync_loop env n i packets l)))
      = isSyncing (sync (l_sys l)).
Proof.
  induction packets as [| packet rest IH]; intros i l; [done |].
  simpl. destruct (IH (S i) (sync_one env n i packet l)) as [-> ->].
  apply sync_one_flags.
Qed.

(** The counters of the loop add up to the packets processed, and every
    packet leaves one entry in the result list. *)
Lemma sync_loop_counts (env : RunEnv) (n : nat) (packets : list Packet) :
  ∀ (i : nat) (l : Loop),
    let l' := sync_loop env n i packets l in
    syncedCount l' + failedCount l'
      = syncedCount l + failedCount l + length packets ∧
    length (l_results l') = length (l_results l) + length packets.
Proof.
  induction packets as [| packet rest IH]; intros i l; simpl; [lia |].
  destruct (IH (S i) (sync_one env n i packet l)) as [-> ->].
  unfold sync_one.
  destruct (upload (per_packet env i)); simpl.
  - destruct (markPacketAsSynced _ _ _ _) as [w [[] | e]]; simpl;
      rewrite length_app; simpl; lia.
  - rewrite length_app; simpl; lia.
Qed.

(** The only error the store read can throw is the one of
    [initialize]. *)
Lemma getSurveyPacketsForSync_threw (io : HostIO) (w w' : World)
    (e : string) :
  getSurveyPacketsForSync io w = (w', Threw e) →
  e = "Storage initialization failed".
Proof.
  unfold getSurveyPacketsForSync, ensureInitialized, initialize.
  destruct (isInitialized (svc w)); simpl.
  - repeat case_match; intros; simplify_eq.
  - destruct (opening io); simpl; repeat case_match; intros; by simplify_eq.
Qed.

Lemma attempt_threw (env : RunEnv) (st st' : System) (e : string) :
  attempt env st = (st', Threw e) → e = "Storage initialization failed".
Proof.
  unfold attempt.
  destruct (getSurveyPacketsForSync (list_io env) (store st))
    as [w [[| p ps] | e']] eqn:Hread; cbv zeta; intros Heq;
    try discriminate.
  injection Heq as _ <-. by eapply getSurveyPacketsForSync_threw.
Qed.

(** What a run that finds pending packets resolves with. *)
Lemma syncAll_result_shape (env : RunEnv) (st st' : System)
    (r : SyncResult) :
  syncAllPendingData env st = (st', Ok r) →
  match total r, results r with
  | Some n, Some rs =>
      n ≠ 0 ∧ synced r + failed r = n ∧ length rs = n ∧
      success r = Nat.eqb (failed r) 0
  | None, None => success r = true ∧ synced r = 0 ∧ failed r = 0
  | _, _ => False
  end.
Proof.
  unfold syncAllPendingData.
  destruct (enter (sync st)) as [s | e]; [| discriminate].
  unfold attempt.
  destruct (getSurveyPacketsForSync _ _) as [w [[| p ps] | e']];
    cbv zeta; intros Heq; try discriminate;
    injection Heq as _ <-; simpl; [done |].
  pose proof (sync_loop_counts env (S (length ps)) ps 1
    (sync_one env (S (length ps)) 0 p
       {| l_sys := set_store w {| sync := s; store := store st |};
          syncedCount := 0; failedCount := 0; l_results := [] |}))
    as [Hcount Hlen].
  cbv zeta in Hcount, Hlen. rewrite Hlen.
  split; [done |]. split; [| split; [| done]].
  - rewrite Hcount. unfold sync_one.
    destruct (upload _); simpl; [| lia].
    destruct (markPacketAsSynced _ _ _ _) as [w' [[] | e]]; simpl; lia.
  - unfold sync_one.
    destruct (upload _); simpl; [| lia].
    destruct (markPacketAsSynced _ _ _ _) as [w' [[] | e]]; simpl; lia.
Qed.

Lemma syncAll_offline (env : RunEnv) (st : System) :
  isOnline (sync st) = false →
  syncAllPendingData env st = (st, Threw "No internet connection available").
Proof. intros Hoff. unfold syncAllPendingData, enter. by rewrite Hoff. Qed.

Lemma syncAll_busy (env : RunEnv) (st : System) :
  isOnline (sync st) = true → isSyncing (sync st) = true →
  syncAllPendingData env st = (st, Threw "Sync already in progress").
Proof.
  intros Hon Hbusy. unfold syncAllPendingData, enter. by rewrite Hon, Hbusy.
Qed.

Lemma syncAll_run (env : RunEnv) (st : System) :
  isOnline (sync st) = true → isSyncing (sync st) = false →
  let entered :=
    {| sync := {| isOnline := true; isSyncing := true; syncProgress := 0 |};
       store := store st |} in
  syncAllPendingData env st
  = (leave (attempt env entered).1, (attempt env entered).2).
Proof.
  intros Hon Hidle. unfold syncAllPendingData, enter.
  rewrite Hon, Hidle. simpl. by destruct (attempt env _).
Qed.

Lemma in_flight_flags (env : RunEnv) (st mid : System) (k : nat) :
  in_flight env st k = Some mid →
  isOnline (sync mid) = true ∧ isSyncing (sync mid) = true.
Proof.
  unfold in_flight, enter.
  destruct (isOnline (sync st)) eqn:Hon; simpl; [| discriminate].
  destruct (isSyncing (sync st)); simpl; [discriminate |].
  destruct (getSurveyPacketsForSync _ _) as [w [ps | e]];
    intros [= <-]; [| done].
  apply sync_loop_flags.
Qed.

(** C5. [syncAllPendingData] throws the offline error when connectivity
    is down and, past that check, the busy error when a run is in
    progress, leaving everything as it was.  A run that passes the two
    guards ends with [isSyncing] false and [syncProgress] 0 whatever
    happens inside it, so the next call is not rejected as busy; and at
    every point where such a run is suspended a second call is rejected
    with the busy error. *)
Theorem syncAll_guards_and_always_resets :
  ∀ (env env' : RunEnv) (st : System),
    let after := (syncAllPendingData env st).1 in
    if negb (isOnline (sync st))
    then syncAllPendingData env st
         = (st, Threw "No internet connection available")
    else if isSyncing (sync st)
    then syncAllPendingData env st = (st, Threw "Sync already in progress")
    else
      isSyncing (sync after) = false ∧
      syncProgress (sync after) = 0%Q ∧
      (syncAllPendingData env' after).2 ≠ Threw "Sync already in progress" ∧
      ∀ (k : nat) (mid : System),
        in_flight env st k = Some mid →
        syncAllPendingData env' mid
        = (mid, Threw "Sync already in progress").
Proof.
  intros env env' st after. subst after.
  destruct (isOnline (sync st)) eqn:Hon; simpl;
    [| by apply syncAll_offline].
  destruct (isSyncing (sync st)) eqn:Hbusy; [by apply syncAll_busy |].
  rewrite (syncAll_run env st Hon Hbusy). cbv zeta. simpl.
  destruct (attempt env _) as [st' r]. simpl.
  split; [reflexivity |]. split; [reflexivity |]. split.
  - destruct (isOnline (sync st')) eqn:Hon'.
    + rewrite syncAll_run by done. simpl.
      destruct (attempt env' _) as [st'' [r' | e]] eqn:Hnext; simpl;
        [discriminate |].
      apply attempt_threw in Hnext as ->. discriminate.
    + rewrite syncAll_offline by done. discriminate.
  - intros k mid Hmid. apply in_flight_flags in Hmid as [Hon' Hsync].
    by apply syncAll_busy.
Qed.

End SyncFacts.

(** ** The services on a concrete host *)

Section OnSim.
Import StorageService Calls Scenario.
#[local] Existing Instance Sim.host.

(** C1 (counterexample). Packet [S1] is stored as synced; saving it
    again resolves and leaves it stored as pending. *)
Lemma save_puts_synced_packet_back_to_pending :
  status_at synced_S1 "S1" = Some (Js.Str "synced") ∧
  is_ok (saveSurveyPacket io_ok Sim.t3 (packet "S1") synced_S1).2 = true ∧
  status_at (saveSurveyPacket io_ok Sim.t3 (packet "S1") synced_S1).1 "S1"
  = Some (Js.Str "pending").
Proof. vm_compute. repeat split; reflexivity. Qed.

(** C1 (witness). With [S1] synced, marking it again, saving [S2] and
    reading the statistics leave [S1] synced; saving [S1] makes it
    pending. *)
Lemma syncStatus_leaves_synced_only_by_save_witness :
  status_at
    (run [MarkSynced io_ok Sim.t3 "S1"; Save io_ok Sim.t3 (packet "S2");
          GetStats io_ok Sim.t3] synced_S1) "S1"
  = Some (Js.Str "synced") ∧
  status_at (saveSurveyPacket io_ok Sim.t3 (packet "S1") synced_S1).1 "S1"
  = Some (Js.Str "pending").
Proof.
  destruct (syncStatus_leaves_synced_only_by_save
              [MarkSynced io_ok Sim.t3 "S1"; Save io_ok Sim.t3 (packet "S2");
               GetStats io_ok Sim.t3] synced_S1 "S1")
    as (Hkeep & _ & Hsave).
  - vm_compute. reflexivity.
  - unfold well_keyed. apply (bool_decide_unpack _). vm_compute. exact I.
  - split.
    + apply Hkeep; vm_compute; reflexivity.
    + apply (Hsave io_ok Sim.t3 (packet "S1")); vm_compute; reflexivity.
Defined.

(** C2 (counterexample). On a service that has not been initialised,
    [initialize] rejects when opening the database throws. *)
Lemma initialize_rejects_when_open_throws :
  initialize OpenThrows constructor
  = (constructor, Threw "Storage initialization failed").
Proof. vm_compute. reflexivity. Qed.

(** C3 (counterexample). After survey 7 was completed with one answer
    and one location sample, the status still reports its start time,
    one answer and one location. *)
Lemma status_after_complete_reports_finished_record :
  let done :=
    VerificationService.completeSurvey (H := Sim.host) (Ok Sim.here) Sim.t3 Sim.t3
      (recorded (Js.Str "yes") "ua") in
  is_ok done.2 = true ∧
  VerificationService.getVerificationStatus done.1
  = {| VerificationService.s_isActive := false;
       VerificationService.s_surveyId := Js.Null;
       VerificationService.s_startTime := Some Sim.t0;
       VerificationService.s_answerCount := 1;
       VerificationService.s_locationCount := 1;
       VerificationService.s_isTracking := false |}.
Proof. vm_compute. split; reflexivity. Qed.

(** C3 (witness). The amended statement on the same run. *)
Lemma completeSurvey_leaves_record_in_place_witness :
  let done :=
    VerificationService.completeSurvey (H := Sim.host) (Ok Sim.here) Sim.t3 Sim.t3
      (recorded (Js.Str "yes") "ua") in
  let st := VerificationService.getVerificationStatus done.1 in
  VerificationService.s_isActive st = false ∧
  VerificationService.s_surveyId st = Js.Null ∧
  VerificationService.s_startTime st = Some Sim.t0 ∧
  VerificationService.s_answerCount st = 1 ∧
  VerificationService.s_locationCount st = 1.
Proof.
  cbv zeta.
  assert (Hok : is_ok (VerificationService.completeSurvey (H := Sim.host)
                         (Ok Sim.here) Sim.t3 Sim.t3
                         (recorded (Js.Str "yes") "ua")).2 = true)
    by (vm_compute; reflexivity).
  destruct (VerificationService.completeSurvey (H := Sim.host) (Ok Sim.here)
              Sim.t3 Sim.t3 (recorded (Js.Str "yes") "ua"))
    as [s' [pkt | e]] eqn:Hrun; [| discriminate Hok].
  destruct (completeSurvey_leaves_record_in_place _ _ _ _ _ _ Hrun)
    as (Hidle & Hid & Hstart & Hanswers & Hfixes & _).
  cbn [fst].
  split; [exact Hidle |]. split; [exact Hid |].
  split; [exact Hstart |]. split; [exact Hanswers | exact Hfixes].
Defined.

(** C4. With connectivity up, no run in progress and nothing pending
    in the store, the resolved object has [success], [synced] and
    [failed] only: it has no [total] and no [results]. *)
Theorem syncAll_nothing_pending_omits_total_and_results :
  (SyncService.syncAllPendingData (uploads 0)
     {| SyncService.sync := online; SyncService.store := synced_S1 |}).2
  = Ok {| SyncService.success := true; SyncService.synced := 0;
          SyncService.failed := 0; SyncService.total := None;
          SyncService.results := None |}.
Proof. vm_compute. reflexivity. Qed.

(** C8 (witness). An idle recorder next to a store that holds [S1]. *)
Lemma completeSurvey_idle_fails_unchanged_witness :
  let page := {| App.verification := VerificationService.constructor;
                 App.coordinator := online;
                 App.storage := synced_S1 |} in
  App.completeSurvey (H := Sim.host) (Ok Sim.here) Sim.t3 Sim.t3 page
  = (page, Threw "No active survey to complete").
Proof.
  cbv zeta. apply completeSurvey_idle_fails_unchanged. reflexivity.
Defined.

(** C9 (witness). Two recorders of the same survey that differ in the
    logged answer and in the device snapshot have the same hash. *)
Lemma verificationHash_depends_on_projection_witness :
  VerificationService.generateVerificationHash (recorded (Js.Str "yes") "ua")
  = VerificationService.generateVerificationHash
      (recorded (Js.Str "no, never") "other").
Proof.
  apply verificationHash_depends_on_projection; reflexivity.
Defined.

(** The scenario of a partial failure: of two pending packets one upload
    fails; the run reports one synced and one failed of two, and the
    store then counts one pending and one synced. *)
Example syncAll_partial_failure :
  let run := SyncService.syncAllPendingData (uploads 0)
    {| SyncService.sync := online; SyncService.store := pending_S2_S3 |} in
  (match run.2 with
   | Ok r => (SyncService.success r, SyncService.synced r,
              SyncService.failed r, SyncService.total r)
   | Threw _ => (true, 0, 0, None)
   end) = (false, 1, 1, Some 2) ∧
  SyncService.isSyncing (SyncService.sync run.1) = false ∧
  (match (getStorageStats io_ok Sim.t3 (SyncService.store run.1)).2 with
   | Ok st => (totalSurveys st, pendingSync st, syncedSurveys st)
   | Threw _ => (0, 0, 0)
   end) = (2, 1, 1).
Proof. vm_compute. repeat split; reflexivity. Qed.

(** After eleven samples the first one is gone and the other ten remain
    in arrival order. *)
Example eleven_samples_keep_last_ten :
  let fix_at (n : Z) : Sim.Fix :=
    {| Sim.latitude := n; Sim.longitude := n; Sim.accuracy := 10;
       Sim.fix_time := Sim.t1 |} in
  let ticks := map (fun n => Tick (Ok (fix_at n))) (seqZ 1 11) in
  VerificationService.locationHistory
    (VerificationService.verificationData
       (play ticks
          (VerificationService.startSurvey (Js.Number 7) Sim.t0 "ua"
             (Ok Sim.here) 1 VerificationService.constructor).1))
  = map fix_at (seqZ 2 10).
Proof. vm_compute. reflexivity. Qed.

(** A recording is logged as audio with the size of its [Blob], a
    photo answer, which carries no [blob], as photo with length 0, and
    a choice as text with its length. *)
Example answers_are_logged_by_type_and_size :
  let logged (answer : Js.Value) :=
    (fun e => (VerificationService.answerType e,
               VerificationService.answerLength e))
      <$> last (VerificationService.answerTimestamps
                  (VerificationService.verificationData
                     (VerificationService.logAnswer (H := Sim.host)
                        (Js.Number 4) answer (Ok Sim.here) Sim.t1
                        (recorded (Js.Str "yes") "ua")).1)) in
  logged (Js.Object [("type", Js.Str "audio");
                     ("blob", Js.Blob 48000 "audio/wav");
                     ("url", Js.Str "blob:recording")])
  = Some ("audio", Js.Number 48000) ∧
  logged (Js.Object [("type", Js.Str "photo");
                     ("url", Js.Str "photo_placeholder.jpg")])
  = Some ("photo", Js.Number 0) ∧
  logged (Js.Str "Farming") = Some ("text", Js.Number 7) ∧
  logged Js.Null = Some ("unknown", Js.Number 0).
Proof. vm_compute. repeat split; reflexivity. Qed.

End OnSim.

(** ** More on the Local Store *)

Section StoreMore.
Import StorageService Calls StoreView.

Lemma world_eta (w : World) : {| svc := svc w; media := media w |} = w.
Proof. by destruct w. Qed.

Lemma media_eta_ls (m : Media) : set_localStorage (localStorage m) m = m.
Proof. by destruct m. Qed.

(** Writing out the value a JSON text parses to gives the text back. *)
Lemma stringify_parse :
  ∀ j : Js.Json, Js.stringify (Js.parse j) = Some j.
Proof.
  fix IH 1. intros [| b | n | s | members]; simpl; try reflexivity.
  do 2 f_equal.
  induction members as [| [k x] rest IHrest]; simpl; [reflexivity |].
  by rewrite IH, IHrest.
Qed.

Lemma stringify_parsed (j : option Js.Json) :
  Js.stringify (Js.parsed j) = j.
Proof. destruct j as [j |]; [apply stringify_parse | reflexivity]. Qed.

Lemma to_json_of_json (t : Text) : to_json (of_json t) = t.
Proof.
  destruct t. unfold to_json, of_json. simpl.
  by rewrite !stringify_parsed.
Qed.

(** Marking a packet that was read from [localStorage] gives a packet
    that reads back as it was written. *)
Lemma of_json_mark (now : string) (t : Text) :
  of_json (to_json (mark now (of_json t))) = mark now (of_json t).
Proof.
  destruct t. unfold to_json, of_json, mark. simpl.
  by rewrite !stringify_parsed.
Qed.

Lemma getItem_Some (k : string) (m : Media) (p : Packet) :
  getItem k m = Some p ↔
  ∃ t : Text, localStorage m !! k = Some t ∧ p = of_json t.
Proof.
  unfold getItem. destruct (localStorage m !! k) as [t |]; simpl.
  - split; [intros [= <-]; by exists t | by intros (t' & [= <-] & ->)].
  - split; [done | by intros (t' & ? & _)].
Qed.

Lemma getItem_None (k : string) (m : Media) :
  getItem k m = None ↔ localStorage m !! k = None.
Proof. unfold getItem. by destruct (localStorage m !! k). Qed.

Lemma getItem_insert (k k' : string) (t : Text) (m : Media) :
  getItem k' (set_localStorage (<[k := t]> (localStorage m)) m)
  = if decide (k = k') then Some (of_json t) else getItem k' m.
Proof.
  unfold getItem. simpl. case_decide as Hk.
  - subst. by rewrite lookup_insert_eq.
  - by rewrite lookup_insert_ne.
Qed.

(** X1. [saveSurveyPacket] is an upsert that either happens or does not.
    When it resolves, it returns the packet it built (pending, stamped
    with the time of the call), and what is then stored under the
    survey id is that packet on the object store and the packet its
    JSON text parses to on [localStorage], pending on either medium;
    the packets under every other id are as before.  When it rejects,
    the store is as before. *)
Theorem saveSurveyPacket_upserts_or_leaves_store :
  ∀ (io : HostIO) (now : string) (packet : Packet) (w : World),
    isInitialized (svc w) = true →
    match saveSurveyPacket io now packet w with
    | (w', Ok pd) =>
        syncStatus pd = Js.Str "pending" ∧ createdAt pd = Some now ∧
        surveyId pd = surveyId packet ∧ body pd = body packet ∧
        stored w' (surveyId packet)
        = Some (if useLocalStorageFallback (svc w)
                then of_json (to_json pd) else pd) ∧
        status_at w' (surveyId packet) = Some (Js.Str "pending") ∧
        ∀ id : string, id ≠ surveyId packet → stored w' id = stored w id
    | (w', Threw e) => e = "Survey packet save failed" ∧ w' = w
    end.
Proof.
  intros io now packet w Hinit. unfold saveSurveyPacket.
  rewrite ensureInitialized_ready by done.
  unfold status_at, stored, setItem, putData.
  destruct (useLocalStorageFallback (svc w)) eqn:Hfb.
  - destruct (write_ok io); simpl.
    + rewrite Hfb. repeat split; try reflexivity.
      * rewrite getItem_insert. by rewrite decide_True.
      * rewrite getItem_insert. by rewrite decide_True.
      * intros id Hid. rewrite getItem_insert, decide_False; [done |].
        intros Heq. by apply key_of_inj in Heq.
    + split; [reflexivity | apply world_eta].
  - destruct (db (svc w)); simpl; [| split; [reflexivity | apply world_eta]].
    destruct (write_ok io); simpl.
    + rewrite Hfb. repeat split; try reflexivity.
      * by rewrite lookup_insert_eq.
      * by rewrite lookup_insert_eq.
      * intros id Hid. by rewrite lookup_insert_ne.
    + split; [reflexivity | apply world_eta].
Qed.

(** X2. Last write wins: two saves of the same survey id leave the store
    exactly as the second save alone would. *)
Theorem saveSurveyPacket_last_write_wins :
  ∀ (io1 io2 : HostIO) (t1 t2 : string) (p1 p2 : Packet) (w : World),
    isInitialized (svc w) = true →
    surveyId p1 = surveyId p2 →
    is_ok (saveSurveyPacket io2 t2 p2 w).2 = true →
    (saveSurveyPacket io2 t2 p2 (saveSurveyPacket io1 t1 p1 w).1).1
    = (saveSurveyPacket io2 t2 p2 w).1.
Proof.
  intros io1 io2 t1 t2 p1 p2 [s m] Hinit Hid. simpl in Hinit.
  unfold saveSurveyPacket. simpl.
  rewrite !(ensureInitialized_ready _ s) by done.
  unfold setItem, putData.
  destruct (useLocalStorageFallback s) eqn:Hfb.
  - destruct (write_ok io2) eqn:Hw2; simpl; [| discriminate]. intros _.
    destruct (write_ok io1); simpl;
      rewrite ?(ensureInitialized_ready _ s) by done; rewrite ?Hfb, ?Hw2; simpl;
      [| done].
    unfold set_localStorage. simpl. rewrite Hid.
    by rewrite insert_insert_eq.
  - destruct (db s) eqn:Hdb; simpl; [| discriminate].
    destruct (write_ok io2) eqn:Hw2; simpl; [| discriminate]. intros _.
    destruct (write_ok io1); simpl;
      rewrite ?(ensureInitialized_ready _ s) by done;
      rewrite ?Hfb, ?Hdb, ?Hw2; simpl; [| done].
    unfold set_surveyPackets. simpl. rewrite Hid.
    by rewrite insert_insert_eq.
Qed.

(** X3. [markPacketAsSynced] on a survey id that is not stored resolves and
    changes nothing. *)
Theorem markPacketAsSynced_missing_is_noop :
  ∀ (io : HostIO) (now id : string) (w : World),
    isInitialized (svc w) = true →
    stored w id = None →
    markPacketAsSynced io now id w = (w, Ok tt).
Proof.
  intros io now id w Hinit Hnone. unfold markPacketAsSynced.
  rewrite ensureInitialized_ready by done.
  unfold stored, getData in *.
  destruct (useLocalStorageFallback (svc w)).
  - rewrite Hnone. by rewrite world_eta.
  - destruct (db (svc w)); [| by rewrite world_eta].
    destruct (read_ok io); [| by rewrite world_eta].
    rewrite Hnone. by rewrite world_eta.
Qed.

(** X4. [markPacketAsSynced] always resolves once the service is
    initialised.  When the medium accepts the read and the write, the
    packet under the id gets [syncStatus] synced and [syncedAt] stamped
    and keeps every other property; when it does not, the packet is as
    before.  Packets under other ids are untouched either way. *)
Theorem markPacketAsSynced_marks_only_that_packet :
  ∀ (io : HostIO) (now id : string) (p : Packet) (w : World),
    ready w → well_keyed w →
    stored w id = Some p →
    let w' := (markPacketAsSynced io now id w).1 in
    (markPacketAsSynced io now id w).2 = Ok tt ∧
    (∃ p' : Packet,
       stored w' id = Some p' ∧
       surveyId p' = surveyId p ∧ status p' = status p ∧
       createdAt p' = createdAt p ∧ completedAt p' = completedAt p ∧
       body p' = body p ∧
       if write_ok io && (useLocalStorageFallback (svc w) || read_ok io)
       then syncStatus p' = Js.Str "synced" ∧ syncedAt p' = Some now
       else p' = p) ∧
    (∀ id' : string, id' ≠ id → stored w' id' = stored w id').
Proof.
  intros io now id p w [Hinit Hmedium] Hkeyed Hp. cbv zeta.
  unfold markPacketAsSynced. rewrite ensureInitialized_ready by done.
  unfold stored, setItem, putData, getData in *. simpl.
  destruct (useLocalStorageFallback (svc w)) eqn:Hfb.
  - rewrite Hp. apply getItem_Some in Hp as (t & Ht & ->).
    destruct (write_ok io); simpl.
    + rewrite getItem_insert, decide_True by done. split; [done |]. split.
      * exists (mark now (of_json t)). rewrite of_json_mark.
        by repeat split.
      * intros id' Hid. rewrite getItem_insert, decide_False; [done |].
        intros Heq. by apply key_of_inj in Heq.
    + split; [done |]. split; [| done]. exists (of_json t).
      split; [by apply getItem_Some; exists t | by repeat split].
  - destruct Hmedium as [Hfalse | Hdb]; [discriminate |]. rewrite Hdb.
    destruct (read_ok io); simpl.
    + rewrite Hp. destruct (write_ok io); simpl.
      * rewrite (Hkeyed id p Hp), lookup_insert_eq.
        split; [done |]. split.
        -- exists (mark now p). repeat split; try done.
           apply (Hkeyed id p Hp).
        -- intros id' Hid. by rewrite lookup_insert_ne.
      * split; [done |]. split; [| done]. exists p. by repeat split.
    + split; [done |]. split; [| done]. exists p.
      rewrite andb_false_r. by repeat split.
Qed.

Lemma elem_of_local_packets (m : Media) (p : Packet) :
  p ∈ local_packets m ↔
  ∃ (k : string) (t : Text),
    localStorage m !! k = Some t ∧ is_survey_key k = true ∧ p = of_json t.
Proof.
  unfold local_packets. rewrite list_elem_of_fmap. split.
  - intros (t & -> & Ht). apply list_elem_of_fmap in Ht as [[k t'] [-> Hkt]].
    apply list_elem_of_In, List.filter_In in Hkt as [Hkt Hkey].
    apply list_elem_of_In, elem_of_in_key_order in Hkt.
    by exists k, t'.
  - intros (k & t & Ht & Hkey & ->). exists t. split; [done |].
    apply list_elem_of_fmap. exists (k, t). split; [done |].
    apply list_elem_of_In, List.filter_In. split; [| done].
    by apply list_elem_of_In, elem_of_in_key_order.
Qed.

Lemma local_packets_stored (w : World) (p : Packet) :
  ls_keyed w →
  p ∈ local_packets (media w) →
  getItem (key_of (surveyId p)) (media w) = Some p.
Proof.
  intros Hkeyed Hp.
  apply elem_of_local_packets in Hp as (k & t & Ht & Hkey & ->).
  apply getItem_Some. exists t. split; [| done]. simpl.
  by rewrite <- (Hkeyed k t Ht Hkey).
Qed.

Lemma stored_local_packets (m : Media) (id : string) (p : Packet) :
  getItem (key_of id) m = Some p → p ∈ local_packets m.
Proof.
  intros Hp. apply getItem_Some in Hp as (t & Ht & ->).
  apply elem_of_local_packets. exists (key_of id), t.
  split; [done |]. split; [apply key_of_is_survey_key | done].
Qed.

Lemma visible_stored (w : World) (p : Packet) :
  well_keyed w → ls_keyed w →
  p ∈ visible w → stored w (surveyId p) = Some p.
Proof.
  intros Hdb Hls. unfold visible, stored.
  destruct (useLocalStorageFallback (svc w)).
  - by apply local_packets_stored.
  - intros Hp. apply list_elem_of_fmap in Hp as [[k q] [-> Hkq]].
    apply elem_of_in_key_order in Hkq. simpl.
    by rewrite (Hdb k q Hkq).
Qed.

Lemma stored_visible (w : World) (id : string) (p : Packet) :
  stored w id = Some p → p ∈ visible w.
Proof.
  unfold visible, stored.
  destruct (useLocalStorageFallback (svc w)).
  - apply stored_local_packets.
  - intros Hp. apply list_elem_of_fmap. exists (id, p). split; [done |].
    by apply elem_of_in_key_order.
Qed.

Lemma elem_of_filter_bool {A} (f : A → bool) (l : list A) (x : A) :
  x ∈ List.filter f l ↔ x ∈ l ∧ f x = true.
Proof. rewrite !list_elem_of_In. apply List.filter_In. Qed.

(** X5. What [getSurveyPacketsForSync] resolves with on an initialised
    service: only pending packets, each the one stored under its own
    survey id; every stored pending packet when the medium lets the
    store be read; and the empty list when it does not. *)
Theorem getSurveyPacketsForSync_lists_the_pending :
  ∀ (io : HostIO) (w : World),
    ready w → well_keyed w → ls_keyed w →
    ∃ l : list Packet,
      getSurveyPacketsForSync io w = (w, Ok l) ∧
      (∀ p : Packet,
         p ∈ l → is_pending p = true ∧ stored w (surveyId p) = Some p) ∧
      if useLocalStorageFallback (svc w) || read_ok io
      then ∀ (id : string) (p : Packet),
             stored w id = Some p → is_pending p = true → p ∈ l
      else l = [].
Proof.
  intros io w [Hinit Hmedium] Hdb Hls.
  unfold getSurveyPacketsForSync, getAllData.
  rewrite ensureInitialized_ready by done. rewrite world_eta.
  pose proof (visible_stored w) as Hvis.
  pose proof (stored_visible w) as Hsto.
  unfold visible in Hvis, Hsto.
  destruct (useLocalStorageFallback (svc w)) eqn:Hfb; simpl.
  - eexists. split; [reflexivity |]. split.
    + intros p Hp. apply elem_of_filter_bool in Hp as [Hp Hpend].
      split; [done |]. by apply Hvis.
    + intros id p Hp Hpend. apply elem_of_filter_bool. split; [| done].
      by apply (Hsto id).
  - destruct Hmedium as [Hfalse | Hhandle]; [discriminate |]. rewrite Hhandle.
    destruct (read_ok io); simpl.
    + eexists. split; [reflexivity |]. split.
      * intros p Hp. apply elem_of_filter_bool in Hp as [Hp Hpend].
        split; [done |]. by apply Hvis.
      * intros id p Hp Hpend. apply elem_of_filter_bool. split; [| done].
        by apply (Hsto id).
    + exists []. split; [reflexivity |]. split; [| done].
      intros p Hp. by apply elem_of_nil in Hp.
Qed.

Lemma length_filter_le {A} (f : A → bool) (l : list A) :
  (length (List.filter f l) ≤ length l)%nat.
Proof. induction l as [| x l IH]; simpl; [lia |]. destruct (f x); simpl; lia. Qed.

(** X6. On an initialised service [getStorageStats] and
    [getSurveyPacketsForSync] always resolve, and under the same
    behaviour of the medium the [pendingSync] count is the number of
    packets the sync would be given.  Neither count of the snapshot
    exceeds the total. *)
Theorem getStorageStats_counts_what_sync_lists :
  ∀ (io : HostIO) (now : string) (w : World),
    isInitialized (svc w) = true →
    match (getStorageStats io now w).2, (getSurveyPacketsForSync io w).2 with
    | Ok st, Ok l =>
        pendingSync st = length l ∧
        (pendingSync st ≤ totalSurveys st)%nat ∧
        (syncedSurveys st ≤ totalSurveys st)%nat ∧
        lastUpdate st = now
    | _, _ => False
    end.
Proof.
  intros io now w Hinit.
  unfold getStorageStats, getSurveyPacketsForSync.
  rewrite ensureInitialized_ready by done.
  destruct (useLocalStorageFallback (svc w)); simpl.
  - auto using length_filter_le.
  - destruct (getAllData io (svc w) (media w)) as [all | e]; simpl.
    + auto using length_filter_le.
    + repeat split; lia.
Qed.

Lemma filter_bool_nil {A} (f : A → bool) (l : list A) :
  (∀ x, x ∈ l → f x = false) → List.filter f l = [].
Proof.
  induction l as [| x l IH]; intros Hl; [done |]. simpl.
  rewrite (Hl x) by apply list_elem_of_here.
  apply IH. intros y Hy. apply Hl. by apply list_elem_of_further.
Qed.

(** X7. [clearAllData] that resolves leaves no packet under any survey id
    and nothing for the service to read, keeps the choice of medium, and
    in the fallback leaves the entries of [localStorage] that are not
    [survey_] keys alone; when it rejects, nothing has changed. *)
Theorem clearAllData_removes_every_packet :
  ∀ (io : HostIO) (w : World),
    isInitialized (svc w) = true →
    match clearAllData io w with
    | (w', Ok _) =>
        (∀ id : string, stored w' id = None) ∧
        visible w' = [] ∧
        svc w' = svc w ∧
        (∀ k : string, is_survey_key k = false →
           localStorage (media w') !! k = localStorage (media w) !! k)
    | (w', Threw e) => e = "Data clear failed" ∧ w' = w
    end.
Proof.
  intros io w Hinit. unfold clearAllData.
  rewrite ensureInitialized_ready by done.
  unfold stored, visible.
  destruct (useLocalStorageFallback (svc w)) eqn:Hfb; simpl.
  - rewrite Hfb. split; [| split; [| split; [done |]]].
    + intros id. apply getItem_None. simpl.
      apply map_lookup_filter_None. right.
      intros p _ Hkey. simpl in Hkey.
      by rewrite key_of_is_survey_key in Hkey.
    + unfold local_packets. simpl. rewrite filter_bool_nil; [done |].
      intros [k p] Hkp. apply elem_of_in_key_order in Hkp.
      apply map_lookup_filter_Some in Hkp as [_ Hkey]. simpl in *.
      by destruct (is_survey_key k).
    + intros k Hkey.
      destruct (localStorage (media w) !! k) as [p |] eqn:Hk.
      * apply map_lookup_filter_Some. split; [done |]. simpl.
        rewrite Hkey. by intros [].
      * apply map_lookup_filter_None. by left.
  - destruct (db (svc w)); simpl.
    + destruct (write_ok io); simpl.
      * rewrite Hfb. simpl. rewrite in_key_order_empty. by repeat split.
      * split; [done | apply world_eta].
    + split; [done | apply world_eta].
Qed.

Lemma run_svc (calls : list Call) :
  ∀ w : World, isInitialized (svc w) = true → svc (run calls w) = svc w.
Proof.
  induction calls as [| c calls IH]; intros w Hinit; [reflexivity |].
  change (run (c :: calls) w) with (run calls (step c w)).
  rewrite IH; rewrite step_svc; done.
Qed.

(** X8. Once the service is initialised, no sequence of store calls changes
    its fields: the medium chosen at initialisation and the database
    handle stay, and the service stays initialised. *)
Theorem run_keeps_the_medium :
  ∀ (calls : list Call) (w : World),
    isInitialized (svc w) = true →
    svc (run calls w) = svc w ∧
    isInitialized (svc (run calls w)) = true.
Proof.
  intros calls w Hinit.
  rewrite (run_svc calls w Hinit). split; [reflexivity | exact Hinit].
Qed.

Lemma ensureInitialized_handle (o : OpenOutcome) (s : Service) :
  (isInitialized s = true →
   useLocalStorageFallback s = true ∨ db s = Some tt) →
  let s' := (ensureInitialized o s).1 in
  isInitialized s' = true →
  useLocalStorageFallback s' = true ∨ db s' = Some tt.
Proof.
  intros Hs. unfold ensureInitialized, initialize.
  destruct (isInitialized s) eqn:Hinit; simpl; [rewrite Hinit; auto |].
  destruct o; simpl; auto. rewrite Hinit. discriminate.
Qed.

Lemma step_svc_ensure (c : Call) (w : World) :
  ∃ o : OpenOutcome, svc (step c w) = (ensureInitialized o (svc w)).1.
Proof.
  destruct c as [o | io now packet | io now id | io | io now | io]; simpl.
  - exists o. unfold ensureInitialized, initialize.
    by destruct (isInitialized (svc w)).
  - exists (opening io). unfold saveSurveyPacket.
    destruct (ensureInitialized _ _) as [s [[] | e]]; simpl; [| done].
    by repeat case_match.
  - exists (opening io). unfold markPacketAsSynced.
    by destruct (ensureInitialized _ _) as [s [[] | e]].
  - exists (opening io). unfold getSurveyPacketsForSync.
    destruct (ensureInitialized _ _) as [s [[] | e]]; simpl; [| done].
    by repeat case_match.
  - exists (opening io). unfold getStorageStats.
    destruct (ensureInitialized _ _) as [s [[] | e]]; simpl; [| done].
    by repeat case_match.
  - exists (opening io). unfold clearAllData.
    destruct (ensureInitialized _ _) as [s [[] | e]]; simpl; [| done].
    by repeat case_match.
Qed.

Lemma step_handle (c : Call) (w : World) :
  (isInitialized (svc w) = true →
   useLocalStorageFallback (svc w) = true ∨ db (svc w) = Some tt) →
  isInitialized (svc (step c w)) = true →
  useLocalStorageFallback (svc (step c w)) = true ∨
  db (svc (step c w)) = Some tt.
Proof.
  intros Hw. destruct (step_svc_ensure c w) as [o ->].
  by apply ensureInitialized_handle.
Qed.

Lemma step_ls_keyed (c : Call) (w : World) :
  ls_keyed w → ls_keyed (step c w).
Proof.
  unfold ls_keyed. intros Hk.
  destruct c as [o | io now packet | io now id | io | io now | io]; simpl.
  - done.
  - unfold saveSurveyPacket, setItem, putData.
    repeat case_match; simplify_eq/=; try done;
      by apply map_Forall_insert_2.
  - unfold markPacketAsSynced, setItem, putData, getData.
    repeat case_match; simplify_eq/=; try done.
    apply map_Forall_insert_2; [| done]. simpl. intros Hkey.
    match goal with Hl : getItem (key_of id) _ = Some _ |- _ =>
      apply getItem_Some in Hl as (t & Ht & ->) end.
    apply (Hk _ _ Ht Hkey).
  - unfold getSurveyPacketsForSync. repeat case_match; simplify_eq/=; done.
  - unfold getStorageStats. repeat case_match; simplify_eq/=; done.
  - unfold clearAllData. repeat case_match; simplify_eq/=; try done.
    intros k p Hkp. apply map_lookup_filter_Some in Hkp as [Hkp _].
    by apply (Hk k).
Qed.

(** X9. In every store reached from an empty device, each record of the
    object store sits under its own [surveyId], each [survey_] entry of
    [localStorage] under the key built from its [surveyId], and an
    initialised service has switched to the fallback or holds the
    database handle. *)
Theorem runs_keep_one_packet_per_surveyId :
  ∀ (calls : list Call),
    let w := run calls fresh in
    well_keyed w ∧ ls_keyed w ∧
    (isInitialized (svc w) = true → ready w).
Proof.
  intros calls.
  assert (Hall : ∀ w0 : World,
            well_keyed w0 ∧ ls_keyed w0 ∧
            (isInitialized (svc w0) = true →
             useLocalStorageFallback (svc w0) = true ∨ db (svc w0) = Some tt) →
            well_keyed (run calls w0) ∧ ls_keyed (run calls w0) ∧
            (isInitialized (svc (run calls w0)) = true →
             useLocalStorageFallback (svc (run calls w0)) = true ∨
             db (svc (run calls w0)) = Some tt)).
  { induction calls as [| c calls IH]; intros w0 Hw0; [exact Hw0 |].
    change (run (c :: calls) w0) with (run calls (step c w0)).
    destruct Hw0 as (Hdb & Hls & Hh). apply IH.
    split; [by apply step_well_keyed |].
    split; [by apply step_ls_keyed | by apply step_handle]. }
  cbv zeta. destruct (Hall fresh) as (Hdb & Hls & Hh).
  - split; [apply map_Forall_empty |]. split; [apply map_Forall_empty |].
    discriminate.
  - split; [done |]. split; [done |]. intros Hinit. split; [done | auto].
Qed.

(** X10. While the service is not initialised and opening the database
    throws, every method of the store rejects with the error of
    [initialize] and leaves the service and both media as they were. *)
Theorem store_calls_reject_while_open_throws :
  ∀ (io : HostIO) (now id : string) (packet : Packet) (w : World),
    isInitialized (svc w) = false →
    opening io = OpenThrows →
    saveSurveyPacket io now packet w
      = (w, Threw "Storage initialization failed") ∧
    markPacketAsSynced io now id w
      = (w, Threw "Storage initialization failed") ∧
    getSurveyPacketsForSync io w
      = (w, Threw "Storage initialization failed") ∧
    getStorageStats io now w
      = (w, Threw "Storage initialization failed") ∧
    clearAllData io w = (w, Threw "Storage initialization failed").
Proof.
  intros io now id packet w Hinit Hopen.
  unfold saveSurveyPacket, markPacketAsSynced, getSurveyPacketsForSync,
    getStorageStats, clearAllData, ensureInitialized, initialize.
  rewrite Hinit, Hopen. simpl. rewrite world_eta. by repeat split.
Qed.

End StoreMore.

(** ** More on the Verification Recorder *)

Section RecorderMore.
Context `{Host}.
Import VerificationService Calls RecorderView.

Lemma react_frame (e : Event) (s : Service) :
  currentSurvey (react e s) = currentSurvey s ∧
  isTracking (react e s) = isTracking s ∧
  locationWatcher (react e s) = locationWatcher s ∧
  startTime (verificationData (react e s)) = startTime (verificationData s).
Proof.
  destruct e as [[loc | msg] | q a [loc | msg] now]; simpl; try done;
    unfold logAnswer; by destruct (Js.truthy (currentSurvey s)).
Qed.

Lemma play_frame (events : list Event) :
  ∀ s : Service,
    currentSurvey (play events s) = currentSurvey s ∧
    isTracking (play events s) = isTracking s ∧
    locationWatcher (play events s) = locationWatcher s ∧
    startTime (verificationData (play events s))
      = startTime (verificationData s).
Proof.
  induction events as [| e events IH]; intros s; [done |].
  change (play (e :: events) s) with (play events (react e s)).
  destruct (IH (react e s)) as (-> & -> & -> & ->). apply react_frame.
Qed.

Lemma react_answers (e : Event) (s : Service) :
  answerTimestamps (verificationData (react e s)) =
    answerTimestamps (verificationData s) ++
      (if Js.truthy (currentSurvey s) then logged [e] else []).
Proof.
  destruct e as [[loc | msg] | q a [loc | msg] now]; simpl;
    try (destruct (Js.truthy (currentSurvey s)); by rewrite app_nil_r);
    unfold logAnswer; destruct (Js.truthy (currentSurvey s)); simpl;
    by rewrite ?app_nil_r.
Qed.

(** X11. The answer log only grows, by one entry per logged answer and in
    call order: after any interleaving of interval ticks and [logAnswer]
    calls on an active recorder it is the old log followed by the
    entries of the answers; on an idle recorder it is the old log.  The
    current survey, its start time and the tracking state are not
    touched. *)
Theorem play_appends_answers_in_order :
  ∀ (events : list Event) (s : Service),
    answerTimestamps (verificationData (play events s)) =
      answerTimestamps (verificationData s) ++
        (if Js.truthy (currentSurvey s) then logged events else []) ∧
    currentSurvey (play events s) = currentSurvey s ∧
    startTime (verificationData (play events s))
      = startTime (verificationData s) ∧
    isTracking (play events s) = isTracking s.
Proof.
  intros events s. split; [| by destruct (play_frame events s) as (? & ? & ? & ?)].
  revert s. induction events as [| e events IH]; intros s.
  - simpl. destruct (Js.truthy (currentSurvey s)); by rewrite app_nil_r.
  - change (play (e :: events) s) with (play events (react e s)).
    rewrite IH, react_answers.
    destruct (react_frame e s) as (-> & _).
    destruct (Js.truthy (currentSurvey s)); [| by rewrite !app_nil_r].
    rewrite <- app_assoc. f_equal.
    destruct e as [fix_ | q a fix_ now]; reflexivity.
Qed.

Lemma play_idle (events : list Event) :
  ∀ s : Service,
    Js.truthy (currentSurvey s) = false →
    answerTimestamps (verificationData (play events s))
    = answerTimestamps (verificationData s).
Proof.
  induction events as [| e events IH]; intros s Hidle; [done |].
  change (play (e :: events) s) with (play events (react e s)).
  destruct (react_frame e s) as (Hcur & _).
  rewrite IH by (by rewrite Hcur).
  rewrite react_answers, Hidle. apply app_nil_r.
Qed.

(** X12. A survey id that is falsy (0 or the empty string) never becomes
    active: [startSurvey] resolves and arms the sampler, but answers are
    not logged, [completeSurvey] throws, and so the sampler stays armed
    whatever is called next. *)
Theorem startSurvey_falsy_id_is_never_active :
  ∀ (id : Js.Value) (now : string) (dev : DeviceInfo) (loc : Location)
    (timer : nat) (s0 : Service) (events : list Event)
    (fix_ : Result Location) (endT doneT : string),
    Js.truthy id = false →
    let s := play events (startSurvey id now dev (Ok loc) timer s0).1 in
    is_ok (startSurvey id now dev (Ok loc) timer s0).2 = true ∧
    s_isActive (getVerificationStatus s) = false ∧
    s_isTracking (getVerificationStatus s) = true ∧
    answerTimestamps (verificationData s) = [] ∧
    completeSurvey fix_ endT doneT s
    = (s, Threw "No active survey to complete").
Proof.
  intros id now dev loc timer s0 events fix_ endT doneT Hfalsy s.
  set (s1 := (startSurvey id now dev (Ok loc) timer s0).1) in *.
  assert (Hcur : currentSurvey s1 = id).
  { subst s1. unfold startSurvey, startLocationTracking. simpl.
    by destruct (isTracking s0). }
  assert (Htrack : isTracking s1 = true).
  { subst s1. unfold startSurvey, startLocationTracking. simpl.
    by destruct (isTracking s0) eqn:Ht. }
  assert (Hlog : answerTimestamps (verificationData s1) = []).
  { subst s1. unfold startSurvey, startLocationTracking. simpl.
    by destruct (isTracking s0). }
  destruct (play_frame events s1) as (Hc & Ht & _ & _).
  pose proof (play_idle events s1) as Hans.
  rewrite Hcur in Hans. specialize (Hans Hfalsy).
  fold s in Hans, Hc, Ht.
  rewrite Hcur in Hc.
  split; [reflexivity |].
  unfold getVerificationStatus, completeSurvey. simpl.
  rewrite Hc, Hfalsy, Ht, Htrack, Hans, Hlog.
  by repeat split.
Qed.

Lemma stopLocationTracking_idem (s : Service) :
  stopLocationTracking (stopLocationTracking s) = stopLocationTracking s.
Proof.
  unfold stopLocationTracking.
  destruct (locationWatcher s) eqn:Hw; simpl; [done | by rewrite Hw].
Qed.

(** X13. A [completeSurvey] whose final location fix fails throws, keeps the
    survey active and the record untouched, and a second call behaves
    exactly as the first would have with a fix that resolves: same
    packet, same recorder afterwards. *)
Theorem completeSurvey_failed_fix_can_be_retried :
  ∀ (msg : string) (loc : Location) (endT0 doneT0 endT doneT : string)
    (s : Service),
    Js.truthy (currentSurvey s) = true →
    let failed := completeSurvey (Threw msg) endT0 doneT0 s in
    failed.2 = Threw "Verification completion failed" ∧
    currentSurvey failed.1 = currentSurvey s ∧
    verificationData failed.1 = verificationData s ∧
    completeSurvey (Ok loc) endT doneT failed.1
    = completeSurvey (Ok loc) endT doneT s.
Proof.
  intros msg loc endT0 doneT0 endT doneT s Hactive. cbv zeta.
  assert (Hfail : completeSurvey (Threw msg) endT0 doneT0 s
                  = (stopLocationTracking s,
                     Threw "Verification completion failed"))
    by (unfold completeSurvey; by rewrite Hactive).
  rewrite Hfail. simpl.
  assert (Hcur : currentSurvey (stopLocationTracking s) = currentSurvey s)
    by (unfold stopLocationTracking; by destruct (locationWatcher s)).
  assert (Hdata : verificationData (stopLocationTracking s)
                  = verificationData s)
    by (unfold stopLocationTracking; by destruct (locationWatcher s)).
  split; [done |]. split; [done |]. split; [done |].
  unfold completeSurvey. rewrite Hcur, Hactive. simpl.
  by rewrite stopLocationTracking_idem.
Qed.

Lemma completeSurvey_always_stops_sampler_aux (fix_ : Result Location)
    (endT doneT : string) (s : Service) :
  Js.truthy (currentSurvey s) = true →
  tracking_consistent s →
  isTracking (completeSurvey fix_ endT doneT s).1 = false ∧
  locationWatcher (completeSurvey fix_ endT doneT s).1 = None.
Proof.
  intros Hactive Hcons.
  unfold completeSurvey. rewrite Hactive. simpl.
  assert (Hstop : isTracking (stopLocationTracking s) = false ∧
                  locationWatcher (stopLocationTracking s) = None).
  { unfold stopLocationTracking, tracking_consistent in *.
    destruct (locationWatcher s) eqn:Hw; simpl; [done |].
    split; [| done]. destruct (isTracking s); [| done].
    by destruct Hcons. }
  by destruct fix_.
Qed.

(** X14. Whatever the final fix does, [completeSurvey] on an active recorder
    leaves the sampler stopped: no interval handle and the tracking flag
    down. *)
Theorem completeSurvey_always_stops_sampler :
  ∀ (fix_ : Result Location) (endT doneT : string) (s : Service),
    Js.truthy (currentSurvey s) = true →
    tracking_consistent s →
    let s' := (completeSurvey fix_ endT doneT s).1 in
    isTracking s' = false ∧ locationWatcher s' = None.
Proof.
  intros fix_ endT doneT s Hactive Hcons. cbv zeta.
  destruct (completeSurvey_always_stops_sampler_aux fix_ endT doneT s
              Hactive Hcons) as [Hflag Hhandle].
  split; [exact Hflag | exact Hhandle].
Qed.

(** X15. The packet of a completed survey carries the digest of its own
    seven hashed fields, so the hash can be checked from the packet
    alone; it holds the end time and end location of this call, the
    answer log, the location history and the start data of the record
    unchanged, the given completion time and version 1.0. *)
Theorem completeSurvey_packet_hash_matches_its_fields :
  ∀ (fix_ : Result Location) (endT doneT : string) (s s' : Service)
    (packet : VerificationPacket),
    completeSurvey fix_ endT doneT s = (s', Ok packet) →
    let d := data packet in
    verificationHash d = Some (digest d) ∧
    endTime d = Some endT ∧
    match fix_ with
    | Ok loc => endLocation d = Some loc
    | Threw _ => False
    end ∧
    answerTimestamps d = answerTimestamps (verificationData s) ∧
    locationHistory d = locationHistory (verificationData s) ∧
    surveyId d = surveyId (verificationData s) ∧
    startTime d = startTime (verificationData s) ∧
    startLocation d = startLocation (verificationData s) ∧
    deviceInfo d = deviceInfo (verificationData s) ∧
    completedAt packet = doneT ∧ version packet = "1.0".
Proof.
  intros fix_ endT doneT s s' packet Hdone. cbv zeta.
  unfold completeSurvey in Hdone.
  destruct (Js.truthy (currentSurvey s)); simpl in Hdone; [| discriminate].
  destruct fix_ as [loc | msg]; [| discriminate].
  injection Hdone as <- <-.
  unfold stopLocationTracking.
  destruct (locationWatcher s); simpl; by repeat split.
Qed.

(** X16. [duration] is the elapsed time in seconds rounded to the nearest
    integer, half a second going up: within 500 ms of the difference of
    the two dates.  It is absent when either date does not parse (a
    missing start time counts as the epoch). *)
Theorem completeSurvey_duration_is_rounded_seconds :
  ∀ (fix_ : Result Location) (endT doneT : string) (s s' : Service)
    (packet : VerificationPacket),
    completeSurvey fix_ endT doneT s = (s', Ok packet) →
    match Date_parse endT, date_ms (startTime (verificationData s)) with
    | Some e, Some b =>
        ∃ r : Z, duration (data packet) = Some r ∧
                 (1000 * r - 500 ≤ e - b < 1000 * r + 500)%Z
    | _, _ => duration (data packet) = None
    end.
Proof.
  intros fix_ endT doneT s s' packet Hdone.
  unfold completeSurvey in Hdone.
  destruct (Js.truthy (currentSurvey s)); simpl in Hdone; [| discriminate].
  destruct fix_ as [loc | msg]; [| discriminate].
  injection Hdone as <- <-. simpl.
  assert (Hdata : verificationData (stopLocationTracking s)
                  = verificationData s)
    by (unfold stopLocationTracking; by destruct (locationWatcher s)).
  rewrite Hdata.
  destruct (Date_parse endT) as [e |]; [| done].
  destruct (date_ms (startTime (verificationData s))) as [b |]; [| done].
  exists (round_div_1000 (e - b)). split; [done |].
  unfold round_div_1000.
  pose proof (Z.div_mod (e - b + 500) 1000 ltac:(lia)) as Hdm.
  pose proof (Z.mod_pos_bound (e - b + 500) 1000 ltac:(lia)) as Hmod.
  lia.
Qed.

(** X17. A [startSurvey] whose first location fix fails throws, but the
    session is open all the same: on a truthy id the recorder is active
    with an empty record that has no start location, the sampler is as
    it was, and a later [completeSurvey] resolves with a packet of that
    survey without a start location. *)
Theorem startSurvey_failed_fix_still_opens_session :
  ∀ (id : Js.Value) (now : string) (dev : DeviceInfo) (msg : string)
    (timer : nat) (s0 : Service) (loc : Location) (endT doneT : string),
    Js.truthy id = true →
    let s := (startSurvey id now dev (Threw msg) timer s0).1 in
    (startSurvey id now dev (Threw msg) timer s0).2
      = Threw "Verification initialization failed" ∧
    s_isActive (getVerificationStatus s) = true ∧
    s_answerCount (getVerificationStatus s) = 0 ∧
    s_locationCount (getVerificationStatus s) = 0 ∧
    isTracking s = isTracking s0 ∧
    ∃ packet : VerificationPacket,
      (completeSurvey (Ok loc) endT doneT s).2 = Ok packet ∧
      surveyId (data packet) = id ∧
      startTime (data packet) = Some now ∧
      startLocation (data packet) = None.
Proof.
  intros id now dev msg timer s0 loc endT doneT Hid. cbv zeta.
  unfold startSurvey, getVerificationStatus, completeSurvey. simpl.
  rewrite Hid. simpl. repeat split; try done.
  eexists. split; [reflexivity |].
  unfold stopLocationTracking; simpl.
  by destruct (locationWatcher s0).
Qed.

Lemma to_int32_range (z : Z) : (- 2 ^ 31 ≤ Js.to_int32 z < 2 ^ 31)%Z.
Proof.
  unfold Js.to_int32.
  pose proof (Z.mod_pos_bound (z + 2 ^ 31) (2 ^ 32) ltac:(lia)). lia.
Qed.

Lemma to_int32_small (z : Z) :
  (- 2 ^ 31 ≤ z < 2 ^ 31)%Z → Js.to_int32 z = z.
Proof.
  intros Hz. unfold Js.to_int32. rewrite Z.mod_small; lia.
Qed.

Lemma to_int32_add_l (a b : Z) :
  Js.to_int32 (Js.to_int32 a + b) = Js.to_int32 (a + b).
Proof.
  unfold Js.to_int32. f_equal.
  replace ((a + 2 ^ 31) mod 2 ^ 32 - 2 ^ 31 + b + 2 ^ 31)%Z
    with ((a + 2 ^ 31) mod 2 ^ 32 + b)%Z by lia.
  rewrite Zplus_mod_idemp_l. f_equal. lia.
Qed.

Lemma hash_step_31 (h : Z) (c : ascii) :
  (- 2 ^ 31 ≤ h < 2 ^ 31)%Z →
  hash_step h c = Js.to_int32 (31 * h + Z.of_nat (nat_of_ascii c)).
Proof.
  intros Hh. unfold hash_step, Js.band, Js.shl.
  rewrite Z.land_diag, (to_int32_small (Js.to_int32 _)) by apply to_int32_range.
  rewrite (to_int32_small h) by done.
  rewrite Z.shiftl_mul_pow2 by lia.
  replace (Js.to_int32 (h * 2 ^ 5) - h + Z.of_nat (nat_of_ascii c))%Z
    with (Js.to_int32 (h * 2 ^ 5) + (- h + Z.of_nat (nat_of_ascii c)))%Z
    by lia.
  rewrite to_int32_add_l. f_equal. lia.
Qed.

Lemma fold_left_step {A B} (f : A → B → A) (x : B) (l : list B) (a : A) :
  fold_left f (x :: l) a = fold_left f l (f a x).
Proof. reflexivity. Qed.

Lemma fold_hash_range (l : list ascii) :
  ∀ h : Z, (- 2 ^ 31 ≤ h < 2 ^ 31)%Z →
           (- 2 ^ 31 ≤ fold_left hash_step l h < 2 ^ 31)%Z.
Proof.
  induction l as [| c l IH]; intros h Hh; [exact Hh |].
  rewrite fold_left_step.
  apply IH. rewrite hash_step_31 by done. apply to_int32_range.
Qed.

Lemma list_ascii_of_string_snoc (s : string) (c : ascii) :
  list_ascii_of_string (String.append s (String c EmptyString))
  = list_ascii_of_string s ++ [c].
Proof. induction s as [| a s IH]; simpl; [done | by rewrite IH]. Qed.

(** X18. The digest loop is the 32-bit hash with multiplier 31: the hash of
    the empty string is 0, each further character takes [h] to
    [31 * h + code] wrapped to a signed 32-bit integer, and the hash
    never leaves the signed 32-bit range. *)
Theorem hash_string_is_multiplier_31_hash :
  ∀ (s : string) (c : ascii),
    hash_string "" = 0%Z ∧
    (- 2 ^ 31 ≤ hash_string s < 2 ^ 31)%Z ∧
    hash_string (String.append s (String c EmptyString))
    = Js.to_int32 (31 * hash_string s + Z.of_nat (nat_of_ascii c)).
Proof.
  intros s c. split; [reflexivity |].
  assert (Hrange : (- 2 ^ 31 ≤ hash_string s < 2 ^ 31)%Z)
    by (apply fold_hash_range; lia).
  split; [exact Hrange |].
  unfold hash_string in *.
  rewrite list_ascii_of_string_snoc, fold_left_app. simpl.
  by apply hash_step_31.
Qed.

Lemma hex_digit_ok (d : Z) :
  (0 ≤ d < 16)%Z → is_hex_digit (Js.hex_digit d) = true.
Proof.
  intros Hd.
  assert (Hcases : Forall (fun d => is_hex_digit (Js.hex_digit d) = true)
                     (seqZ 0 16))
    by (vm_compute; repeat constructor).
  rewrite Forall_forall in Hcases. apply Hcases.
  apply elem_of_seqZ. lia.
Qed.

Lemma hex_pos_shape (fuel : nat) :
  ∀ (n : nat) (z : Z) (acc : string),
    (n ≤ fuel)%nat → (1 ≤ n)%nat → (0 ≤ z < 16 ^ Z.of_nat n)%Z →
    forallb is_hex_digit (list_ascii_of_string acc) = true →
    let out := Js.hex_pos fuel z acc in
    (String.length acc < String.length out ≤ n + String.length acc)%nat ∧
    forallb is_hex_digit (list_ascii_of_string out) = true.
Proof.
  induction fuel as [| fuel IH]; intros n z acc Hn H1 Hz Hacc; [lia |].
  cbv zeta. simpl.
  assert (Hd : is_hex_digit (Js.hex_digit (z mod 16)) = true)
    by (apply hex_digit_ok, Z.mod_pos_bound; lia).
  destruct (z / 16 =? 0)%Z eqn:Hq.
  - simpl. rewrite Hd, Hacc. split; [lia | done].
  - apply Z.eqb_neq in Hq.
    assert (Hbig : (16 ≤ z)%Z).
    { destruct (Z_lt_ge_dec z 16) as [Hlt | Hge]; [| lia].
      rewrite Z.div_small in Hq by lia. done. }
    destruct n as [| [| n]]; [lia | simpl in Hz; lia |].
    destruct (IH (S n) (z / 16)%Z
                (String (Js.hex_digit (z mod 16)) acc)) as [Hlen Hall].
    + lia.
    + lia.
    + split; [apply Z.div_pos; lia |].
      apply Z.div_lt_upper_bound; [lia |].
      replace (Z.of_nat (S (S n))) with (Z.succ (Z.of_nat (S n))) in Hz
        by lia.
      rewrite Z.pow_succ_r in Hz by lia. lia.
    + simpl. by rewrite Hd, Hacc.
    + simpl in Hlen. split; [lia | exact Hall].
Qed.

(** X19. The verification hash is a string of one to eight characters, each
    a digit or a lowercase letter from a to f. *)
Theorem verificationHash_is_short_hex :
  ∀ s : Service,
    let h := generateVerificationHash s in
    (1 ≤ String.length h ≤ 8)%nat ∧
    forallb is_hex_digit (list_ascii_of_string h) = true.
Proof.
  intros s. cbv zeta. unfold generateVerificationHash, Js.to_hex.
  set (data := JSON_stringify _).
  pose proof (fold_hash_range (list_ascii_of_string data) 0%Z ltac:(lia))
    as Hrange.
  fold (hash_string data) in Hrange.
  assert (Habs : (0 ≤ Z.abs (hash_string data) < 16 ^ Z.of_nat 8)%Z)
    by (change (16 ^ Z.of_nat 8)%Z with (2 ^ 32)%Z; lia).
  destruct (hex_pos_shape 16 8 (Z.abs (hash_string data)) ""
              ltac:(lia) ltac:(lia) Habs eq_refl) as [Hlen Hall].
  change (String.length "") with 0%nat in Hlen.
  split; [lia | exact Hall].
Qed.

End RecorderMore.

(** ** Double precision arithmetic *)

Section DoubleFacts.
Import Double.
Local Open Scope Q_scope.




Lemma pow2_lt (a b : Z) : (a < b)%Z → pow2 a < pow2 b.
Proof.
  intros Hab. unfold pow2. apply Qpower_lt_compat_l; [done | reflexivity].
Qed.
























End DoubleFacts.

Section PercentFacts.
Import Double SyncView.
Local Open Scope Q_scope.







(** The two roundings show: one of three packets gives the number
    that prints as 33.33333333333333, where [100 / 3] rounded once is
    the one that prints as 33.333333333333336; seven of a hundred give
    7.000000000000001; and the last packet gives 100. *)
Example percent_of_some_runs :
  percent 1 3 = 2345624805922133 # 70368744177664 ∧
  round (100 # 3) = 4691249611844267 # 140737488355328 ∧
  percent 2 3 = 2345624805922133 # 35184372088832 ∧
  percent 7 100 = 7881299347898369 # 1125899906842624 ∧
  percent 3 3 = 100 # 1.
Proof. vm_compute. repeat split; reflexivity. Qed.

End PercentFacts.


(** ** More on the Sync Coordinator *)

Section SyncMore.
Context `{Host}.
Import StorageService SyncService Calls StoreView SyncView.

Lemma sync_loop_store (env : RunEnv) (n : nat) (packets : list Packet) :
  ∀ (i : nat) (l : Loop),
    store (l_sys (sync_loop env n i packets l))
    = run (marks_from env i packets) (store (l_sys l)).
Proof.
  induction packets as [| packet rest IH]; intros i l; [reflexivity |].
  simpl. rewrite IH. unfold sync_one.
  destruct (upload (per_packet env i)); simpl; [| reflexivity].
  by destruct (markPacketAsSynced _ _ _ _) as [w [[] | e]].
Qed.

Lemma syncAll_store_effect_aux (env : RunEnv) (st : System) :
  store (syncAllPendingData env st).1 =
    if isOnline (sync st) && negb (isSyncing (sync st))
    then run (ListPending (list_io env)
              :: marks_from env 0 (pending_of env (store st)))
           (store st)
    else store st.
Proof.
  unfold syncAllPendingData, enter.
  destruct (isOnline (sync st)); simpl; [| reflexivity].
  destruct (isSyncing (sync st)); simpl; [reflexivity |].
  unfold attempt, pending_of. simpl.
  destruct (getSurveyPacketsForSync (list_io env) (store st))
    as [w [[| p ps] | e]]; simpl; try reflexivity.
  change (sync_loop env (S (length ps)) 1 ps
            (sync_one env (S (length ps)) 0 p ?l))
    with (sync_loop env (S (length ps)) 0 (p :: ps) l).
  by rewrite sync_loop_store.
Qed.

(** X20. What a sync run does to the store: nothing when a guard rejects the
    call; otherwise the read of the pending packets followed by one
    [markPacketAsSynced] per packet whose upload resolved, in the order
    the packets were read, and nothing else. *)
Theorem syncAll_store_effect_is_the_marks :
  ∀ (env : RunEnv) (st : System),
    store (syncAllPendingData env st).1 =
      if isOnline (sync st) && negb (isSyncing (sync st))
      then run (ListPending (list_io env)
                :: marks_from env 0 (pending_of env (store st)))
             (store st)
      else store st.
Proof.
  intros env st. rewrite syncAll_store_effect_aux.
  destruct (isOnline (sync st) && negb (isSyncing (sync st))); reflexivity.
Qed.

Lemma sync_loop_initialised (env : RunEnv) (n : nat)
    (packets : list Packet) :
  ∀ (i : nat) (l : Loop),
    isInitialized (svc (store (l_sys l))) = true →
    isInitialized (svc (store (l_sys (sync_loop env n i packets l))))
    = true.
Proof.
  intros i l Hinit. rewrite sync_loop_store.
  by rewrite run_svc.
Qed.

Lemma markPacketAsSynced_resolves (io : HostIO) (now id : string)
    (w : World) :
  isInitialized (svc w) = true →
  (markPacketAsSynced io now id w).2 = Ok tt.
Proof.
  intros Hinit. unfold markPacketAsSynced.
  by rewrite ensureInitialized_ready.
Qed.

Lemma sync_loop_results (env : RunEnv) (n : nat) (packets : list Packet) :
  ∀ (i : nat) (l : Loop),
    isInitialized (svc (store (l_sys l))) = true →
    let l' := sync_loop env n i packets l in
    map r_surveyId (l_results l')
      = map r_surveyId (l_results l) ++ map surveyId packets ∧
    map r_success (l_results l')
      = map r_success (l_results l) ++ upload_outcomes env i packets ∧
    syncedCount l'
      = syncedCount l
        + length (List.filter (fun b => b) (upload_outcomes env i packets)).
Proof.
  induction packets as [| packet rest IH]; intros i l Hinit; cbv zeta.
  - simpl. rewrite !app_nil_r. repeat split; lia.
  - simpl sync_loop.
    assert (Hone : isInitialized
                     (svc (store (l_sys (sync_one env n i packet l)))) = true).
    { change (sync_one env n i packet l)
        with (sync_loop env n i [packet] l).
      by apply sync_loop_initialised. }
    destruct (IH (S i) (sync_one env n i packet l) Hone) as (-> & -> & ->).
    unfold sync_one. simpl.
    destruct (upload (per_packet env i)) as [[] | msg]; simpl.
    + pose proof (markPacketAsSynced_resolves (mark_io (per_packet env i))
        (mark_now (per_packet env i)) (surveyId packet)
        (store (l_sys l)) Hinit) as Hok.
      destruct (markPacketAsSynced _ _ _ _) as [w [[] | e]];
        [| discriminate Hok].
      simpl. rewrite !map_app, <- !app_assoc. simpl. repeat split; lia.
    + rewrite !map_app, <- !app_assoc. simpl. repeat split; lia.
Qed.

(** X21. A run that finds pending packets on an initialised store reports
    them one by one in the order the store returned them: the result
    list has the survey ids of the pending packets in that order, a
    packet is reported as failed exactly when its upload failed, and
    [synced] counts the successful entries. *)
Theorem syncAll_reports_each_packet_in_order :
  ∀ (env : RunEnv) (st st' : System) (r : SyncResult),
    isInitialized (svc (store st)) = true →
    pending_of env (store st) ≠ [] →
    syncAllPendingData env st = (st', Ok r) →
    ∃ rs : list PacketResult,
      results r = Some rs ∧
      total r = Some (length (pending_of env (store st))) ∧
      map r_surveyId rs = map surveyId (pending_of env (store st)) ∧
      map r_success rs = upload_outcomes env 0 (pending_of env (store st)) ∧
      synced r = length (List.filter r_success rs).
Proof.
  intros env st st' r Hinit Hsome. unfold syncAllPendingData.
  destruct (enter (sync st)) as [s | e]; [| discriminate].
  unfold attempt, pending_of in *. simpl.
  pose proof (step_svc (ListPending (list_io env)) (store st) Hinit) as Hsvc.
  simpl in Hsvc.
  destruct (getSurveyPacketsForSync (list_io env) (store st))
    as [w [[| p ps] | e]]; simpl in *; try done.
  cbv zeta. intros Heq. injection Heq as _ <-. simpl.
  eexists. split; [reflexivity |]. split; [reflexivity |].
  set (l0 := {| l_sys := set_store w {| sync := s; store := store st |};
                syncedCount := 0; failedCount := 0; l_results := [] |}).
  change (sync_loop env (S (length ps)) 1 ps
            (sync_one env (S (length ps)) 0 p l0))
    with (sync_loop env (S (length ps)) 0 (p :: ps) l0).
  destruct (sync_loop_results env (S (length ps)) (p :: ps) 0 l0)
    as (Hids & Hoks & Hcount).
  { simpl. by rewrite Hsvc. }
  split; [exact Hids |]. split; [exact Hoks |].
  rewrite Hcount. simpl syncedCount.
  match type of Hoks with
  | ?lhs = _ =>
      assert (Hoks' : lhs = upload_outcomes env 0 (p :: ps)) by exact Hoks
  end.
  rewrite <- Hoks'. clear.
  induction (l_results _) as [| x xs IH]; simpl; [done |].
  destruct (r_success x); simpl; lia.
Qed.

Lemma stored_key (w : World) (id : string) (p : Packet) :
  well_keyed w → ls_keyed w → stored w id = Some p → surveyId p = id.
Proof.
  intros Hdb Hls. unfold stored.
  destruct (useLocalStorageFallback (svc w)).
  - intros Hp. apply getItem_Some in Hp as (t & Ht & ->).
    pose proof (Hls _ _ Ht (key_of_is_survey_key id)) as Hk.
    by apply key_of_inj in Hk.
  - intros Hp. by apply (Hdb id).
Qed.

Lemma mark_step_other (io : HostIO) (now id id' : string) (w : World) :
  isInitialized (svc w) = true → well_keyed w → id' ≠ id →
  stored (step (MarkSynced io now id) w) id' = stored w id'.
Proof.
  intros Hinit Hkeyed Hne. simpl. unfold markPacketAsSynced.
  rewrite ensureInitialized_ready by done.
  unfold stored, setItem, putData, getData. simpl.
  destruct (useLocalStorageFallback (svc w)).
  - destruct (getItem (key_of id) (media w)); [| done].
    destruct (write_ok io); simpl; [| done].
    rewrite getItem_insert, decide_False; [done |].
    intros Heq. by apply key_of_inj in Heq.
  - destruct (db (svc w)); [| done].
    destruct (read_ok io); [| done].
    destruct (surveyPackets (media w) !! id) as [p |] eqn:Hp; [| done].
    destruct (write_ok io); simpl; [| done].
    rewrite (Hkeyed id p Hp). by rewrite lookup_insert_ne.
Qed.

Lemma mark_step_synced (io : HostIO) (now id : string) (w : World) :
  ready w → well_keyed w →
  read_ok io = true → write_ok io = true →
  is_Some (stored w id) →
  status_at (step (MarkSynced io now id) w) id = Some (Js.Str "synced").
Proof.
  intros [Hinit Hmedium] Hkeyed Hr Hw [p Hp]. simpl.
  unfold markPacketAsSynced. rewrite ensureInitialized_ready by done.
  unfold status_at, stored, setItem, putData, getData in *. simpl.
  rewrite Hr, Hw.
  destruct (useLocalStorageFallback (svc w)).
  - rewrite Hp. simpl. by rewrite getItem_insert, decide_True.
  - destruct Hmedium as [Hfalse | ->]; [discriminate |].
    rewrite Hp. simpl. rewrite (Hkeyed id p Hp). by rewrite lookup_insert_eq.
Qed.

Lemma mark_step_ready (io : HostIO) (now id : string) (w : World) :
  ready w → ready (step (MarkSynced io now id) w).
Proof.
  intros [Hinit Hmedium]. unfold ready.
  by rewrite (step_svc (MarkSynced io now id) w Hinit).
Qed.

(** Marking every packet of a list, with the medium accepting every read
    and write. *)
Lemma marks_drain (env : RunEnv) (packets : list Packet) :
  all_accepted env →
  ∀ (i : nat) (w : World),
    ready w → well_keyed w →
    let w' := run (marks_from env i packets) w in
    (∀ id : string,
       id ∉ map surveyId packets → stored w' id = stored w id) ∧
    (∀ id : string,
       id ∈ map surveyId packets → is_Some (stored w id) →
       status_at w' id = Some (Js.Str "synced")).
Proof.
  intros [_ Hall]. induction packets as [| p rest IH]; intros i w Hready Hkeyed.
  - simpl. split; [done |]. intros id Hid. by apply elem_of_nil in Hid.
  - cbv zeta. simpl marks_from.
    destruct (Hall i) as (Hup & Hr & Hw). rewrite Hup.
    set (c := MarkSynced (mark_io (per_packet env i))
                (mark_now (per_packet env i)) (surveyId p)).
    change (run (c :: marks_from env (S i) rest) w)
      with (run (marks_from env (S i) rest) (step c w)).
    destruct (IH (S i) (step c w)) as [Hother Hmarked].
    { by apply mark_step_ready. }
    { by apply step_well_keyed. }
    destruct Hready as [Hinit Hmedium].
    split.
    + intros id Hid. simpl in Hid. apply not_elem_of_cons in Hid as [Hne Hid].
      rewrite Hother by done. by apply mark_step_other.
    + intros id Hid Hsome.
      destruct (decide (id ∈ map surveyId rest)) as [Hin | Hnotin].
      * apply Hmarked; [done |].
        destruct (decide (id = surveyId p)) as [-> | Hne].
        -- pose proof (mark_step_synced _ (mark_now (per_packet env i)) _ w
             (conj Hinit Hmedium) Hkeyed Hr Hw Hsome) as Hs.
           unfold status_at in Hs. fold c in Hs.
           by destruct (stored (step c w) (surveyId p)).
        -- unfold c. by rewrite mark_step_other.
      * simpl in Hid. apply elem_of_cons in Hid as [-> | Hin]; [| done].
        unfold status_at. rewrite Hother by done.
        by apply mark_step_synced.
Qed.

Lemma list_pending_ready (io : HostIO) (w : World) :
  isInitialized (svc w) = true → step (ListPending io) w = w.
Proof.
  intros Hinit. simpl. unfold getSurveyPacketsForSync.
  rewrite ensureInitialized_ready by done. rewrite world_eta.
  by repeat case_match.
Qed.

Lemma pending_of_ready (env : RunEnv) (w : World) :
  ready w →
  pending_of env w =
    if useLocalStorageFallback (svc w) || read_ok (list_io env)
    then List.filter is_pending (visible w) else [].
Proof.
  intros [Hinit Hmedium]. unfold pending_of, getSurveyPacketsForSync.
  rewrite ensureInitialized_ready by done. unfold visible, getAllData.
  destruct (useLocalStorageFallback (svc w)); simpl; [done |].
  destruct Hmedium as [Hfalse | ->]; [discriminate |].
  by destruct (read_ok (list_io env)).
Qed.

(** X22. A run in which every upload resolves and the medium accepts every
    read and write drains the queue: afterwards no stored packet is
    pending, a further run is given no packet, and [getSyncStatus]
    reports no pending packet and no sync in progress. *)
Theorem syncAll_all_uploads_ok_drains_queue :
  ∀ (env env' : RunEnv) (io : HostIO) (now : string) (st : System),
    isOnline (sync st) = true → isSyncing (sync st) = false →
    ready (store st) → well_keyed (store st) → ls_keyed (store st) →
    all_accepted env →
    let after := (syncAllPendingData env st).1 in
    (∀ (id : string) (p : Packet),
       stored (store after) id = Some p → is_pending p = false) ∧
    pending_of env' (store after) = [] ∧
    match (getSyncStatus io now after).2 with
    | Ok status => st_pendingSync status = 0 ∧ st_isSyncing status = false
    | Threw _ => False
    end.
Proof.
  intros env env' io now st Hon Hidle Hready Hdb Hls Hacc after.
  pose proof Hready as [Hinit Hmedium].
  assert (Hstore : store after
                   = run (marks_from env 0 (pending_of env (store st)))
                       (store st)).
  { subst after. rewrite syncAll_store_effect_aux, Hon, Hidle.
    cbn [andb negb].
    change (run (?c :: ?cs) ?w) with (run cs (step c w)).
    by rewrite (list_pending_ready _ _ Hinit). }
  assert (Hsvc : svc (store after) = svc (store st))
    by (rewrite Hstore; by apply run_svc).
  assert (Hkeep : well_keyed (store after) ∧ ls_keyed (store after)).
  { rewrite Hstore. clear Hstore Hsvc.
    generalize (marks_from env 0 (pending_of env (store st))).
    intros calls. revert Hdb Hls. generalize (store st).
    induction calls as [| c calls IH]; intros w Hdb Hls; [done |].
    change (run (c :: calls) w) with (run calls (step c w)).
    apply IH; [by apply step_well_keyed | by apply step_ls_keyed]. }
  destruct Hkeep as [Hdb' Hls'].
  destruct (marks_drain env (pending_of env (store st)) Hacc 0 (store st)
              Hready Hdb) as [Hother Hmarked].
  rewrite <- Hstore in Hother, Hmarked.
  assert (Hnone : ∀ (id : string) (p : Packet),
            stored (store after) id = Some p → is_pending p = false).
  { intros id p Hp.
    destruct (decide (id ∈ map surveyId (pending_of env (store st))))
      as [Hin | Hnotin].
    - assert (Hsome : is_Some (stored (store st) id)).
      { apply list_elem_of_fmap in Hin as [q [-> Hq]].
        rewrite (pending_of_ready env _ Hready) in Hq.
        destruct (_ || _); [| by apply elem_of_nil in Hq].
        apply elem_of_filter_bool in Hq as [Hq _].
        exists q. by apply visible_stored. }
      specialize (Hmarked id Hin Hsome). unfold status_at in Hmarked.
      rewrite Hp in Hmarked. injection Hmarked as Hs.
      unfold is_pending. by rewrite Hs.
    - rewrite (Hother id Hnotin) in Hp.
      destruct (is_pending p) eqn:Hpend; [| done].
      exfalso. apply Hnotin.
      apply list_elem_of_fmap. exists p. split.
      + symmetry. by apply (stored_key (store st)).
      + rewrite (pending_of_ready env _ Hready).
        destruct Hacc as [Hread _]. rewrite Hread, orb_true_r.
        apply elem_of_filter_bool. split; [| done].
        by apply (stored_visible _ id). }
  assert (Hvisible : List.filter is_pending (visible (store after)) = []).
  { apply filter_bool_nil. intros p Hp.
    apply (Hnone (surveyId p)). by apply visible_stored. }
  assert (Hready' : ready (store after)) by (unfold ready; by rewrite Hsvc).
  split; [exact Hnone |]. split.
  - rewrite (pending_of_ready env' _ Hready'), Hvisible. by destruct (_ || _).
  - unfold getSyncStatus, getStorageStats.
    rewrite ensureInitialized_ready by (by rewrite Hsvc).
    pose proof Hvisible as Hv. unfold visible in Hv.
    assert (Hflag : isSyncing (sync after) = false).
    { subst after. unfold syncAllPendingData, enter.
      rewrite Hon, Hidle. simpl. by destruct (attempt env _). }
    destruct (useLocalStorageFallback (svc (store after))); simpl.
    + by rewrite Hv.
    + unfold getAllData. destruct (db (svc (store after))); simpl; [| done].
      destruct (read_ok io); simpl; [| done]. by rewrite Hv.
Qed.




Lemma NoDup_fmap_filter_bool {A B} (f : A → B) (g : A → bool)
    (l : list A) :
  NoDup (f <$> l) → NoDup (f <$> List.filter g l).
Proof.
  induction l as [| x l IH]; intros Hl; [done |].
  simpl in *. apply NoDup_cons in Hl as [Hx Hl].
  destruct (g x); simpl; [| by apply IH].
  apply NoDup_cons. split; [| by apply IH].
  intros Hin. apply Hx.
  apply list_elem_of_fmap in Hin as [y [-> Hy]].
  apply elem_of_filter_bool in Hy as [Hy _].
  apply list_elem_of_fmap. by exists y.
Qed.

Lemma visible_ids_NoDup (w : World) :
  well_keyed w → ls_keyed w → NoDup (surveyId <$> visible w).
Proof.
  intros Hdb Hls. unfold visible.
  destruct (useLocalStorageFallback (svc w)).
  - unfold local_packets. apply (NoDup_fmap_1 key_of).
    rewrite <- !list_fmap_compose.
    match goal with
    | |- NoDup (?f <$> ?l) => assert (Heq : f <$> l = fst <$> l)
    end.
    { apply Forall_fmap_ext, Forall_forall. intros [k t] Hkt.
      apply elem_of_filter_bool in Hkt as [Hkt Hkey].
      apply elem_of_in_key_order in Hkt. simpl in *.
      symmetry. by apply (Hls k t). }
    rewrite Heq. apply NoDup_fmap_filter_bool, NoDup_fst_in_key_order.
  - rewrite <- list_fmap_compose.
    match goal with
    | |- NoDup (?f <$> ?l) => assert (Heq : f <$> l = fst <$> l)
    end.
    { apply Forall_fmap_ext, Forall_forall. intros [k p] Hkp.
      apply elem_of_in_key_order in Hkp. simpl. by apply (Hdb k p). }
    rewrite Heq. apply NoDup_fst_in_key_order.
Qed.

Lemma marks_skip (env : RunEnv) (id : string) (packets : list Packet) :
  ∀ (i : nat) (w : World),
    isInitialized (svc w) = true → well_keyed w →
    (∀ (j : nat) (q : Packet),
       packets !! j = Some q → surveyId q = id →
       is_ok (upload (per_packet env (i + j))) = false) →
    stored (run (marks_from env i packets) w) id = stored w id.
Proof.
  induction packets as [| p rest IH]; intros i w Hinit Hkeyed Hfail;
    [done |].
  simpl marks_from.
  assert (Hrest : ∀ (j : nat) (q : Packet),
            rest !! j = Some q → surveyId q = id →
            is_ok (upload (per_packet env (S i + j))) = false).
  { intros j q Hq Hid. replace (S i + j)%nat with (i + S j)%nat by lia.
    by apply (Hfail (S j) q). }
  destruct (upload (per_packet env i)) as [[] | msg] eqn:Hup.
  - set (c := MarkSynced (mark_io (per_packet env i))
                (mark_now (per_packet env i)) (surveyId p)).
    change (run (c :: marks_from env (S i) rest) w)
      with (run (marks_from env (S i) rest) (step c w)).
    rewrite IH; [| by rewrite step_svc | by apply step_well_keyed | done].
    apply mark_step_other; [done | done |].
    intros ->. specialize (Hfail 0%nat p eq_refl eq_refl).
    rewrite Nat.add_0_r, Hup in Hfail. discriminate.
  - by apply IH.
Qed.

(** X24. A packet whose upload fails is left in the store exactly as it was,
    still pending, whatever happens to the other packets of the run. *)
Theorem syncAll_failed_upload_leaves_packet_pending :
  ∀ (env : RunEnv) (st : System) (j : nat) (p : Packet),
    isOnline (sync st) = true → isSyncing (sync st) = false →
    ready (store st) → well_keyed (store st) → ls_keyed (store st) →
    pending_of env (store st) !! j = Some p →
    is_ok (upload (per_packet env j)) = false →
    stored (store (syncAllPendingData env st).1) (surveyId p) = Some p ∧
    is_pending p = true.
Proof.
  intros env st j p Hon Hidle Hready Hdb Hls Hj Hup.
  pose proof Hready as [Hinit _].
  assert (Hin : p ∈ List.filter is_pending (visible (store st))).
  { apply list_elem_of_lookup_2 in Hj.
    rewrite (pending_of_ready env _ Hready) in Hj.
    destruct (_ || _); [done | by apply elem_of_nil in Hj]. }
  apply elem_of_filter_bool in Hin as [Hvis Hpend].
  split; [| exact Hpend].
  rewrite syncAll_store_effect_aux, Hon, Hidle. cbn [andb negb].
  change (run (?c :: ?cs) ?w) with (run cs (step c w)).
  rewrite (list_pending_ready _ _ Hinit).
  rewrite marks_skip; [by apply visible_stored | done | done |].
  intros j' q Hq Hid. simpl.
  assert (Hnodup : NoDup (surveyId <$> pending_of env (store st))).
  { rewrite (pending_of_ready env _ Hready).
    destruct (_ || _); [| constructor].
    by apply NoDup_fmap_filter_bool, visible_ids_NoDup. }
  assert (j' = j) as ->; [| done].
  apply (NoDup_lookup _ j' j (surveyId p) Hnodup).
  - by rewrite list_lookup_fmap, Hq, <- Hid.
  - by rewrite list_lookup_fmap, Hj.
Qed.

End SyncMore.

(** ** The screens *)

Section SurveyScreenFacts.
Context `{Host}.
Import SurveyScreen.
Variable qs : list Question.

Lemma click_on_track (c : Click)
    (p : State * VerificationService.Service) :
  NoDup (id <$> qs) → on_track qs p.1 → on_track qs (click qs c p).1.
Proof.
  intros Hids [Hidx Hbefore]. destruct p as [st rec].
  unfold on_track. simpl in *.
  destruct c as [value fix_ now | |]; simpl.
  - unfold handleAnswerChange, currentQuestion.
    destruct (qs !! currentQuestionIndex st) as [q |] eqn:Hq; [| done].
    simpl. split; [done |]. intros i q' Hi Hq' Hreq. simpl in *.
    rewrite lookup_insert_ne; [by apply (Hbefore i) |].
    intros Heq.
    assert (currentQuestionIndex st = i); [| lia].
    apply (NoDup_lookup _ _ _ (id q) Hids).
    + by rewrite list_lookup_fmap, Hq.
    + by rewrite list_lookup_fmap, Hq', Heq.
  - destruct (negb (shows_complete qs st) && proceed_enabled qs st)
      eqn:Hgo; [| done].
    apply andb_prop in Hgo as [Hnotlast Hcan].
    apply negb_true_iff, bool_decide_eq_false in Hnotlast.
    unfold handleNext. simpl. case_decide; [| done]. simpl.
    split; [lia |]. intros i q Hi Hq Hreq. simpl in *.
    destruct (decide (i = currentQuestionIndex st)) as [-> | Hne];
      [| apply (Hbefore i); [lia | done | done]].
    unfold proceed_enabled, canProceed, currentQuestion in Hcan.
    rewrite Hq, Hreq in Hcan. exact Hcan.
  - case_bool_decide; [done |]. unfold handlePrevious. simpl.
    case_decide; [| done]. simpl. split; [lia |].
    intros i q Hi. apply Hbefore. lia.
Qed.

(** X25. Whatever the user clicks, the index stays on a question of the
    list and every required question before the current one keeps a
    non-empty answer; so when the complete button is showing and
    enabled, every required question of the survey has an answer. *)
Theorem clicks_reach_complete_only_with_required_answers :
  ∀ (cs : list Click) (rec : VerificationService.Service),
    qs ≠ [] → NoDup (id <$> qs) →
    let st := (clicks qs cs (initial, rec)).1 in
    currentQuestionIndex st < length qs ∧
    (∀ (i : nat) (q : Question),
       i < currentQuestionIndex st → qs !! i = Some q →
       required q = true → answered (answers st !! id q) = true) ∧
    (shows_complete qs st = true → proceed_enabled qs st = true →
     ∀ q : Question,
       q ∈ qs → required q = true → answered (answers st !! id q) = true).
Proof.
  intros cs rec Hne Hids.
  assert (Hall : ∀ p : State * VerificationService.Service,
            on_track qs p.1 → on_track qs (clicks qs cs p).1).
  { induction cs as [| c cs IH]; intros p Hp; [done |].
    change (clicks qs (c :: cs) p) with (clicks qs cs (click qs c p)).
    by apply IH, click_on_track. }
  destruct (Hall (initial, rec)) as [Hidx Hbefore].
  { split; simpl; [destruct qs; [done | simpl; lia] | intros; lia]. }
  cbv zeta. split; [exact Hidx |]. split; [exact Hbefore |].
  intros Hlast Hcan q Hq Hreq.
  apply bool_decide_eq_true in Hlast.
  apply list_elem_of_lookup in Hq as [i Hi].
  pose proof (lookup_lt_Some _ _ _ Hi) as Hlt.
  destruct (decide (i = currentQuestionIndex (clicks qs cs (initial, rec)).1))
    as [-> | Hother].
  - unfold proceed_enabled, canProceed, currentQuestion in Hcan.
    rewrite Hi, Hreq in Hcan. exact Hcan.
  - apply (Hbefore i); [lia | done | done].
Qed.

End SurveyScreenFacts.

Section PageFacts.
Context `{Host}.
Import StorageService Page RecorderView.
Variable packet_body :
  gmap Z Js.Value → string →
  VerificationService.VerificationPacket → Js.Value.

Lemma save_outcome (io : HostIO) (now : string) (packet : Packet)
    (w : World) :
  isInitialized (svc w) = true →
  match saveSurveyPacket io now packet w with
  | (w', Ok pd) =>
      pd = packetData now packet ∧
      stored w' (surveyId packet)
      = Some (if useLocalStorageFallback (svc w)
              then of_json (to_json pd) else pd) ∧
      Calls.status_at w' (surveyId packet) = Some (Js.Str "pending") ∧
      write_ok io = true
  | (w', Threw _) => w' = w
  end.
Proof.
  intros Hinit. unfold saveSurveyPacket.
  rewrite ensureInitialized_ready by done.
  unfold Calls.status_at, stored, setItem, putData.
  destruct (useLocalStorageFallback (svc w)) eqn:Hfb.
  - destruct (write_ok io); simpl; [| apply world_eta].
    by rewrite Hfb, getItem_insert, decide_True.
  - destruct (db (svc w)); simpl; [| apply world_eta].
    destruct (write_ok io); simpl; [| apply world_eta].
    by rewrite Hfb, lookup_insert_eq.
Qed.

(** X26. Completing a survey from the survey screen leads to the dashboard
    only when the recorder handed out its packet and the store took the
    survey packet.  What is then stored under the survey's id is the
    packet the store built on the object store, and the packet its JSON
    text parses to on [localStorage]; it is pending, no survey is
    current, the recorder is idle and the user is told nothing.
    Otherwise the page stays where it was, the store is unchanged and
    the user gets the alert. *)
Theorem handleComplete_reaches_dashboard_only_when_stored :
  ∀ (io : HostIO) (survey_id : Z) (fix_ : Result Location)
    (endT doneT now saved : string) (st : SurveyScreen.State)
    (rec : VerificationService.Service) (a : State) (w : World),
    isInitialized (svc w) = true →
    currentScreen a = survey →
    let out := SurveyScreen.handleComplete packet_body
                 (handleCompleteSurvey io saved) survey_id
                 fix_ endT doneT now st rec (a, w) in
    let rec' := out.1.1 in
    let a' := out.1.2.1 in
    let w' := out.1.2.2 in
    match currentScreen a' with
    | dashboard =>
        ∃ final : VerificationService.VerificationPacket,
          (VerificationService.completeSurvey fix_ endT doneT rec).2
            = Ok final ∧
          stored w' (pretty survey_id)
            = Some (let pd := packetData saved
                                (SurveyScreen.surveyPacket packet_body
                                   survey_id now st final) in
                    if useLocalStorageFallback (svc w)
                    then of_json (to_json pd) else pd) ∧
          Calls.status_at w' (pretty survey_id) = Some (Js.Str "pending") ∧
          currentSurvey a' = None ∧
          Js.truthy (VerificationService.currentSurvey rec') = false ∧
          out.2 = SurveyScreen.Quiet
    | _ =>
        a' = a ∧ w' = w ∧
        out.2 = SurveyScreen.Alert "Failed to save survey. Please try again."
    end.
Proof.
  intros io survey_id fix_ endT doneT now saved st rec a w Hinit Hscreen.
  cbv zeta. unfold SurveyScreen.handleComplete.
  destruct (VerificationService.completeSurvey fix_ endT doneT rec)
    as [rec' [final | e]] eqn:Hdone; simpl.
  - unfold handleCompleteSurvey. simpl.
    pose proof (save_outcome io saved
      (SurveyScreen.surveyPacket packet_body survey_id now st final) w Hinit)
      as Hsave.
    destruct (saveSurveyPacket io saved _ w) as [w' [pd | e]]; simpl.
    + destruct Hsave as (-> & Hstored & Hstatus & _).
      simpl in Hstored, Hstatus.
      exists final. split; [done |]. split; [exact Hstored |].
      split; [exact Hstatus |]. split; [done |]. split; [| done].
      unfold VerificationService.completeSurvey in Hdone.
      destruct (Js.truthy (VerificationService.currentSurvey rec));
        simpl in Hdone; [| discriminate].
      destruct fix_; [| discriminate]. by injection Hdone as <- _.
    + rewrite Hscreen. by subst.
  - by rewrite Hscreen.
Qed.

(** X27. When the recorder has handed out its packet but the store rejects
    the survey packet (the medium refuses the write), the user gets the
    alert and the page stays where it was with the store unchanged, and
    completing again cannot succeed: whatever the host does, the
    recorder throws, the user gets the alert again, and neither the
    page nor the store changes.  The finished verification record is
    lost. *)
Theorem handleComplete_cannot_be_retried_after_failed_save :
  ∀ (io io2 : HostIO) (survey_id : Z) (loc : Location)
    (fix2 : Result Location)
    (endT doneT now saved endT2 doneT2 now2 saved2 : string)
    (st st2 : SurveyScreen.State)
    (rec : VerificationService.Service) (a : State) (w : World),
    isInitialized (svc w) = true →
    Js.truthy (VerificationService.currentSurvey rec) = true →
    write_ok io = false →
    let out := SurveyScreen.handleComplete packet_body
                 (handleCompleteSurvey io saved) survey_id
                 (Ok loc) endT doneT now st rec (a, w) in
    out.1.2 = (a, w) ∧
    SurveyScreen.handleComplete packet_body
      (handleCompleteSurvey io2 saved2) survey_id
      fix2 endT2 doneT2 now2 st2 out.1.1 out.1.2
    = ((out.1.1, (a, w)),
       SurveyScreen.Alert "Failed to save survey. Please try again.") ∧
    out.2 = SurveyScreen.Alert "Failed to save survey. Please try again.".
Proof.
  intros io io2 survey_id loc fix2 endT doneT now saved endT2 doneT2 now2
    saved2 st st2 rec a w Hinit Hactive Hreject. cbv zeta.
  assert (Hout : ∃ rec1 : VerificationService.Service,
            Js.truthy (VerificationService.currentSurvey rec1) = false ∧
            SurveyScreen.handleComplete packet_body
              (handleCompleteSurvey io saved) survey_id
              (Ok loc) endT doneT now st rec (a, w)
            = ((rec1, (a, w)),
               SurveyScreen.Alert
                 "Failed to save survey. Please try again.")).
  { assert (Hsave : ∀ packet : Packet,
              handleCompleteSurvey io saved packet (a, w)
              = ((a, w),
                 SurveyScreen.Alert
                   "Failed to save survey. Please try again.")).
    { intros packet. unfold handleCompleteSurvey. simpl.
      pose proof (save_outcome io saved packet w Hinit) as Hsave.
      destruct (saveSurveyPacket io saved packet w) as [w' [pd | e]];
        simpl in *; [destruct Hsave as (_ & _ & _ & Hw); congruence |].
      by subst w'. }
    unfold SurveyScreen.handleComplete, VerificationService.completeSurvey.
    rewrite Hactive. cbv zeta. simpl. rewrite Hsave. simpl.
    eexists. split; [| reflexivity]. reflexivity. }
  destruct Hout as (rec1 & Hidle & ->). simpl. split; [reflexivity |].
  split; [| reflexivity].
  unfold SurveyScreen.handleComplete, VerificationService.completeSurvey.
  by rewrite Hidle.
Qed.

(** X28. Leaving through logout always ends on the login screen with no user
    and no current survey.  On an active recorder the sampler is stopped
    and the recorder becomes idle exactly when the final location fix
    resolves; on a recorder that is not active nothing is touched, so a
    sampler armed for a falsy survey id keeps running.  Going back to
    the dashboard does the same to the recorder once the user confirms,
    and changes nothing when the user declines. *)
Theorem leaving_stops_an_active_recorder :
  ∀ (confirmExit : bool) (fix_ : Result Location) (endT doneT : string)
    (a : State) (rec : VerificationService.Service),
    tracking_consistent rec →
    let active := Js.truthy (VerificationService.currentSurvey rec) in
    let out := handleLogout fix_ endT doneT (a, rec) in
    let back := handleBackToDashboard confirmExit fix_ endT doneT (a, rec) in
    out.1 = {| currentScreen := login; user := None;
               currentSurvey := None |} ∧
    (if active
     then VerificationService.isTracking out.2 = false ∧
          Js.truthy (VerificationService.currentSurvey out.2)
            = negb (is_ok fix_)
     else out.2 = rec) ∧
    (if active && bool_decide (currentSurvey a ≠ None)
     then if confirmExit
          then back = ({| currentScreen := dashboard; user := user a;
                          currentSurvey := None |}, out.2)
          else back = (a, rec)
     else back = ({| currentScreen := dashboard; user := user a;
                     currentSurvey := None |}, rec)).
Proof.
  intros confirmExit fix_ endT doneT a rec Hcons. cbv zeta.
  unfold handleLogout, handleBackToDashboard,
    VerificationService.getVerificationStatus. simpl.
  destruct (Js.truthy (VerificationService.currentSurvey rec)) eqn:Hactive;
    simpl.
  - split; [done |]. split.
    + destruct (completeSurvey_always_stops_sampler_aux fix_ endT doneT rec
                  Hactive Hcons) as [Htrack _].
      split; [exact Htrack |].
      unfold VerificationService.completeSurvey. rewrite Hactive. simpl.
      destruct fix_; simpl; [done |].
      unfold VerificationService.stopLocationTracking.
      by destruct (VerificationService.locationWatcher rec).
    + destruct (currentSurvey a) as [sid |]; simpl.
      * by destruct confirmExit.
      * done.
  - split; [done |]. split; [done |].
    by destruct (currentSurvey a).
Qed.

End PageFacts.

Section DashboardFacts.
Import DashboardScreen.

(** X29. The dashboard's sync, when online, turns every completed survey
    into a synced one and touches nothing else: the list keeps its
    length and its ids in order, no survey is left completed, the synced
    count grows by the completed count, the pending count stays, the
    sync button ends up disabled, and a second sync changes nothing.
    Offline the list is left as it is. *)
Theorem handleSyncData_moves_completed_to_synced :
  ∀ (isOnline isSyncing : bool) (surveys : list Survey),
    let after := handleSyncData isOnline surveys in
    if isOnline
    then
      map id after = map id surveys ∧
      completedSurveys after = [] ∧
      count "synced" after = count "synced" surveys + count "completed" surveys ∧
      count "pending" after = count "pending" surveys ∧
      sync_disabled isOnline isSyncing after = true ∧
      handleSyncData true after = after
    else after = surveys.
Proof.
  intros isOnline isSyncing surveys. cbv zeta.
  destruct isOnline; [| reflexivity].
  unfold handleSyncData, sync_disabled, completedSurveys, count. simpl.
  assert (Hnone : List.filter (has_status "completed")
           (map (fun survey : Survey =>
                   if String.eqb (status survey) "completed"
                   then {| id := id survey; status := "synced" |}
                   else survey) surveys) = []).
  { induction surveys as [| x l IH]; [done |]. simpl.
    unfold has_status at 1.
    destruct (String.eqb (status x) "completed") eqn:Hx; simpl;
      [exact IH | by rewrite Hx]. }
  rewrite Hnone. simpl. rewrite orb_true_r.
  repeat split.
  - clear Hnone. induction surveys as [| x l IH]; [done |]. simpl.
    rewrite IH. by destruct (String.eqb (status x) "completed").
  - clear Hnone. induction surveys as [| x l IH]; [done |]. simpl.
    unfold has_status in *.
    destruct (String.eqb (status x) "completed") eqn:Hx; simpl.
    + apply String.eqb_eq in Hx. rewrite Hx. simpl. lia.
    + destruct (String.eqb (status x) "synced"); simpl; lia.
  - clear Hnone. induction surveys as [| x l IH]; [done |]. simpl.
    unfold has_status in *.
    destruct (String.eqb (status x) "completed") eqn:Hx; simpl.
    + apply String.eqb_eq in Hx. rewrite Hx. simpl. exact IH.
    + destruct (String.eqb (status x) "pending"); simpl; lia.
  - clear Hnone. induction surveys as [| x l IH]; [done |]. simpl.
    rewrite IH.
    by destruct (String.eqb (status x) "completed") eqn:Hx; simpl;
      rewrite ?Hx.
Qed.

End DashboardFacts.

Section LoginFacts.
Import LoginScreen.

Lemma before_split (c : ascii) (s : string) :
  includes c s = true →
  ∃ rest : string,
    s = String.append (before c s) (String c rest) ∧
    includes c (before c s) = false.
Proof.
  induction s as [| a s IH]; simpl; [discriminate |].
  destruct (Ascii.eqb a c) eqn:Hac; simpl.
  - intros _. apply Ascii.eqb_eq in Hac as ->. by exists s.
  - intros Hin. destruct (IH Hin) as (rest & Hs & Hnot).
    exists rest. split.
    + change (String a s = String a
                (String.append (before c s) (String c rest))).
      by rewrite <- Hs.
    + change (Ascii.eqb a c || includes c (before c s) = false).
      by rewrite Hac.
Qed.

(** X30. The login form lets a user in exactly when the email contains an
    at sign and the password has at least six characters.  The user
    then carries the email as typed, and the name is the part of the
    email before its first at sign. *)
Theorem handleLogin_accepts_at_sign_and_six_characters :
  ∀ (email_ password : string),
    match handleLogin email_ password with
    | LoggedIn u =>
        includes at_sign email_ = true ∧
        (6 ≤ String.length password)%nat ∧
        email u = email_ ∧
        includes at_sign (name u) = false ∧
        ∃ rest : string,
          email_ = String.append (name u) (String at_sign rest)
    | ShowError _ =>
        includes at_sign email_ = false ∨ (String.length password < 6)%nat
    end.
Proof.
  intros email_ password. unfold handleLogin.
  destruct (6 <=? String.length password)%nat eqn:Hlen.
  - apply Nat.leb_le in Hlen.
    destruct (includes at_sign email_) eqn:Hat.
    + destruct (String.eqb email_ "") eqn:He.
      { apply String.eqb_eq in He. subst email_. discriminate Hat. }
      destruct (String.eqb password "") eqn:Hp.
      { apply String.eqb_eq in Hp. subst password. simpl in Hlen. lia. }
      simpl.
      destruct (before_split at_sign email_ Hat) as (rest & Hs & Hnot).
      split; [done |]. split; [exact Hlen |]. split; [done |].
      split; [exact Hnot | by exists rest].
    + destruct (String.eqb email_ "" || String.eqb password ""); simpl;
        by left.
  - apply Nat.leb_gt in Hlen.
    destruct (String.eqb email_ "" || String.eqb password "");
      [by right |].
    rewrite andb_false_r. by right.
Qed.

End LoginFacts.

(** ** The further properties on the simulated host *)

Section MoreOnSim.
Import StorageService Calls Scenario Cases StoreView SyncView RecorderView.
#[local] Existing Instance Sim.host.

Ltac evaluated := vm_compute; first [reflexivity | exact I | done].
Ltac keyed := apply (bool_decide_unpack _); vm_compute; exact I.
Ltac is_ready := split; [evaluated | first [left; evaluated | right; evaluated]].

(** X1 (witness). A packet with a recording saved into the fallback store
    that holds [S1]: the save returns the packet as built, the store
    reads it back with the [Blob] as an empty object and without the
    property that was undefined, and [S1] is as before. *)
Lemma saveSurveyPacket_upserts_or_leaves_store_witness :
  match saveSurveyPacket io_fallback Sim.t3 (audio_packet "S2")
          fallback_S1 with
  | (w', Ok pd) =>
      body pd = body (audio_packet "S2") ∧
      body <$> stored w' "S2"
      = Some (Js.Object
                [("answers", Js.Object [("4", audio_answer_read_back)]);
                 ("notes", Js.Str "")]) ∧
      status_at w' "S2" = Some (Js.Str "pending") ∧
      stored w' "S1" = stored fallback_S1 "S1"
  | (w', Threw _) => False
  end.
Proof.
  pose proof (saveSurveyPacket_upserts_or_leaves_store io_fallback Sim.t3
                (audio_packet "S2") fallback_S1 eq_refl) as Hsave.
  assert (Hok : is_ok (saveSurveyPacket io_fallback Sim.t3
                         (audio_packet "S2") fallback_S1).2 = true)
    by evaluated.
  destruct (saveSurveyPacket io_fallback Sim.t3 (audio_packet "S2")
              fallback_S1) as [w' [pd | e]]; [| discriminate Hok].
  destruct Hsave as (_ & _ & _ & Hbody & Hstored & Hstatus & Hother).
  split; [exact Hbody |]. split; [| split; [exact Hstatus |]].
  - assert (Hread : stored w' "S2" = Some (of_json (to_json pd)))
      by exact Hstored.
    rewrite Hread. simpl. rewrite Hbody. reflexivity.
  - apply Hother. discriminate.
Defined.

(** X2 (witness). Two saves of [S1] on the fallback store. *)
Lemma saveSurveyPacket_last_write_wins_witness :
  (saveSurveyPacket io_fallback Sim.t3 (packet "S1")
     (saveSurveyPacket io_fallback Sim.t1 (packet "S1") fallback_S1).1).1
  = (saveSurveyPacket io_fallback Sim.t3 (packet "S1") fallback_S1).1.
Proof.
  apply saveSurveyPacket_last_write_wins; evaluated.
Defined.

(** X3 (witness). Marking [S9], which is not stored. *)
Lemma markPacketAsSynced_missing_is_noop_witness :
  markPacketAsSynced io_ok Sim.t3 "S9" synced_S1 = (synced_S1, Ok tt).
Proof.
  apply markPacketAsSynced_missing_is_noop; evaluated.
Defined.

(** X4 (witness). Marking [S2] in the store where [S2] and [S3] are pending. *)
Lemma markPacketAsSynced_marks_only_that_packet_witness :
  let w' := (markPacketAsSynced io_ok Sim.t3 "S2" pending_S2_S3).1 in
  status_at w' "S2" = Some (Js.Str "synced") ∧
  stored w' "S3" = stored pending_S2_S3 "S3".
Proof.
  cbv zeta.
  destruct (markPacketAsSynced_marks_only_that_packet io_ok Sim.t3 "S2"
              (packetData Sim.t3 (packet "S2")) pending_S2_S3)
    as (_ & (p' & Hp' & _ & _ & _ & _ & _ & Hmark) & Hother).
  - is_ready.
  - keyed.
  - evaluated.
  - simpl in Hmark. destruct Hmark as [Hs _].
    split; [unfold status_at; by rewrite Hp', <- Hs | by apply Hother].
Defined.

(** X5 (witness). The pending list of the store with [S2] and [S3]. *)
Lemma getSurveyPacketsForSync_lists_the_pending_witness :
  ∃ l : list Packet,
    getSurveyPacketsForSync io_ok pending_S2_S3 = (pending_S2_S3, Ok l) ∧
    (∀ p : Packet,
       p ∈ l →
       is_pending p = true ∧ stored pending_S2_S3 (surveyId p) = Some p) ∧
    ∀ (id : string) (p : Packet),
      stored pending_S2_S3 id = Some p → is_pending p = true → p ∈ l.
Proof.
  destruct (getSurveyPacketsForSync_lists_the_pending io_ok pending_S2_S3)
    as (l & Hl & Hsound & Hcomplete).
  - is_ready.
  - keyed.
  - keyed.
  - exists l. split; [exact Hl |]. split; [exact Hsound | exact Hcomplete].
Defined.

(** X6 (witness). Statistics and pending list of the store with [S2] and [S3]. *)
Lemma getStorageStats_counts_what_sync_lists_witness :
  match (getStorageStats io_ok Sim.t3 pending_S2_S3).2,
        (getSurveyPacketsForSync io_ok pending_S2_S3).2 with
  | Ok st, Ok l =>
      pendingSync st = length l ∧
      (pendingSync st ≤ totalSurveys st)%nat ∧
      (syncedSurveys st ≤ totalSurveys st)%nat ∧
      lastUpdate st = Sim.t3
  | _, _ => False
  end.
Proof.
  apply getStorageStats_counts_what_sync_lists. evaluated.
Defined.

(** X7 (witness). Clearing the fallback store keeps the foreign entry. *)
Lemma clearAllData_removes_every_packet_witness :
  match clearAllData io_fallback fallback_S1 with
  | (w', Ok _) =>
      (∀ id : string, stored w' id = None) ∧
      visible w' = [] ∧
      svc w' = svc fallback_S1 ∧
      (∀ k : string, is_survey_key k = false →
         localStorage (media w') !! k = localStorage (media fallback_S1) !! k)
  | (w', Threw e) => e = "Data clear failed" ∧ w' = fallback_S1
  end.
Proof.
  apply clearAllData_removes_every_packet. evaluated.
Defined.

(** X8 (witness). A clear and a save on the fallback store keep the fallback. *)
Lemma run_keeps_the_medium_witness :
  svc (run [ClearAll io_ok; Save io_ok Sim.t3 (packet "S4")] fallback_S1)
  = svc fallback_S1 ∧
  isInitialized
    (svc (run [ClearAll io_ok; Save io_ok Sim.t3 (packet "S4")] fallback_S1))
  = true.
Proof.
  apply run_keeps_the_medium. evaluated.
Defined.

(** X10 (witness). A fresh page in a browser where opening the database throws. *)
Lemma store_calls_reject_while_open_throws_witness :
  saveSurveyPacket io_throws Sim.t3 (packet "S1") fresh
    = (fresh, Threw "Storage initialization failed") ∧
  markPacketAsSynced io_throws Sim.t3 "S1" fresh
    = (fresh, Threw "Storage initialization failed") ∧
  getSurveyPacketsForSync io_throws fresh
    = (fresh, Threw "Storage initialization failed") ∧
  getStorageStats io_throws Sim.t3 fresh
    = (fresh, Threw "Storage initialization failed") ∧
  clearAllData io_throws fresh
    = (fresh, Threw "Storage initialization failed").
Proof.
  apply store_calls_reject_while_open_throws; evaluated.
Defined.

(** X12 (witness). Survey id 0: started, one answer attempted, then completed. *)
Lemma startSurvey_falsy_id_is_never_active_witness :
  let s := play [Answer (Js.Number 1) (Js.Str "yes") (Ok Sim.here) Sim.t1]
             (VerificationService.startSurvey (H := Sim.host) (Js.Number 0)
                Sim.t0 "ua" (Ok Sim.here) 1
                VerificationService.constructor).1 in
  VerificationService.s_isActive
    (VerificationService.getVerificationStatus s) = false ∧
  VerificationService.s_isTracking
    (VerificationService.getVerificationStatus s) = true ∧
  VerificationService.answerTimestamps
    (VerificationService.verificationData s) = [] ∧
  VerificationService.completeSurvey (Ok Sim.here) Sim.t3 Sim.t3 s
  = (s, Threw "No active survey to complete").
Proof.
  cbv zeta.
  destruct (startSurvey_falsy_id_is_never_active (H := Sim.host) (Js.Number 0) Sim.t0 "ua"
              Sim.here 1 VerificationService.constructor
              [Answer (H := Sim.host) (Js.Number 1) (Js.Str "yes")
                 (Ok Sim.here) Sim.t1]
              (Ok Sim.here) Sim.t3 Sim.t3 eq_refl)
    as (_ & Hidle & Htrack & Hlog & Hthrow).
  split; [exact Hidle |]. split; [exact Htrack |].
  split; [exact Hlog | exact Hthrow].
Defined.

(** X13 (witness). The active recorder, first with a failing fix, then with one that
    resolves. *)
Lemma completeSurvey_failed_fix_can_be_retried_witness :
  let failed := VerificationService.completeSurvey (H := Sim.host)
                  (Threw "timeout") Sim.t2 Sim.t2 active in
  failed.2 = Threw "Verification completion failed" ∧
  VerificationService.currentSurvey failed.1
    = VerificationService.currentSurvey active ∧
  VerificationService.verificationData failed.1
    = VerificationService.verificationData active ∧
  VerificationService.completeSurvey (Ok Sim.here) Sim.t3 Sim.t3 failed.1
  = VerificationService.completeSurvey (Ok Sim.here) Sim.t3 Sim.t3 active.
Proof.
  apply (completeSurvey_failed_fix_can_be_retried (H := Sim.host) "timeout" Sim.here
           Sim.t2 Sim.t2 Sim.t3 Sim.t3 active).
  evaluated.
Defined.

(** X14 (witness). The active recorder has its sampler armed; completing stops it. *)
Lemma completeSurvey_always_stops_sampler_witness :
  let s' := (VerificationService.completeSurvey (H := Sim.host)
               (Threw "timeout") Sim.t3 Sim.t3 active).1 in
  VerificationService.isTracking active = true ∧
  VerificationService.isTracking s' = false ∧
  VerificationService.locationWatcher s' = None.
Proof.
  cbv zeta. split; [evaluated |].
  apply completeSurvey_always_stops_sampler; [evaluated |].
  intros _. vm_compute. discriminate.
Defined.

(** X15 (witness). The packet of the active recorder carries the digest of its own
    fields. *)
Lemma completeSurvey_packet_hash_matches_its_fields_witness :
  match (VerificationService.completeSurvey (H := Sim.host)
           (Ok Sim.here) Sim.t3 Sim.t3 active).2 with
  | Ok packet =>
      VerificationService.verificationHash (VerificationService.data packet)
        = Some (digest (VerificationService.data packet)) ∧
      VerificationService.endTime (VerificationService.data packet)
        = Some Sim.t3 ∧
      VerificationService.version packet = "1.0"
  | Threw _ => False
  end.
Proof.
  assert (Hok : is_ok (VerificationService.completeSurvey (H := Sim.host)
                         (Ok Sim.here) Sim.t3 Sim.t3 active).2 = true)
    by evaluated.
  destruct (VerificationService.completeSurvey (H := Sim.host)
              (Ok Sim.here) Sim.t3 Sim.t3 active)
    as [s' [packet | e]] eqn:Hrun; [| discriminate Hok]. simpl.
  destruct (completeSurvey_packet_hash_matches_its_fields _ _ _ _ _ _ Hrun)
    as (Hhash & Hend & _ & _ & _ & _ & _ & _ & _ & _ & Hversion).
  split; [exact Hhash |]. split; [exact Hend | exact Hversion].
Defined.

(** X16 (witness). Started at 10:00:00.000 and ended at 10:04:59.600, the survey took
    300 seconds. *)
Lemma completeSurvey_duration_is_rounded_seconds_witness :
  match (VerificationService.completeSurvey (H := Sim.host)
           (Ok Sim.here) Sim.t2 Sim.t3 active).2 with
  | Ok packet =>
      VerificationService.duration (VerificationService.data packet)
      = Some 300%Z
  | Threw _ => False
  end.
Proof.
  assert (Hok : is_ok (VerificationService.completeSurvey (H := Sim.host)
                         (Ok Sim.here) Sim.t2 Sim.t3 active).2 = true)
    by evaluated.
  destruct (VerificationService.completeSurvey (H := Sim.host)
              (Ok Sim.here) Sim.t2 Sim.t3 active)
    as [s' [packet | e]] eqn:Hrun; [| discriminate Hok]. simpl.
  pose proof (completeSurvey_duration_is_rounded_seconds _ _ _ _ _ _ Hrun)
    as Hduration.
  assert (Hd : ∃ r : Z,
            VerificationService.duration (VerificationService.data packet)
              = Some r ∧
            (1000 * r - 500 ≤ 299600 < 1000 * r + 500)%Z)
    by exact Hduration.
  destruct Hd as (r & Hr & Hbounds). rewrite Hr. f_equal. lia.
Defined.

(** X17 (witness). Survey 7 started while the location provider is down. *)
Lemma startSurvey_failed_fix_still_opens_session_witness :
  let s := (VerificationService.startSurvey (H := Sim.host) (Js.Number 7)
              Sim.t0 "ua" (Threw "no signal") 1
              VerificationService.constructor).1 in
  VerificationService.s_isActive
    (VerificationService.getVerificationStatus s) = true ∧
  ∃ packet : VerificationService.VerificationPacket,
    (VerificationService.completeSurvey (Ok Sim.here) Sim.t3 Sim.t3 s).2
      = Ok packet ∧
    VerificationService.startLocation (VerificationService.data packet)
      = None.
Proof.
  cbv zeta.
  destruct (startSurvey_failed_fix_still_opens_session (H := Sim.host)
              (Js.Number 7) Sim.t0
              "ua" "no signal" 1 VerificationService.constructor Sim.here
              Sim.t3 Sim.t3 eq_refl)
    as (_ & Hactive & _ & _ & _ & packet & Hdone & _ & _ & Hstart).
  split; [exact Hactive |]. exists packet. split; [exact Hdone | exact Hstart].
Defined.

(** X21 (witness). Two pending packets, the first upload fails. *)
Lemma syncAll_reports_each_packet_in_order_witness :
  match (SyncService.syncAllPendingData (uploads 0)
           (system pending_S2_S3)).2 with
  | Ok r =>
      ∃ rs : list SyncService.PacketResult,
        SyncService.results r = Some rs ∧
        map SyncService.r_surveyId rs = ["S2"; "S3"] ∧
        map SyncService.r_success rs = [false; true] ∧
        SyncService.synced r = 1
  | Threw _ => False
  end.
Proof.
  assert (Hok : is_ok (SyncService.syncAllPendingData (uploads 0)
                         (system pending_S2_S3)).2 = true) by evaluated.
  destruct (SyncService.syncAllPendingData (uploads 0) (system pending_S2_S3))
    as [st' [r | e]] eqn:Hrun; [| discriminate Hok]. simpl.
  destruct (syncAll_reports_each_packet_in_order (uploads 0)
              (system pending_S2_S3) st' r)
    as (rs & Hrs & _ & Hids & Hoks & Hsynced).
  - evaluated.
  - vm_compute. discriminate.
  - exact Hrun.
  - exists rs. split; [exact Hrs |]. split; [exact Hids |].
    split; [exact Hoks |]. rewrite Hsynced.
    assert (Hoks' : map SyncService.r_success rs = [false; true])
      by exact Hoks.
    clear -Hoks'. destruct rs as [| a [| b [| c rs]]]; try discriminate.
    injection Hoks' as Ha Hb. simpl. by rewrite Ha, Hb.
Defined.

Lemma all_ok_accepted : all_accepted all_ok.
Proof. split; [reflexivity |]. intros i. by repeat split. Qed.

(** X22 (witness). Two pending packets, every upload resolves. *)
Lemma syncAll_all_uploads_ok_drains_queue_witness :
  let after := (SyncService.syncAllPendingData all_ok
                  (system pending_S2_S3)).1 in
  (∀ (id : string) (p : Packet),
     stored (SyncService.store after) id = Some p → is_pending p = false) ∧
  pending_of all_ok (SyncService.store after) = [] ∧
  match (getSyncStatus io_ok Sim.t3 after).2 with
  | Ok status => st_pendingSync status = 0 ∧ st_isSyncing status = false
  | Threw _ => False
  end.
Proof.
  apply (syncAll_all_uploads_ok_drains_queue all_ok all_ok io_ok Sim.t3
           (system pending_S2_S3)).
  - evaluated.
  - evaluated.
  - is_ready.
  - keyed.
  - keyed.
  - exact all_ok_accepted.
Defined.


(** X24 (witness). The first upload fails: [S2] stays as it was. *)
Lemma syncAll_failed_upload_leaves_packet_pending_witness :
  stored
    (SyncService.store
       (SyncService.syncAllPendingData (uploads 0) (system pending_S2_S3)).1)
    "S2"
  = Some (packetData Sim.t3 (packet "S2")) ∧
  is_pending (packetData Sim.t3 (packet "S2")) = true.
Proof.
  apply (syncAll_failed_upload_leaves_packet_pending (uploads 0)
           (system pending_S2_S3) 0 (packetData Sim.t3 (packet "S2"))).
  - evaluated.
  - evaluated.
  - is_ready.
  - keyed.
  - keyed.
  - evaluated.
  - evaluated.
Defined.

(** X25 (witness). Every required question answered and the optional ones skipped:
    the screen is on its last question, the complete button is showing
    and enabled, and every required question has its answer. *)
Lemma clicks_reach_complete_only_with_required_answers_witness :
  let st := (SurveyScreen.clicks SurveyScreen.questions through_the_survey
               (SurveyScreen.initial, active)).1 in
  SurveyScreen.currentQuestionIndex st = 5 ∧
  SurveyScreen.shows_complete SurveyScreen.questions st = true ∧
  SurveyScreen.proceed_enabled SurveyScreen.questions st = true ∧
  ∀ q : SurveyScreen.Question,
    q ∈ SurveyScreen.questions → SurveyScreen.required q = true →
    SurveyScreen.answered
      (SurveyScreen.answers st !! SurveyScreen.id q) = true.
Proof.
  cbv zeta.
  destruct (clicks_reach_complete_only_with_required_answers (H := Sim.host)
              SurveyScreen.questions through_the_survey active)
    as (_ & _ & Hcomplete).
  - discriminate.
  - apply (bool_decide_unpack _). vm_compute. exact I.
  - split; [evaluated |]. split; [evaluated |]. split; [evaluated |].
    apply Hcomplete; evaluated.
Defined.

(** X26 (witness). Survey 7 completed on the survey screen, with a recording among
    the answers, in a browser without IndexedDB: the page is back on the
    dashboard, and the packet that is stored holds the recording as an
    empty object. *)
Lemma handleComplete_reaches_dashboard_only_when_stored_witness :
  let out := SurveyScreen.handleComplete (H := Sim.host) answers_body
               (Page.handleCompleteSurvey io_fallback Sim.t3) 7
               (Ok Sim.here) Sim.t3 Sim.t3 Sim.t3 with_recording
               active (on_survey, fallback_S1) in
  Page.currentScreen out.1.2.1 = Page.dashboard ∧
  body <$> stored out.1.2.2 "7"
  = Some (Js.Object
            [("answers", Js.Object [("4", audio_answer_read_back)]);
             ("notes", Js.Str "")]) ∧
  status_at out.1.2.2 "7" = Some (Js.Str "pending") ∧
  Page.currentSurvey out.1.2.1 = None ∧
  out.2 = SurveyScreen.Quiet.
Proof.
  cbv zeta.
  pose proof (handleComplete_reaches_dashboard_only_when_stored
                (H := Sim.host) answers_body io_fallback 7 (Ok Sim.here)
                Sim.t3 Sim.t3 Sim.t3 Sim.t3 with_recording active
                on_survey fallback_S1 eq_refl eq_refl) as Hdone.
  cbv zeta in Hdone.
  assert (Hscreen :
    Page.currentScreen
      (SurveyScreen.handleComplete (H := Sim.host) answers_body
         (Page.handleCompleteSurvey io_fallback Sim.t3) 7
         (Ok Sim.here) Sim.t3 Sim.t3 Sim.t3 with_recording
         active (on_survey, fallback_S1)).1.2.1 = Page.dashboard)
    by evaluated.
  rewrite Hscreen in Hdone.
  destruct Hdone as (final & _ & Hstored & Hpending & Hnone & _ & Hquiet).
  split; [exact Hscreen |]. split; [| split; [exact Hpending |]].
  - etransitivity; [exact (f_equal (fmap body) Hstored) |].
    vm_compute. reflexivity.
  - split; [exact Hnone | exact Hquiet].
Defined.

(** X27 (witness). The same completion with a medium that refuses the write, then a
    second try with one that would accept it. *)
Lemma handleComplete_cannot_be_retried_after_failed_save_witness :
  let out := SurveyScreen.handleComplete (H := Sim.host) plain_body
               (Page.handleCompleteSurvey io_refuse Sim.t3) 7
               (Ok Sim.here) Sim.t3 Sim.t3 Sim.t3 SurveyScreen.initial
               active (on_survey, synced_S1) in
  out.1.2 = (on_survey, synced_S1) ∧
  SurveyScreen.handleComplete plain_body
    (Page.handleCompleteSurvey io_ok Sim.t3) 7
    (Ok Sim.here) Sim.t3 Sim.t3 Sim.t3 SurveyScreen.initial out.1.1 out.1.2
  = ((out.1.1, (on_survey, synced_S1)),
     SurveyScreen.Alert "Failed to save survey. Please try again.") ∧
  out.2 = SurveyScreen.Alert "Failed to save survey. Please try again.".
Proof.
  apply (handleComplete_cannot_be_retried_after_failed_save (H := Sim.host)
           plain_body io_refuse io_ok 7 Sim.here (Ok Sim.here)
           Sim.t3 Sim.t3 Sim.t3 Sim.t3 Sim.t3 Sim.t3 Sim.t3 Sim.t3
           SurveyScreen.initial SurveyScreen.initial active on_survey
           synced_S1); evaluated.
Defined.

(** X28 (witness). Logging out in the middle of survey 7. *)
Lemma leaving_stops_an_active_recorder_witness :
  let out := Page.handleLogout (H := Sim.host) (Ok Sim.here) Sim.t3 Sim.t3
               (on_survey, active) in
  out.1 = {| Page.currentScreen := Page.login; Page.user := None;
             Page.currentSurvey := None |} ∧
  VerificationService.isTracking out.2 = false ∧
  Js.truthy (VerificationService.currentSurvey out.2) = false ∧
  Page.handleBackToDashboard false (Ok Sim.here) Sim.t3 Sim.t3
    (on_survey, active) = (on_survey, active).
Proof.
  cbv zeta.
  destruct (leaving_stops_an_active_recorder (H := Sim.host) false
              (Ok Sim.here) Sim.t3 Sim.t3 on_survey active)
    as (Hpage & Hrec & Hback).
  - intros _. vm_compute. discriminate.
  - split; [exact Hpage |].
    assert (Hrec' :
      VerificationService.isTracking
        (Page.handleLogout (H := Sim.host) (Ok Sim.here) Sim.t3 Sim.t3
           (on_survey, active)).2 = false ∧
      Js.truthy
        (VerificationService.currentSurvey
           (Page.handleLogout (H := Sim.host) (Ok Sim.here) Sim.t3 Sim.t3
              (on_survey, active)).2) = false) by exact Hrec.
    destruct Hrec' as [Htrack Hidle].
    split; [exact Htrack |]. split; [exact Hidle | exact Hback].
Defined.

End MoreOnSim.

